(** * Weather-forecasting service: the request handlers of [routes.py]

    A shallow embedding of the Flask handlers of [src/routes.py]
    ([predict], [get_current_weather], [get_historical_weather],
    [get_prediction_history], [get_model_performance], [train_model]), of
    the configuration classes of [src/config.py] and of
    [create_directories] of [src/app.py], together with the Python
    built-ins they call, and the properties of the forecast aggregation, of
    the request validation and of the mapping of failures to HTTP status
    codes.

    Python values keep their dynamic type where the handlers depend on it
    (an [int] and a [float] add, round and serialise differently); Python
    floats are IEEE doubles, here the kernel's primitive floats; exceptions
    are an error monad whose [try]/[except] clauses are written out. *)

From Stdlib Require Import ZArith List String Ascii Bool Lia DecimalString.
From Stdlib Require Import Floats Permutation Sorted.
Import ListNotations.

Set Warnings "-inexact-float".
Set Default Proof Using "Type".

Local Open Scope string_scope.
Local Open Scope list_scope.
Local Open Scope Z_scope.

(* ===================================================================== *)
(** ** Python values, exceptions and built-ins                            *)
(* ===================================================================== *)

Module Py.

(** The exception classes the handlers can meet.  Only [ValueError] is told
    apart by an [except] clause; it carries [str(e)]. *)
Inductive exn : Type :=
| ValueError (msg : string)
| TypeError
| KeyError
| IndexError
| AttributeError
| OverflowError
| OSError
| HTTPException
| RequestException
| DatabaseError.

Inductive res (A : Type) : Type :=
| Ok (a : A)
| Raise (e : exn).
Arguments Ok {A} a.
Arguments Raise {A} e.

Definition bind {A B : Type} (m : res A) (k : A -> res B) : res B :=
  match m with
  | Ok a => k a
  | Raise e => Raise e
  end.

Definition is_ok {A : Type} (m : res A) : bool :=
  match m with Ok _ => true | Raise _ => false end.

Definition is_ValueError (e : exn) : bool :=
  match e with ValueError _ => true | _ => false end.

(** [for x in l: acc.append(f(x))], stopping at the first exception. *)
Fixpoint mapM {A B : Type} (f : A -> res B) (l : list A) : res (list B) :=
  match l with
  | [] => Ok []
  | x :: r =>
      bind (f x) (fun y => bind (mapM f r) (fun ys => Ok (y :: ys)))
  end.

(** A number as [json.loads] builds it: an [int] of any size or a double. *)
Inductive num : Type :=
| PInt (z : Z)
| PFloat (f : float).

#[local] Set Warnings "-register-all".

(** A decoded JSON document ([request.get_json()], [response.json()]);
    an object keeps its items in order, [None] is [JNull]. *)
Inductive json : Type :=
| JNull
| JBool (b : bool)
| JNum (n : num)
| JStr (s : string)
| JArr (items : list json)
| JObj (items : list (string * json)).

(** *** Dictionaries in insertion order *)

Section Dict.
Context {V : Type}.

Definition dict : Type := list (string * V).

Fixpoint dict_get (k : string) (d : dict) : option V :=
  match d with
  | [] => None
  | (k', v) :: r => if String.eqb k k' then Some v else dict_get k r
  end.

(** [k in d] *)
Definition dict_mem (k : string) (d : dict) : bool :=
  match dict_get k d with Some _ => true | None => false end.

(** [d[k] = v]: a key already there keeps its place, a new key goes last. *)
Fixpoint dict_set (k : string) (v : V) (d : dict) : dict :=
  match d with
  | [] => [(k, v)]
  | (k', v') :: r =>
      if String.eqb k k' then (k, v) :: r else (k', v') :: dict_set k v r
  end.

Definition dict_keys (d : dict) : list string := map fst d.
End Dict.
Arguments dict V : clear implicits.

(** *** Sorting *)

(** [sorted(l, key=...)] and SQL's [ORDER BY] as a stable insertion sort;
    [leb x y] says the key of [x] does not come after the key of [y]. *)
Section Sort.
Context {A : Type} (leb : A -> A -> bool).

Fixpoint insert_by (x : A) (l : list A) : list A :=
  match l with
  | [] => [x]
  | y :: r => if leb x y then x :: y :: r else y :: insert_by x r
  end.

Definition sort_by (l : list A) : list A := fold_right insert_by [] l.
End Sort.

(** *** Numbers *)

(** [float(z)] for an [int]: the nearest double, ties to even, and
    [OverflowError] when that is not finite. *)
Definition float_of_Z (z : Z) : res float :=
  let f := SF2Prim (binary_normalize prec emax z 0 false) in
  if PrimFloat.is_infinity f then Raise OverflowError else Ok f.

Definition to_float (n : num) : res float :=
  match n with
  | PInt z => float_of_Z z
  | PFloat f => Ok f
  end.

(** [a + b] on numbers: exact on two ints; an int meeting a float is
    converted first. *)
Definition py_add (a b : num) : res num :=
  match a, b with
  | PInt x, PInt y => Ok (PInt (x + y))
  | _, _ =>
      bind (to_float a) (fun x =>
      bind (to_float b) (fun y => Ok (PFloat (PrimFloat.add x y))))
  end.

(** The integer nearest to [a / b] ([0 < b]), a tie going to the even one. *)
Definition round_half_even (a b : Z) : Z :=
  let q := a / b in
  let r := a mod b in
  match (2 * r ?= b) with
  | Lt => q
  | Gt => q + 1
  | Eq => if Z.even q then q else q + 1
  end.

(** [round(x, 1)] on a double: the exact value [m * 2^e] is rounded to the
    decimal [n / 10] (half to even), and that decimal is read back as the
    nearest double.  Zeros, infinities and NaN come back unchanged. *)
Definition float_round1 (x : float) : float :=
  match Prim2SF x with
  | S754_finite s m e =>
      let n := if 0 <=? e then 10 * Zpos m * 2 ^ e
               else round_half_even (10 * Zpos m) (2 ^ (- e)) in
      match n with
      | Zpos p =>
          SF2Prim (SFdiv prec emax (S754_finite s p 0) (S754_finite false 10 0))
      | _ => SF2Prim (S754_zero s)
      end
  | _ => x
  end.

(** [round(v, 1)]: an [int] is returned as it is. *)
Definition py_round1 (v : num) : num :=
  match v with
  | PInt z => PInt z
  | PFloat f => PFloat (float_round1 f)
  end.

(** [bool(x)] for a float: everything but the two zeros, NaN included. *)
Definition float_truthy (x : float) : bool := negb (PrimFloat.eqb x 0%float).

(** [lo <= x <= hi] *)
Definition float_between (lo x hi : float) : bool :=
  PrimFloat.leb lo x && PrimFloat.leb x hi.

(** *** Strings *)

Definition is_upper (c : ascii) : bool :=
  let n := nat_of_ascii c in (Nat.leb 65 n && Nat.leb n 90)%bool.
Definition is_lower (c : ascii) : bool :=
  let n := nat_of_ascii c in (Nat.leb 97 n && Nat.leb n 122)%bool.
Definition is_cased (c : ascii) : bool := is_upper c || is_lower c.
Definition to_upper (c : ascii) : ascii :=
  if is_lower c then ascii_of_nat (nat_of_ascii c - 32) else c.
Definition to_lower (c : ascii) : ascii :=
  if is_upper c then ascii_of_nat (nat_of_ascii c + 32) else c.

(** [s.title()] on a string of ASCII characters: a cased character is
    upper-cased when the character before it is not cased, lower-cased
    otherwise.  Strings are held as their UTF-8 bytes; on a string with a
    byte above 127 Python works on code points and on the Unicode tables,
    and this function is not used. *)
Fixpoint is_ascii (s : string) : bool :=
  match s with
  | EmptyString => true
  | String c r => Nat.ltb (nat_of_ascii c) 128 && is_ascii r
  end.

Fixpoint title_from (previous_is_cased : bool) (s : string) : string :=
  match s with
  | EmptyString => EmptyString
  | String c r =>
      String (if previous_is_cased then to_lower c else to_upper c)
             (title_from (is_cased c) r)
  end.

Definition title (s : string) : string := title_from false s.

(** Whether [sub] occurs in [s]: [sub in s] on two [str]. *)
Fixpoint is_substring (sub s : string) : bool :=
  String.prefix sub s ||
  match s with
  | EmptyString => false
  | String _ r => is_substring sub r
  end.

(** *** Decoded JSON as Python objects *)

(** [bool(v)] *)
Definition truthy (v : json) : bool :=
  match v with
  | JNull => false
  | JBool b => b
  | JNum (PInt z) => negb (z =? 0)
  | JNum (PFloat f) => float_truthy f
  | JStr s => negb (String.eqb s "")
  | JArr items => match items with [] => false | _ => true end
  | JObj items => match items with [] => false | _ => true end
  end.

Definition is_JStr (k : string) (v : json) : bool :=
  match v with JStr s => String.eqb s k | _ => false end.

(** [k in v] for a [str] [k]: a key of a dict, an element of a list, a
    substring of a string; anything else is not iterable. *)
Definition contains (k : string) (v : json) : res bool :=
  match v with
  | JObj items => Ok (dict_mem k items)
  | JArr items => Ok (existsb (is_JStr k) items)
  | JStr s => Ok (is_substring k s)
  | _ => Raise TypeError
  end.

(** [v[k]] for a [str] [k] *)
Definition getitem (v : json) (k : string) : res json :=
  match v with
  | JObj items =>
      match dict_get k items with Some x => Ok x | None => Raise KeyError end
  | _ => Raise TypeError
  end.

(** [v[0]] *)
Definition getitem0 (v : json) : res json :=
  match v with
  | JArr (x :: _) => Ok x
  | JArr [] => Raise IndexError
  | JStr (String c _) => Ok (JStr (String c EmptyString))
  | JStr EmptyString => Raise IndexError
  | JObj _ => Raise KeyError
  | _ => Raise TypeError
  end.

(** [v.get(k, default)]: only a dict has the method. *)
Definition get (v : json) (k : string) (default : json) : res json :=
  match v with
  | JObj items =>
      Ok (match dict_get k items with Some x => x | None => default end)
  | _ => Raise AttributeError
  end.

End Py.

(* ===================================================================== *)
(** ** Naive datetimes                                                    *)
(* ===================================================================== *)

Module Datetime.

(** A naive [datetime]. *)
Record datetime : Type := mk {
  year : Z; month : Z; day : Z; hour : Z; minute : Z; second : Z;
  microsecond : Z
}.

(** Year, month and day of the day numbered [z], day 0 being 1970-01-01
    (proleptic Gregorian calendar, as the C library's [localtime]). *)
Definition civil_from_days (z : Z) : Z * Z * Z :=
  let z := z + 719468 in
  let era := z / 146097 in
  let doe := z - era * 146097 in
  let yoe := (doe - doe / 1460 + doe / 36524 - doe / 146096) / 365 in
  let y := yoe + era * 400 in
  let doy := doe - (365 * yoe + yoe / 4 - yoe / 100) in
  let mp := (5 * doy + 2) / 153 in
  let d := doy - (153 * mp + 2) / 5 + 1 in
  let m := if mp <? 10 then mp + 3 else mp - 9 in
  (if m <=? 2 then y + 1 else y, m, d).

(** The fields of the wall-clock second [w] counted from 1970-01-01 00:00. *)
Definition of_wall (w : Z) : datetime :=
  let sod := w mod 86400 in
  let '(y, m, d) := civil_from_days (w / 86400) in
  mk y m d (sod / 3600) (sod mod 3600 / 60) (sod mod 60) 0.

(** [%i] and glibc's [%Y]: the decimal digits, no padding. *)
Definition decimal (z : Z) : string := NilZero.string_of_int (Z.to_int z).

(** The calendar year of the wall-clock second [w]. *)
Definition year_of_wall (w : Z) : Z :=
  let '(y, _, _) := civil_from_days (w / 86400) in y.

(** A C [int] holding [z] (two's complement on 32 bits). *)
Definition wrap_int (z : Z) : Z := (z + 2 ^ 31) mod 2 ^ 32 - 2 ^ 31.

(** Whether [u] fits the platform's [time_t] (64 bits). *)
Definition fits_time_t (u : Z) : bool := (- 2 ^ 63 <=? u) && (u <? 2 ^ 63).

(** The C library's [localtime_r] at the instant [u], [utcoffset u] being
    the seconds the local zone is ahead of UTC then: the wall-clock second,
    or [EOVERFLOW] when the year does not fit the [int] field [tm_year]. *)
Definition localtime (utcoffset : Z -> Z) (u : Z) : Py.res Z :=
  let w := u + utcoffset u in
  let tm_year := year_of_wall w - 1900 in
  if (- 2 ^ 31 <=? tm_year) && (tm_year <? 2 ^ 31) then Py.Ok w
  else Py.Raise Py.OSError.

(** CPython's [utc_to_seconds] on the fields of the wall-clock second [w]:
    the year, [tm_year + 1900] as an [int], has to be one [datetime]
    holds. *)
Definition utc_to_seconds (w : Z) : Py.res Z :=
  let year := wrap_int (year_of_wall w) in
  if (1 <=? year) && (year <=? 9999) then Py.Ok w
  else Py.Raise (Py.ValueError ("year " ++ decimal year ++ " is out of range")).

(** CPython's [local(u)]. *)
Definition local (utcoffset : Z -> Z) (u : Z) : Py.res Z :=
  if fits_time_t u then Py.bind (localtime utcoffset u) utc_to_seconds
  else Py.Raise Py.OverflowError.

Definition max_fold_seconds : Z := 24 * 3600.

(** [datetime.fromtimestamp(t)] for an integer [t], as CPython computes it
    on a 64-bit glibc host: the local time is asked of the C library, its
    year has to be within 1 to 9999, and the search for a repeated hour
    converts the instant one day before as well (and, where the clock was
    set back within that day, a third instant), each under the same
    conditions. *)
Definition fromtimestamp (utcoffset : Z -> Z) (t : Z) : Py.res datetime :=
  if negb (fits_time_t t) then Py.Raise Py.OverflowError
  else
    Py.bind (localtime utcoffset t) (fun w =>
    Py.bind (utc_to_seconds w) (fun result_seconds =>
    Py.bind (local utcoffset (t - max_fold_seconds)) (fun probe_seconds =>
    let transition := result_seconds - probe_seconds - max_fold_seconds in
    Py.bind (if transition <? 0 then local utcoffset (t + transition)
             else Py.Ok probe_seconds) (fun _ =>
    Py.Ok (of_wall w))))).

(** Naive datetimes compare as the tuples of their fields. *)
Definition tuple (d : datetime) : list Z :=
  [year d; month d; day d; hour d; minute d; second d; microsecond d].

Definition date_tuple (d : datetime) : list Z := [year d; month d; day d].

Fixpoint lex_compare (a b : list Z) : comparison :=
  match a, b with
  | [], [] => Eq
  | [], _ :: _ => Lt
  | _ :: _, [] => Gt
  | x :: a', y :: b' =>
      match x ?= y with
      | Eq => lex_compare a' b'
      | c => c
      end
  end.

(** [a < b] *)
Definition ltb (a b : datetime) : bool :=
  match lex_compare (tuple a) (tuple b) with Lt => true | _ => false end.

(** [a <= b] *)
Definition leb (a b : datetime) : bool := negb (ltb b a).

(** [a.date() < b.date()] *)
Definition date_ltb (a b : datetime) : bool :=
  match lex_compare (date_tuple a) (date_tuple b) with Lt => true | _ => false end.

(** *** [strftime] in the C locale *)

Definition digit (n : Z) : string :=
  String (ascii_of_nat (48 + Z.to_nat (n mod 10))) EmptyString.

Definition pad2 (n : Z) : string := digit (n / 10) ++ digit n.
Definition pad4 (n : Z) : string := pad2 (n / 100) ++ pad2 n.

Definition is_leap (y : Z) : bool :=
  (y mod 4 =? 0) && (negb (y mod 100 =? 0) || (y mod 400 =? 0)).

Definition days_before_year (y : Z) : Z :=
  let y := y - 1 in y * 365 + y / 4 - y / 100 + y / 400.

Definition days_before_month (y m : Z) : Z :=
  nth (Z.to_nat m) [0; 0; 31; 59; 90; 120; 151; 181; 212; 243; 273; 304; 334] 0
  + (if (2 <? m) && is_leap y then 1 else 0).

Definition toordinal (d : datetime) : Z :=
  days_before_year (year d) + days_before_month (year d) (month d) + day d.

(** Monday is 0. *)
Definition weekday (d : datetime) : Z := (toordinal d + 6) mod 7.

Definition day_name (d : datetime) : string :=
  nth (Z.to_nat (weekday d))
      ["Monday"; "Tuesday"; "Wednesday"; "Thursday"; "Friday"; "Saturday"; "Sunday"]
      "".

Definition month_abbr (d : datetime) : string :=
  nth (Z.to_nat (month d))
      [""; "Jan"; "Feb"; "Mar"; "Apr"; "May"; "Jun"; "Jul"; "Aug"; "Sep"; "Oct";
       "Nov"; "Dec"]
      "".

(** ['%Y-%m-%d']: glibc writes the year without padding. *)
Definition strftime_Ymd (d : datetime) : string :=
  decimal (year d) ++ "-" ++ pad2 (month d) ++ "-" ++ pad2 (day d).

(** ['%A, %b %d'] *)
Definition strftime_Abd (d : datetime) : string :=
  day_name d ++ ", " ++ month_abbr d ++ " " ++ pad2 (day d).

(** ['%A, %b %d %H:%M'] *)
Definition strftime_AbdHM (d : datetime) : string :=
  strftime_Abd d ++ " " ++ pad2 (hour d) ++ ":" ++ pad2 (minute d).

(** ['%H:%M:%S'] *)
Definition strftime_HMS (d : datetime) : string :=
  pad2 (hour d) ++ ":" ++ pad2 (minute d) ++ ":" ++ pad2 (second d).

(** [isoformat()] *)
Definition isoformat (d : datetime) : string :=
  pad4 (year d) ++ "-" ++ pad2 (month d) ++ "-" ++ pad2 (day d) ++
  "T" ++ strftime_HMS d ++
  (if microsecond d =? 0 then ""
   else "." ++ pad2 (microsecond d / 10000) ++ pad4 (microsecond d)).

End Datetime.

Section Routes.

(** The host the handlers run on: the local time zone, Python's parsing of
    a string as a float ([inl] is the [ValueError]'s message) and as an int,
    the text an f-string gives a value, the clock read by
    [datetime.utcnow().isoformat()], and [str.title()] on text that is not
    ASCII. *)
Variable utcoffset : Z -> Z.
Variable float_of_str : string -> string + float.
Variable int_of_str : string -> option Z.
Variable py_str : Py.json -> string.
Variable utcnow_isoformat : string.
Variable str_title : string -> string.

(** [s.title()] *)
Definition title (s : string) : string :=
  if Py.is_ascii s then Py.title s else str_title s.

(* ===================================================================== *)
(** ** [predict]: the forecast aggregation                                *)
(* ===================================================================== *)

(** One entry of the upstream [list], with the fields the feed documents:
    [main], [wind], [clouds] and [weather[0]] always, [visibility], [rain]
    and [snow] when there is something to report. *)
Record main_block : Type := {
  temp : Py.num; feels_like : Py.num; temp_min : Py.num; temp_max : Py.num;
  humidity : Py.num; pressure : Py.num
}.
Record wind_block : Type := { speed : Py.num; deg : Py.num }.
Record weather_item : Type := { description : string; icon : string }.
Record sample : Type := {
  dt : Z;
  main : main_block;
  wind : wind_block;
  clouds_all : Py.num;
  visibility : option Py.num;
  weather0 : weather_item;
  rain : option (Py.dict Py.num);
  snow : option (Py.dict Py.num)
}.

(** The value kept per date: [{'dt': .., 'timestamp': .., 'forecast': ..}]. *)
Record entry : Type := {
  e_dt : Z;
  e_timestamp : Datetime.datetime;
  e_forecast : sample
}.

(** The body of the loop over [forecasts] (lines 105-115); the conversion of
    line 106 can raise, which ends the loop and the handler's [try]. *)
Definition bucket_step (daily_forecasts : Py.dict entry) (forecast : sample)
  : Py.res (Py.dict entry) :=
  Py.bind (Datetime.fromtimestamp utcoffset (dt forecast)) (fun timestamp =>
  let date_key := Datetime.strftime_Ymd timestamp in
  if negb (Py.dict_mem date_key daily_forecasts)
     || (Datetime.hour timestamp =? 12)
  then Py.Ok (Py.dict_set date_key
                {| e_dt := dt forecast;
                   e_timestamp := timestamp;
                   e_forecast := forecast |}
                daily_forecasts)
  else Py.Ok daily_forecasts).

Fixpoint bucket_loop (forecasts : list sample) (daily_forecasts : Py.dict entry)
  : Py.res (Py.dict entry) :=
  match forecasts with
  | [] => Py.Ok daily_forecasts
  | forecast :: rest =>
      Py.bind (bucket_step daily_forecasts forecast) (bucket_loop rest)
  end.

Definition daily_forecasts (forecasts : list sample) : Py.res (Py.dict entry) :=
  bucket_loop forecasts [].

(** [sorted(items, key=lambda x: x[1]['timestamp'])]: a stable sort. *)
Definition item_leb (a b : string * entry) : bool :=
  Datetime.leb (e_timestamp (snd a)) (e_timestamp (snd b)).

Definition sorted_by_timestamp (l : list (string * entry))
  : list (string * entry) :=
  Py.sort_by item_leb l.

(** [sorted(daily_forecasts.items(), key=...)[:5]] *)
Definition sorted_forecasts (daily_forecasts : Py.dict entry)
  : list (string * entry) :=
  firstn 5 (sorted_by_timestamp daily_forecasts).

Fixpoint enumerate_from {A : Type} (i : Z) (l : list A) : list (Z * A) :=
  match l with
  | [] => []
  | x :: r => (i, x) :: enumerate_from (i + 1) r
  end.

Definition enumerate {A : Type} (l : list A) : list (Z * A) :=
  enumerate_from 0 l.

(** One element of [predictions]. *)
Record summary : Type := {
  day_offset : Z;
  date : string;
  full_datetime : string;
  temperature : Py.num;
  s_feels_like : Py.num;
  s_temp_min : Py.num;
  s_temp_max : Py.num;
  s_humidity : Py.num;
  s_pressure : Py.num;
  wind_speed : Py.num;
  wind_deg : Py.num;
  cloudiness : Py.num;
  s_visibility : Py.json;
  weather_description : string;
  weather_icon : string;
  precipitation : Py.num
}.

(** [d.get('3h', 0)] on [forecast.get(k, {})] *)
Definition get_3h (block : option (Py.dict Py.num)) : Py.num :=
  match block with
  | Some d => match Py.dict_get "3h" d with Some v => v | None => Py.PInt 0 end
  | None => Py.PInt 0
  end.

Definition precipitation_of (forecast : sample) : Py.res Py.num :=
  Py.py_add (get_3h (rain forecast)) (get_3h (snow forecast)).

(** A [rain] or [snow] block that reports the amount [v], and one that
    reports none: the block or its ['3h'] entry is missing. *)
Definition has_amount (block : option (Py.dict Py.num)) (v : Py.num) : Prop :=
  exists d, block = Some d /\ Py.dict_get "3h" d = Some v.

Definition no_amount (block : option (Py.dict Py.num)) : Prop :=
  block = None \/ exists d, block = Some d /\ Py.dict_get "3h" d = None.

(** The body of the loop over [enumerate(sorted_forecasts)] (lines 122-146);
    the one operation in it that can raise is the sum of rain and snow. *)
Definition format_prediction (idx : Z) (item : string * entry)
  : Py.res summary :=
  let data := snd item in
  let forecast := e_forecast data in
  Py.bind (precipitation_of forecast) (fun precip =>
  Py.Ok
    {| day_offset := idx;
       date := Datetime.strftime_Abd (e_timestamp data);
       full_datetime := Datetime.strftime_AbdHM (e_timestamp data);
       temperature := Py.py_round1 (temp (main forecast));
       s_feels_like := Py.py_round1 (feels_like (main forecast));
       s_temp_min := Py.py_round1 (temp_min (main forecast));
       s_temp_max := Py.py_round1 (temp_max (main forecast));
       s_humidity := humidity (main forecast);
       s_pressure := pressure (main forecast);
       wind_speed := Py.py_round1 (speed (wind forecast));
       wind_deg := deg (wind forecast);
       cloudiness := clouds_all forecast;
       s_visibility :=
         match visibility forecast with
         | Some v => Py.JNum v
         | None => Py.JStr "N/A"
         end;
       weather_description := title (description (weather0 forecast));
       weather_icon := icon (weather0 forecast);
       precipitation := precip |}).

Definition format_predictions (items : list (string * entry))
  : Py.res (list summary) :=
  Py.mapM (fun p => format_prediction (fst p) (snd p)) (enumerate items).

(** The forecast aggregator: lines 104 to 146 of [predict]. *)
Definition predictions (forecasts : list sample) : Py.res (list summary) :=
  Py.bind (daily_forecasts forecasts) (fun daily_forecasts =>
  format_predictions (sorted_forecasts daily_forecasts)).

(** *** The selection rule in closed form *)

(** A sample converts when [datetime.fromtimestamp] returns on its [dt]. *)
Definition converts (forecast : sample) : Prop :=
  exists timestamp,
    Datetime.fromtimestamp utcoffset (dt forecast) = Py.Ok timestamp.

(** The local time of a sample, which is what the conversion returns when it
    returns; its date key and its hour; the value stored for it. *)
Definition timestamp_of (forecast : sample) : Datetime.datetime :=
  Datetime.of_wall (dt forecast + utcoffset (dt forecast)).

Definition date_key_of (forecast : sample) : string :=
  Datetime.strftime_Ymd (timestamp_of forecast).

Definition hour_of (forecast : sample) : Z :=
  Datetime.hour (timestamp_of forecast).

Definition entry_of (forecast : sample) : entry :=
  {| e_dt := dt forecast;
     e_timestamp := timestamp_of forecast;
     e_forecast := forecast |}.

Arguments timestamp_of : simpl never.
Arguments date_key_of : simpl never.
Arguments hour_of : simpl never.

(** The loop on samples that all convert. *)
Definition group_step (daily_forecasts : Py.dict entry) (forecast : sample)
  : Py.dict entry :=
  let date_key := date_key_of forecast in
  if negb (Py.dict_mem date_key daily_forecasts) || (hour_of forecast =? 12)
  then Py.dict_set date_key (entry_of forecast) daily_forecasts
  else daily_forecasts.

Definition grouped (forecasts : list sample) : Py.dict entry :=
  fold_left group_step forecasts [].

Definition is_noon (forecast : sample) : bool := hour_of forecast =? 12.

(** The samples of one calendar date, in the order they are processed. *)
Definition samples_on (date_key : string) (forecasts : list sample)
  : list sample :=
  filter (fun f => String.eqb (date_key_of f) date_key) forecasts.

(** The sample the rule keeps for a date: the last one seen at hour 12 when
    there is one, the first one seen otherwise. *)
Definition retained (date_key : string) (forecasts : list sample)
  : option sample :=
  match rev (filter is_noon (samples_on date_key forecasts)) with
  | f :: _ => Some f
  | [] => hd_error (samples_on date_key forecasts)
  end.

(** The order the sort puts the kept items in. *)
Definition item_le (a b : string * entry) : Prop := item_leb a b = true.

(** The list arrives in chronological order. *)
Definition chronological (forecasts : list sample) : Prop :=
  StronglySorted (fun a b => dt a <= dt b) forecasts.

(** *** Reference inputs *)

(** A host on UTC time. *)
Definition utc : Z -> Z := fun _ => 0.

(** A sample as the feed sends it, at the instant [t]. *)
Definition sample_at (t : Z) : sample :=
  {| dt := t;
     main := {| temp := Py.PFloat 21.46; feels_like := Py.PFloat 20.04;
                temp_min := Py.PInt 19; temp_max := Py.PFloat 23.25;
                humidity := Py.PInt 64; pressure := Py.PInt 1012 |};
     wind := {| speed := Py.PFloat 4.12; deg := Py.PInt 220 |};
     clouds_all := Py.PInt 75;
     visibility := Some (Py.PInt 10000);
     weather0 := {| description := "light rain"; icon := "10d" |};
     rain := Some [("3h", Py.PFloat 2.5)];
     snow := None |}.

(** Parsers that know the few strings the reference requests use. *)
Definition demo_float_of_str (s : string) : string + float :=
  if String.eqb s "0.0" then inr 0%float
  else if String.eqb s "10" then inr 10%float
  else if String.eqb s "51.5" then inr 51.5%float
  else inl "could not convert string to float".

Definition demo_int_of_str (s : string) : option Z :=
  if String.eqb s "2" then Some 2
  else if String.eqb s "-1" then Some (-1)
  else if String.eqb s "9223372036854775808" then Some (2 ^ 63)
  else None.

Definition demo_str (v : Py.json) : string :=
  match v with Py.JStr s => s | _ => "?" end.

Definition demo_now : string := "2024-01-15T08:30:00".

(** 2024-01-15 00:00:00 UTC, a Monday. *)
Definition day0 : Z := 1705276800.

(** The sample at hour [h] of the [d]-th day from [day0]. *)
Definition at_hour (d h : Z) : sample := sample_at (day0 + 86400 * d + 3600 * h).

(** Two days, the first seen at hours 9 and 12, the second at hours 0 to 9. *)
Definition two_days : list sample :=
  [at_hour 0 9; at_hour 0 12;
   at_hour 1 0; at_hour 1 3; at_hour 1 6; at_hour 1 9].

(** Seven days out of order, each seen at hours 9 and 12. *)
Definition seven_days : list sample :=
  flat_map (fun d => [at_hour d 9; at_hour d 12]) [3; 0; 6; 1; 5; 2; 4].

Definition noon_item (d : Z) (date_key : string) : string * entry :=
  (date_key,
   {| e_dt := dt (at_hour d 12);
      e_timestamp := Datetime.of_wall (dt (at_hour d 12));
      e_forecast := at_hour d 12 |}).

(** *** The handler *)

(** A handler's answer: the status code and the body handed to [jsonify],
    either [{'error': msg}] or the handler's own success object. *)
Inductive body (A : Type) : Type :=
| Error (msg : string)
| Success (payload : A).
#[global] Arguments Error {A} msg.
#[global] Arguments Success {A} payload.

Definition response (A : Type) : Type := (Z * body A)%type.

(** What [requests.get] returned: [json_ok] is [response.json()] as read on
    status 200, [json_err] as read on any other status. *)
Record http_response (A : Type) : Type := {
  status_code : Z;
  json_ok : Py.res A;
  json_err : Py.res Py.json
}.
#[global] Arguments status_code {A} h.
#[global] Arguments json_ok {A} h.
#[global] Arguments json_err {A} h.

(** [float(v)] on a decoded JSON value. *)
Definition py_float (v : Py.json) : Py.res float :=
  match v with
  | Py.JNum n => Py.to_float n
  | Py.JBool b => Py.Ok (if b then 1%float else 0%float)
  | Py.JStr s =>
      match float_of_str s with
      | inr f => Py.Ok f
      | inl msg => Py.Raise (Py.ValueError msg)
      end
  | _ => Py.Raise Py.TypeError
  end.

(** [float(request.args.get(k))]: a missing parameter is [float(None)]. *)
Definition py_float_arg (v : option string) : Py.res float :=
  match v with
  | Some s => py_float (Py.JStr s)
  | None => Py.Raise Py.TypeError
  end.

(** [if not api_key] *)
Definition configured (api_key : option string) : option string :=
  match api_key with
  | Some k => if String.eqb k "" then None else Some k
  | None => None
  end.

(** [response.json().get("message", fallback)] inside the f-string. *)
Definition weather_api_error {A : Type} (r : http_response A) (fallback : string)
  : Py.res string :=
  Py.bind (json_err r) (fun j =>
  Py.bind (Py.get j "message" (Py.JStr fallback)) (fun error_msg =>
  Py.Ok ("Weather API error: " ++
         match error_msg with Py.JStr m => m | v => py_str v end)%string)).

(** The outcome of lines 61 to 72. *)
Inductive validation : Type :=
| Rejected (msg : string)
| Accepted (latitude longitude : float).

Definition missing_fields (data : Py.json) : Py.res bool :=
  if negb (Py.truthy data) then Py.Ok true
  else
    Py.bind (Py.contains "latitude" data) (fun has_lat =>
    if negb has_lat then Py.Ok true
    else
      Py.bind (Py.contains "longitude" data) (fun has_lon =>
      Py.Ok (negb has_lon))).

Definition validate (data : Py.json) : Py.res validation :=
  Py.bind (missing_fields data) (fun missing =>
  if missing then
    Py.Ok (Rejected "Missing required fields: latitude, longitude")
  else
    Py.bind (Py.getitem data "latitude") (fun lat_v =>
    Py.bind (py_float lat_v) (fun latitude =>
    Py.bind (Py.getitem data "longitude") (fun lon_v =>
    Py.bind (py_float lon_v) (fun longitude =>
    if negb (Py.float_between (-90)%float latitude 90%float) then
      Py.Ok (Rejected "Invalid latitude. Must be between -90 and 90")
    else if negb (Py.float_between (-180)%float longitude 180%float) then
      Py.Ok (Rejected "Invalid longitude. Must be between -180 and 180")
    else Py.Ok (Accepted latitude longitude)))))).

(** The upstream payload: the [city] block and the [list] of samples. *)
Record city_block : Type := {
  city_name : option string;
  city_country : option string;
  city_sunrise : option Z;
  city_sunset : option Z
}.
Record forecast_data : Type := {
  city : option city_block;
  list_ : option (list sample)
}.

Record location_block : Type := {
  loc_latitude : float;
  loc_longitude : float;
  loc_name : Py.json;
  loc_country : string;
  loc_sunrise : string;
  loc_sunset : string
}.
Record predict_payload : Type := {
  p_location : location_block;
  p_predictions : list summary;
  p_generated_at : string
}.

(** [fromtimestamp(city.get(k, 0)).strftime('%H:%M:%S') if city.get(k)
    else 'N/A'] *)
Definition sun_time (t : option Z) : Py.res string :=
  match t with
  | Some z =>
      if z =? 0 then Py.Ok "N/A"
      else
        Py.bind (Datetime.fromtimestamp utcoffset z) (fun d =>
        Py.Ok (Datetime.strftime_HMS d))
  | None => Py.Ok "N/A"
  end.

Definition empty_city : city_block :=
  {| city_name := None; city_country := None;
     city_sunrise := None; city_sunset := None |}.

(** Lines 74 to 162: what [predict] does with validated coordinates. *)
Definition forecast_for (data : Py.json) (latitude longitude : float)
    (api_key : option string)
    (requests_get : float -> float -> string
                    -> Py.res (http_response forecast_data))
  : Py.res (response predict_payload) :=
  Py.bind
    (Py.get data "location_name"
       (Py.JStr ("Lat: " ++ py_str (Py.JNum (Py.PFloat latitude)) ++
                 ", Lon: " ++ py_str (Py.JNum (Py.PFloat longitude)))))
    (fun location_name =>
  match configured api_key with
  | None => Py.Ok (500, Error "OpenWeatherMap API key not configured")
  | Some key =>
      Py.bind (requests_get latitude longitude key) (fun r =>
      if negb (status_code r =? 200) then
        Py.bind (weather_api_error r "Could not retrieve forecast data")
                (fun msg => Py.Ok (500, Error msg))
      else
        Py.bind (json_ok r) (fun forecast_data =>
        let city := match city forecast_data with
                    | Some c => c | None => empty_city end in
        let forecasts := match list_ forecast_data with
                         | Some l => l | None => [] end in
        Py.bind (predictions forecasts) (fun predictions =>
        Py.bind (sun_time (city_sunrise city)) (fun sunrise =>
        Py.bind (sun_time (city_sunset city)) (fun sunset =>
        Py.Ok (200, Success
          {| p_location :=
               {| loc_latitude := latitude;
                  loc_longitude := longitude;
                  loc_name := match city_name city with
                              | Some n => Py.JStr n
                              | None => location_name
                              end;
                  loc_country := match city_country city with
                                 | Some c => c | None => "" end;
                  loc_sunrise := sunrise;
                  loc_sunset := sunset |};
             p_predictions := predictions;
             p_generated_at := utcnow_isoformat |}))))))
  end).

(** [POST /api/predict]: [get_json] is what [request.get_json()] gives. *)
Definition predict (get_json : Py.res Py.json) (api_key : option string)
    (requests_get : float -> float -> string
                    -> Py.res (http_response forecast_data))
  : response predict_payload :=
  let attempt :=
    Py.bind get_json (fun data =>
    Py.bind (validate data) (fun v =>
    match v with
    | Rejected msg => Py.Ok (400, Error msg)
    | Accepted latitude longitude =>
        forecast_for data latitude longitude api_key requests_get
    end)) in
  match attempt with
  | Py.Ok r => r
  | Py.Raise (Py.ValueError msg) => (400, Error ("Invalid input: " ++ msg)%string)
  | Py.Raise _ => (500, Error "Failed to generate predictions")
  end.

(* ===================================================================== *)
(** ** [get_current_weather]                                              *)
(* ===================================================================== *)

Record current_data : Type := {
  c_timestamp : string;
  c_latitude : float;
  c_longitude : float;
  c_location_name : Py.json;
  c_temperature : Py.json;
  c_humidity : Py.json;
  c_pressure : Py.json;
  c_wind_speed : Py.json;
  c_weather_description : Py.json;
  c_weather_icon : Py.json
}.

(** [d[k1][k2]] *)
Definition getitem2 (d : Py.json) (k1 k2 : string) : Py.res Py.json :=
  Py.bind (Py.getitem d k1) (fun x => Py.getitem x k2).

(** [d['weather'][0][k]] *)
Definition weather0_field (d : Py.json) (k : string) : Py.res Py.json :=
  Py.bind (Py.getitem d "weather") (fun w =>
  Py.bind (Py.getitem0 w) (fun w0 => Py.getitem w0 k)).

(** The body of the [try] (lines 179-219); [args] is [request.args]. *)
Definition current_weather_attempt (args : Py.dict string)
    (api_key : option string)
    (requests_get : float -> float -> string
                    -> Py.res (http_response Py.json))
  : Py.res (response current_data) :=
  Py.bind (py_float_arg (Py.dict_get "latitude" args)) (fun latitude =>
  Py.bind (py_float_arg (Py.dict_get "longitude" args)) (fun longitude =>
  match configured api_key with
  | None => Py.Ok (500, Error "OpenWeatherMap API key not configured")
  | Some key =>
      Py.bind (requests_get latitude longitude key) (fun r =>
      if negb (status_code r =? 200) then
        Py.bind (weather_api_error r "Could not retrieve weather data")
                (fun msg => Py.Ok (500, Error msg))
      else
        Py.bind (json_ok r) (fun weather_data =>
        Py.bind (Py.get weather_data "name" (Py.JStr "")) (fun name =>
        Py.bind (getitem2 weather_data "main" "temp") (fun temperature =>
        Py.bind (getitem2 weather_data "main" "humidity") (fun humidity =>
        Py.bind (getitem2 weather_data "main" "pressure") (fun pressure =>
        Py.bind (getitem2 weather_data "wind" "speed") (fun wind_speed =>
        Py.bind (weather0_field weather_data "description") (fun descr =>
        Py.bind (weather0_field weather_data "icon") (fun icon =>
        Py.Ok (200, Success
          {| c_timestamp := utcnow_isoformat;
             c_latitude := latitude;
             c_longitude := longitude;
             c_location_name := name;
             c_temperature := temperature;
             c_humidity := humidity;
             c_pressure := pressure;
             c_wind_speed := wind_speed;
             c_weather_description := descr;
             c_weather_icon := icon |}))))))))))
  end)).

(** [GET /api/weather/current] *)
Definition get_current_weather (args : Py.dict string)
    (api_key : option string)
    (requests_get : float -> float -> string
                    -> Py.res (http_response Py.json))
  : response current_data :=
  match current_weather_attempt args api_key requests_get with
  | Py.Ok r => r
  | Py.Raise _ => (500, Error "Failed to fetch weather data")
  end.

(* ===================================================================== *)
(** ** [get_prediction_history]                                           *)
(* ===================================================================== *)

(** A row of the [predictions] table ([models.Prediction]). *)
Record Prediction : Type := {
  id : Z;
  created_at : Datetime.datetime;
  prediction_date : Datetime.datetime;
  latitude : float;
  longitude : float;
  location_name : option string;
  event_type : option string;
  probability : option float;
  confidence : option float;
  predicted_temperature : option float;
  predicted_precipitation : option float;
  predicted_wind_speed : option float;
  model_name : option string;
  model_version : option string;
  additional_info : option string
}.

Definition opt_str (o : option string) : Py.json :=
  match o with Some s => Py.JStr s | None => Py.JNull end.
Definition opt_float (o : option float) : Py.json :=
  match o with Some f => Py.JNum (Py.PFloat f) | None => Py.JNull end.

(** [Prediction.to_dict] *)
Definition to_dict (p : Prediction) : Py.dict Py.json :=
  [ ("id", Py.JNum (Py.PInt (id p)));
    ("created_at", Py.JStr (Datetime.isoformat (created_at p)));
    ("prediction_date", Py.JStr (Datetime.isoformat (prediction_date p)));
    ("latitude", Py.JNum (Py.PFloat (latitude p)));
    ("longitude", Py.JNum (Py.PFloat (longitude p)));
    ("location_name", opt_str (location_name p));
    ("event_type", opt_str (event_type p));
    ("probability", opt_float (probability p));
    ("confidence", opt_float (confidence p));
    ("predicted_temperature", opt_float (predicted_temperature p));
    ("predicted_precipitation", opt_float (predicted_precipitation p));
    ("predicted_wind_speed", opt_float (predicted_wind_speed p));
    ("model_name", opt_str (model_name p));
    ("model_version", opt_str (model_version p)) ].

(** [request.args.get(k, type=float)]: [None] when the parameter is missing
    or does not parse. *)
Definition arg_float (args : Py.dict string) (k : string) : option float :=
  match Py.dict_get k args with
  | Some s => match float_of_str s with inr f => Some f | inl _ => None end
  | None => None
  end.

(** [request.args.get(k, default, type=int)] *)
Definition arg_int (args : Py.dict string) (k : string) (default : Z) : Z :=
  match Py.dict_get k args with
  | Some s => match int_of_str s with Some z => z | None => default end
  | None => default
  end.

(** [if latitude and longitude]: the pair the filter is built from. *)
Definition box_centre (latitude longitude : option float)
  : option (float * float) :=
  match latitude, longitude with
  | Some la, Some lo =>
      if Py.float_truthy la && Py.float_truthy lo then Some (la, lo) else None
  | _, _ => None
  end.

(** The two [between] conditions of the filter. *)
Definition in_box (centre : float * float) (p : Prediction) : bool :=
  let '(la, lo) := centre in
  Py.float_between (PrimFloat.sub la 0.5%float) (latitude p)
                   (PrimFloat.add la 0.5%float)
  && Py.float_between (PrimFloat.sub lo 0.5%float) (longitude p)
                      (PrimFloat.add lo 0.5%float).

(** The query the handler builds. *)
Record query : Type := {
  q_filter : option (float * float);
  q_limit : Z
}.

(** How the database answers it: the rows passing the filter, newest
    [created_at] first, cut at the limit.  SQLite, the configured engine,
    takes the limit as a 64-bit integer, its driver raising [OverflowError]
    on an [int] that does not fit, and reads a negative limit as no
    limit. *)
Definition newer_first (x y : Prediction) : bool :=
  Datetime.leb (created_at y) (created_at x).

Definition order_by_created_at_desc (l : list Prediction) : list Prediction :=
  Py.sort_by newer_first l.

Definition limit_rows (n : Z) (l : list Prediction)
  : Py.res (list Prediction) :=
  if (n <? - 2 ^ 63) || (2 ^ 63 <=? n) then Py.Raise Py.OverflowError
  else if n <? 0 then Py.Ok l
  else Py.Ok (firstn (Z.to_nat n) l).

Definition run_query (table : list Prediction) (q : query)
  : Py.res (list Prediction) :=
  let rows := match q_filter q with
              | Some c => filter (in_box c) table
              | None => table
              end in
  limit_rows (q_limit q) (order_by_created_at_desc rows).

Definition history_query (args : Py.dict string) : query :=
  {| q_filter := box_centre (arg_float args "latitude")
                            (arg_float args "longitude");
     q_limit := arg_int args "limit" 100 |}.

Record history_payload : Type := {
  h_count : Z;
  h_predictions : list (Py.dict Py.json)
}.

(** [GET /api/predictions/history]; [table] is the stored predictions, or
    the error the database raised. *)
Definition get_prediction_history (args : Py.dict string)
    (table : Py.res (list Prediction))
  : response history_payload :=
  let attempt :=
    Py.bind table (fun rows =>
    Py.bind (run_query rows (history_query args)) (fun predictions =>
    Py.Ok (200, Success
      {| h_count := Z.of_nat (List.length predictions);
         h_predictions := map to_dict predictions |}))) in
  match attempt with
  | Py.Ok r => r
  | Py.Raise _ => (500, Error "Failed to fetch predictions")
  end.

(* ===================================================================== *)
(** ** [train_model]                                                      *)
(* ===================================================================== *)

Record train_payload : Type := {
  t_message : string;
  t_model_type : Py.json;
  t_event_type : Py.json;
  t_status : string
}.

(** [POST /api/train] *)
Definition train_model (get_json : Py.res Py.json) : response train_payload :=
  let attempt :=
    Py.bind get_json (fun data =>
    Py.bind (Py.get data "model_type" (Py.JStr "ensemble")) (fun model_type =>
    Py.bind (Py.get data "event_type" Py.JNull) (fun event_type =>
    Py.Ok (200, Success
      {| t_message := "Training initiated";
         t_model_type := model_type;
         t_event_type := event_type;
         t_status := "queued" |})))) in
  match attempt with
  | Py.Ok r => r
  | Py.Raise _ => (500, Error "Failed to initiate training")
  end.


(* ===================================================================== *)
(** ** [get_historical_weather]                                           *)
(* ===================================================================== *)

(** [datetime.fromisoformat(s)]; [inl] is the [ValueError]'s message. *)
Variable fromisoformat : string -> string + Datetime.datetime.

(** A row of the [weather_data] table ([models.WeatherData]). *)
Record WeatherData : Type := {
  w_id : Z;
  w_timestamp : Datetime.datetime;
  w_latitude : float;
  w_longitude : float;
  w_location_name : option string;
  w_temperature : option float;
  w_humidity : option float;
  w_pressure : option float;
  w_wind_speed : option float;
  w_wind_direction : option float;
  w_precipitation : option float;
  w_cloud_cover : option float;
  w_visibility : option float;
  w_source : option string
}.

(** [WeatherData.to_dict] *)
Definition weather_to_dict (d : WeatherData) : Py.dict Py.json :=
  [ ("id", Py.JNum (Py.PInt (w_id d)));
    ("timestamp", Py.JStr (Datetime.isoformat (w_timestamp d)));
    ("latitude", Py.JNum (Py.PFloat (w_latitude d)));
    ("longitude", Py.JNum (Py.PFloat (w_longitude d)));
    ("location_name", opt_str (w_location_name d));
    ("temperature", opt_float (w_temperature d));
    ("humidity", opt_float (w_humidity d));
    ("pressure", opt_float (w_pressure d));
    ("wind_speed", opt_float (w_wind_speed d));
    ("wind_direction", opt_float (w_wind_direction d));
    ("precipitation", opt_float (w_precipitation d));
    ("cloud_cover", opt_float (w_cloud_cover d));
    ("visibility", opt_float (w_visibility d));
    ("source", opt_str (w_source d)) ].

(** [if start_date: ... datetime.fromisoformat(start_date)]: no bound for a
    missing or empty parameter. *)
Definition date_bound (v : option string)
  : Py.res (option Datetime.datetime) :=
  match v with
  | None => Py.Ok None
  | Some s =>
      if String.eqb s "" then Py.Ok None
      else match fromisoformat s with
           | inr d => Py.Ok (Some d)
           | inl msg => Py.Raise (Py.ValueError msg)
           end
  end.

(** What a date parameter asks for: no bound when it is missing or empty,
    the date it parses to otherwise. *)
Definition parsed_bound (v : option string) (b : option Datetime.datetime)
  : Prop :=
  ((v = None \/ v = Some "") /\ b = None) \/
  (exists s d, v = Some s /\ s <> "" /\ fromisoformat s = inr d /\ b = Some d).

(** The query the handler builds: the box, and the bounds on the time. *)
Record weather_query : Type := {
  wq_centre : float * float;
  wq_start : option Datetime.datetime;
  wq_end : option Datetime.datetime
}.

Definition weather_in_box (centre : float * float) (d : WeatherData) : bool :=
  let '(la, lo) := centre in
  Py.float_between (PrimFloat.sub la 0.5%float) (w_latitude d)
                   (PrimFloat.add la 0.5%float)
  && Py.float_between (PrimFloat.sub lo 0.5%float) (w_longitude d)
                      (PrimFloat.add lo 0.5%float).

Definition weather_matches (q : weather_query) (d : WeatherData) : bool :=
  weather_in_box (wq_centre q) d
  && match wq_start q with
     | Some t => Datetime.leb t (w_timestamp d)
     | None => true
     end
  && match wq_end q with
     | Some t => Datetime.leb (w_timestamp d) t
     | None => true
     end.

Definition weather_newer_first (x y : WeatherData) : bool :=
  Datetime.leb (w_timestamp y) (w_timestamp x).

(** [query.order_by(WeatherData.timestamp.desc()).limit(1000).all()] *)
Definition run_weather_query (table : list WeatherData) (q : weather_query)
  : list WeatherData :=
  firstn 1000 (Py.sort_by weather_newer_first (filter (weather_matches q) table)).

Record historical_payload : Type := {
  hw_count : Z;
  hw_data : list (Py.dict Py.json)
}.

(** The body of the [try] up to the query (lines 233-247). *)
Definition historical_query (args : Py.dict string) : Py.res weather_query :=
  Py.bind (py_float_arg (Py.dict_get "latitude" args)) (fun latitude =>
  Py.bind (py_float_arg (Py.dict_get "longitude" args)) (fun longitude =>
  Py.bind (date_bound (Py.dict_get "start_date" args)) (fun start_date =>
  Py.bind (date_bound (Py.dict_get "end_date" args)) (fun end_date =>
  Py.Ok {| wq_centre := (latitude, longitude);
           wq_start := start_date;
           wq_end := end_date |})))).

(** [GET /api/weather/historical] *)
Definition get_historical_weather (args : Py.dict string)
    (table : Py.res (list WeatherData))
  : response historical_payload :=
  let attempt :=
    Py.bind (historical_query args) (fun q =>
    Py.bind table (fun rows =>
    let data := run_weather_query rows q in
    Py.Ok (200, Success
      {| hw_count := Z.of_nat (List.length data);
         hw_data := map weather_to_dict data |}))) in
  match attempt with
  | Py.Ok r => r
  | Py.Raise _ => (500, Error "Failed to fetch historical data")
  end.

(* ===================================================================== *)
(** ** [get_model_performance]                                            *)
(* ===================================================================== *)

(** A row of the [model_performance] table ([models.ModelPerformance]). *)
Record ModelPerformance : Type := {
  m_id : Z;
  m_timestamp : Datetime.datetime;
  m_model_name : string;
  m_model_version : option string;
  m_accuracy : option float;
  m_precision : option float;
  m_recall : option float;
  m_f1_score : option float;
  m_rmse : option float;
  m_mae : option float;
  m_event_type : option string;
  m_validation_samples : option Z;
  m_validation_period_start : option Datetime.datetime;
  m_validation_period_end : option Datetime.datetime
}.

(** [ModelPerformance.to_dict] *)
Definition performance_to_dict (m : ModelPerformance) : Py.dict Py.json :=
  [ ("id", Py.JNum (Py.PInt (m_id m)));
    ("timestamp", Py.JStr (Datetime.isoformat (m_timestamp m)));
    ("model_name", Py.JStr (m_model_name m));
    ("model_version", opt_str (m_model_version m));
    ("accuracy", opt_float (m_accuracy m));
    ("precision", opt_float (m_precision m));
    ("recall", opt_float (m_recall m));
    ("f1_score", opt_float (m_f1_score m));
    ("rmse", opt_float (m_rmse m));
    ("mae", opt_float (m_mae m));
    ("event_type", opt_str (m_event_type m));
    ("validation_samples",
     match m_validation_samples m with
     | Some n => Py.JNum (Py.PInt n)
     | None => Py.JNull
     end) ].

(** [if model_name: query.filter_by(model_name=model_name)] *)
Definition name_filter (model_name : option string) : option string :=
  match model_name with
  | Some n => if String.eqb n "" then None else Some n
  | None => None
  end.

Definition performance_matches (f : option string) (m : ModelPerformance)
  : bool :=
  match f with
  | Some n => String.eqb (m_model_name m) n
  | None => true
  end.

Definition performance_newer_first (x y : ModelPerformance) : bool :=
  Datetime.leb (m_timestamp y) (m_timestamp x).

(** [query.order_by(ModelPerformance.timestamp.desc()).limit(50).all()] *)
Definition run_performance_query (table : list ModelPerformance)
    (f : option string) : list ModelPerformance :=
  firstn 50 (Py.sort_by performance_newer_first
                        (filter (performance_matches f) table)).

Record performance_payload : Type := {
  mp_count : Z;
  mp_metrics : list (Py.dict Py.json)
}.

(** [GET /api/models/performance] *)
Definition get_model_performance (args : Py.dict string)
    (table : Py.res (list ModelPerformance))
  : response performance_payload :=
  let attempt :=
    Py.bind table (fun rows =>
    let metrics :=
      run_performance_query rows (name_filter (Py.dict_get "model_name" args)) in
    Py.Ok (200, Success
      {| mp_count := Z.of_nat (List.length metrics);
         mp_metrics := map performance_to_dict metrics |})) in
  match attempt with
  | Py.Ok r => r
  | Py.Raise _ => (500, Error "Failed to fetch model performance")
  end.

(* ===================================================================== *)
(** ** src/config.py                                                      *)
(* ===================================================================== *)

(** The message of the [ValueError] that [int(s)] raises on a string it
    refuses. *)
Variable int_error : string -> string.

(** [os.environ.get(k) or default]: an empty value counts as unset. *)
Definition env_or (environ : Py.dict string) (k default : string) : string :=
  match Py.dict_get k environ with
  | Some s => if String.eqb s "" then default else s
  | None => default
  end.

(** [os.environ.get(k, default)] with a string default. *)
Definition env_get (environ : Py.dict string) (k default : string) : string :=
  match Py.dict_get k environ with
  | Some s => s
  | None => default
  end.

(** [int(os.environ.get(k, default))] with an integer default. *)
Definition env_int (environ : Py.dict string) (k : string) (default : Z)
  : Py.res Z :=
  match Py.dict_get k environ with
  | Some s =>
      match int_of_str s with
      | Some z => Py.Ok z
      | None => Py.Raise (Py.ValueError (int_error s))
      end
  | None => Py.Ok default
  end.

(** [float(os.environ.get(k, default))] with a float default. *)
Definition env_float (environ : Py.dict string) (k : string) (default : float)
  : Py.res float :=
  match Py.dict_get k environ with
  | Some s => py_float (Py.JStr s)
  | None => Py.Ok default
  end.

(** [str.lower()]; only the letters A to Z matter to the comparison with
    ['true'], every other byte is kept. *)
Definition lower_char (c : ascii) : ascii :=
  let n := N_of_ascii c in
  if ((65 <=? n) && (n <=? 90))%N then ascii_of_N (n + 32) else c.

Fixpoint lower (s : string) : string :=
  match s with
  | EmptyString => EmptyString
  | String c r => String (lower_char c) (lower r)
  end.

(** The attributes of a configuration class; [TESTING] is only defined by
    [TestingConfig]. *)
Record config_class : Type := {
  SECRET_KEY : string;
  SQLALCHEMY_DATABASE_URI : string;
  SQLALCHEMY_TRACK_MODIFICATIONS : bool;
  OPENWEATHER_API_KEY : option string;
  MODEL_PATH : string;
  DATA_PATH : string;
  LOGS_PATH : string;
  DEBUG : bool;
  PORT : Z;
  HOST : string;
  FORECAST_DAYS : Z;
  CONFIDENCE_THRESHOLD : float;
  LSTM_UNITS : Z;
  LSTM_LAYERS : Z;
  DROPOUT_RATE : float;
  BATCH_SIZE : Z;
  EPOCHS : Z;
  LEARNING_RATE : float;
  HEATWAVE_THRESHOLD : Z;
  STORM_WIND_THRESHOLD : Z;
  FLOOD_PRECIPITATION_THRESHOLD : Z;
  UPDATE_INTERVAL : Z;
  HISTORICAL_YEARS : Z;
  TESTING : option bool
}.

(** The body of [class Config], evaluated once when the module is imported:
    the three conversions are made in the order of the source, and the first
    one that fails ends the import. *)
Definition Config (environ : Py.dict string) : Py.res config_class :=
  Py.bind (env_int environ "PORT" 5000) (fun port =>
  Py.bind (env_int environ "FORECAST_DAYS" 7) (fun forecast_days =>
  Py.bind (env_float environ "CONFIDENCE_THRESHOLD" 0.75%float)
          (fun confidence_threshold =>
  Py.Ok
    {| SECRET_KEY :=
         env_or environ "SECRET_KEY" "dev-secret-key-change-in-production";
       SQLALCHEMY_DATABASE_URI :=
         env_or environ "DATABASE_URL" "sqlite:///weather_forecast.db";
       SQLALCHEMY_TRACK_MODIFICATIONS := false;
       OPENWEATHER_API_KEY := Py.dict_get "OPENWEATHER_API_KEY" environ;
       MODEL_PATH := env_or environ "MODEL_PATH" "./models/saved_models";
       DATA_PATH := env_or environ "DATA_PATH" "./data";
       LOGS_PATH := env_or environ "LOGS_PATH" "./logs";
       DEBUG := String.eqb (lower (env_get environ "DEBUG" "True")) "true";
       PORT := port;
       HOST := env_get environ "HOST" "0.0.0.0";
       FORECAST_DAYS := forecast_days;
       CONFIDENCE_THRESHOLD := confidence_threshold;
       LSTM_UNITS := 128;
       LSTM_LAYERS := 2;
       DROPOUT_RATE := 0.2%float;
       BATCH_SIZE := 32;
       EPOCHS := 100;
       LEARNING_RATE := 0.001%float;
       HEATWAVE_THRESHOLD := 35;
       STORM_WIND_THRESHOLD := 63;
       FLOOD_PRECIPITATION_THRESHOLD := 50;
       UPDATE_INTERVAL := 3600;
       HISTORICAL_YEARS := 5;
       TESTING := None |}))).

(** A subclass that overrides [DEBUG] and inherits the rest. *)
Definition with_DEBUG (b : bool) (c : config_class) : config_class :=
  {| SECRET_KEY := SECRET_KEY c;
     SQLALCHEMY_DATABASE_URI := SQLALCHEMY_DATABASE_URI c;
     SQLALCHEMY_TRACK_MODIFICATIONS := SQLALCHEMY_TRACK_MODIFICATIONS c;
     OPENWEATHER_API_KEY := OPENWEATHER_API_KEY c;
     MODEL_PATH := MODEL_PATH c;
     DATA_PATH := DATA_PATH c;
     LOGS_PATH := LOGS_PATH c;
     DEBUG := b;
     PORT := PORT c;
     HOST := HOST c;
     FORECAST_DAYS := FORECAST_DAYS c;
     CONFIDENCE_THRESHOLD := CONFIDENCE_THRESHOLD c;
     LSTM_UNITS := LSTM_UNITS c;
     LSTM_LAYERS := LSTM_LAYERS c;
     DROPOUT_RATE := DROPOUT_RATE c;
     BATCH_SIZE := BATCH_SIZE c;
     EPOCHS := EPOCHS c;
     LEARNING_RATE := LEARNING_RATE c;
     HEATWAVE_THRESHOLD := HEATWAVE_THRESHOLD c;
     STORM_WIND_THRESHOLD := STORM_WIND_THRESHOLD c;
     FLOOD_PRECIPITATION_THRESHOLD := FLOOD_PRECIPITATION_THRESHOLD c;
     UPDATE_INTERVAL := UPDATE_INTERVAL c;
     HISTORICAL_YEARS := HISTORICAL_YEARS c;
     TESTING := TESTING c |}.

Definition DevelopmentConfig (base : config_class) : config_class :=
  with_DEBUG true base.

Definition ProductionConfig (base : config_class) : config_class :=
  with_DEBUG false base.

Definition TestingConfig (base : config_class) : config_class :=
  {| SECRET_KEY := SECRET_KEY base;
     SQLALCHEMY_DATABASE_URI := "sqlite:///test_weather_forecast.db";
     SQLALCHEMY_TRACK_MODIFICATIONS := SQLALCHEMY_TRACK_MODIFICATIONS base;
     OPENWEATHER_API_KEY := OPENWEATHER_API_KEY base;
     MODEL_PATH := MODEL_PATH base;
     DATA_PATH := DATA_PATH base;
     LOGS_PATH := LOGS_PATH base;
     DEBUG := DEBUG base;
     PORT := PORT base;
     HOST := HOST base;
     FORECAST_DAYS := FORECAST_DAYS base;
     CONFIDENCE_THRESHOLD := CONFIDENCE_THRESHOLD base;
     LSTM_UNITS := LSTM_UNITS base;
     LSTM_LAYERS := LSTM_LAYERS base;
     DROPOUT_RATE := DROPOUT_RATE base;
     BATCH_SIZE := BATCH_SIZE base;
     EPOCHS := EPOCHS base;
     LEARNING_RATE := LEARNING_RATE base;
     HEATWAVE_THRESHOLD := HEATWAVE_THRESHOLD base;
     STORM_WIND_THRESHOLD := STORM_WIND_THRESHOLD base;
     FLOOD_PRECIPITATION_THRESHOLD := FLOOD_PRECIPITATION_THRESHOLD base;
     UPDATE_INTERVAL := UPDATE_INTERVAL base;
     HISTORICAL_YEARS := HISTORICAL_YEARS base;
     TESTING := Some true |}.

(** The dictionary [config] at the end of the module. *)
Definition config (environ : Py.dict string)
  : Py.res (Py.dict config_class) :=
  Py.bind (Config environ) (fun base =>
  Py.Ok [ ("development", DevelopmentConfig base);
          ("production", ProductionConfig base);
          ("testing", TestingConfig base);
          ("default", DevelopmentConfig base) ]).

(* ===================================================================== *)
(** ** src/app.py                                                         *)
(* ===================================================================== *)

(** [config[config_name]], the first thing [create_app] asks for. *)
Definition config_by_name (environ : Py.dict string) (config_name : string)
  : Py.res config_class :=
  Py.bind (config environ) (fun classes =>
  match Py.dict_get config_name classes with
  | Some c => Py.Ok c
  | None => Py.Raise Py.KeyError
  end).

(** The file system, as far as the code looks at it: whether a path exists,
    and what [os.makedirs] leaves behind or raises. *)
Variable filesystem : Type.
Variable path_exists : filesystem -> string -> bool.
Variable makedirs : filesystem -> string -> Py.res filesystem.

Definition starts_with_slash (s : string) : bool :=
  match s with
  | String c _ => Ascii.eqb c "/"
  | EmptyString => false
  end.

Fixpoint ends_with_slash (s : string) : bool :=
  match s with
  | EmptyString => false
  | String c EmptyString => Ascii.eqb c "/"
  | String _ r => ends_with_slash r
  end.

(** [os.path.join(a, b)] of [posixpath]. *)
Definition path_join (a b : string) : string :=
  if starts_with_slash b then b
  else if String.eqb a "" || ends_with_slash a then a ++ b
  else a ++ "/" ++ b.

(** The list [directories] of [create_directories]. *)
Definition directories (c : config_class) : list string :=
  [ MODEL_PATH c;
    DATA_PATH c;
    LOGS_PATH c;
    path_join (DATA_PATH c) "raw";
    path_join (DATA_PATH c) "processed" ].

(** One turn of the loop, on the file system and the messages handed to
    [app.logger.info] so far. *)
Definition ensure_directory (st : filesystem * list string)
    (directory : string) : Py.res (filesystem * list string) :=
  if path_exists (fst st) directory then Py.Ok st
  else
    Py.bind (makedirs (fst st) directory) (fun fs' =>
    Py.Ok (fs', snd st ++ [("Created directory: " ++ directory)%string])).

Fixpoint for_each_directory (ds : list string) (st : filesystem * list string)
  : Py.res (filesystem * list string) :=
  match ds with
  | [] => Py.Ok st
  | d :: rest =>
      Py.bind (ensure_directory st d) (fun st' => for_each_directory rest st')
  end.

(** [create_directories(app)] *)
Definition create_directories (c : config_class) (fs : filesystem)
  : Py.res (filesystem * list string) :=
  for_each_directory (directories c) (fs, []).


(* ===================================================================== *)
(** ** Reference requests                                                 *)
(* ===================================================================== *)

Definition body_london : Py.json :=
  Py.JObj [("latitude", Py.JNum (Py.PFloat 51.5));
           ("longitude", Py.JNum (Py.PFloat (-0.12)))].

Definition body_latitude_91 : Py.json :=
  Py.JObj [("latitude", Py.JNum (Py.PInt 91));
           ("longitude", Py.JNum (Py.PInt 0))].

Definition body_longitude_180_5 : Py.json :=
  Py.JObj [("latitude", Py.JNum (Py.PInt 10));
           ("longitude", Py.JNum (Py.PFloat 180.5))].

Definition body_no_longitude : Py.json :=
  Py.JObj [("latitude", Py.JNum (Py.PFloat 51.5))].

(** An upstream that answers 200 with an empty [list]. *)
Definition upstream_empty (lat lon : float) (key : string)
  : Py.res (http_response forecast_data) :=
  Py.Ok {| status_code := 200;
           json_ok := Py.Ok {| city := None; list_ := Some [] |};
           json_err := Py.Raise (Py.ValueError "") |}.

(** An upstream that cannot be reached. *)
Definition upstream_down {A : Type} (lat lon : float) (key : string)
  : Py.res (http_response A) :=
  Py.Raise Py.RequestException.

Definition stored (i : Z) (t : Z) (la lo : float) : Prediction :=
  {| id := i;
     created_at := Datetime.of_wall t;
     prediction_date := Datetime.of_wall (t + 86400);
     latitude := la; longitude := lo;
     location_name := None; event_type := Some "storm";
     probability := Some 0.5%float; confidence := None;
     predicted_temperature := None; predicted_precipitation := None;
     predicted_wind_speed := None;
     model_name := Some "ensemble"; model_version := None;
     additional_info := None |}.

(** Three stored predictions, at three places, oldest first. *)
Definition stored_rows : list Prediction :=
  [stored 1 day0 51.5%float (-0.12)%float;
   stored 2 (day0 + 3600) 0%float 10%float;
   stored 3 (day0 + 7200) (-33.9)%float 151.2%float].

(** Three stored observations around London and one elsewhere, oldest
    first. *)
Definition observed (i : Z) (t : Z) (la lo : float) : WeatherData :=
  {| w_id := i;
     w_timestamp := Datetime.of_wall t;
     w_latitude := la; w_longitude := lo;
     w_location_name := Some "London";
     w_temperature := Some 11.5%float; w_humidity := None;
     w_pressure := None; w_wind_speed := None; w_wind_direction := None;
     w_precipitation := None; w_cloud_cover := None; w_visibility := None;
     w_source := Some "openweathermap" |}.

Definition observed_rows : list WeatherData :=
  [observed 1 day0 51.5%float 10.25%float;
   observed 2 (day0 + 86400) 51.75%float 10%float;
   observed 3 (day0 + 3 * 86400) 51.25%float 9.75%float;
   observed 4 (day0 + 3600) 40%float 10%float].

(** An ISO parser that knows two dates. *)
Definition demo_fromisoformat (s : string) : string + Datetime.datetime :=
  if String.eqb s "2024-01-15" then inr (Datetime.of_wall day0)
  else if String.eqb s "2024-01-17" then inr (Datetime.of_wall (day0 + 2 * 86400))
  else inl "Invalid isoformat string".

Definition measured (i : Z) (t : Z) (name : string) : ModelPerformance :=
  {| m_id := i;
     m_timestamp := Datetime.of_wall t;
     m_model_name := name;
     m_model_version := Some "1.0";
     m_accuracy := Some 0.5%float; m_precision := None; m_recall := None;
     m_f1_score := None; m_rmse := None; m_mae := None;
     m_event_type := Some "storm";
     m_validation_samples := Some 100;
     m_validation_period_start := None;
     m_validation_period_end := None |}.

Definition measured_rows : list ModelPerformance :=
  [measured 1 day0 "lstm";
   measured 2 (day0 + 3600) "ensemble";
   measured 3 (day0 + 7200) "lstm"].

(** An upstream that answers 200 with London and no samples. *)
Definition city_london : city_block :=
  {| city_name := Some "London"; city_country := Some "GB";
     city_sunrise := Some (day0 + 8 * 3600); city_sunset := Some 0 |}.

Definition upstream_london (lat lon : float) (key : string)
  : Py.res (http_response forecast_data) :=
  Py.Ok {| status_code := 200;
           json_ok := Py.Ok {| city := Some city_london; list_ := Some [] |};
           json_err := Py.Raise (Py.ValueError "") |}.

(** An upstream that refuses the key. *)
Definition upstream_401 (lat lon : float) (key : string)
  : Py.res (http_response forecast_data) :=
  Py.Ok {| status_code := 401;
           json_ok := Py.Raise (Py.ValueError "");
           json_err := Py.Ok (Py.JObj [("cod", Py.JNum (Py.PInt 401));
                                       ("message", Py.JStr "Invalid API key")]) |}.

(** The current weather as the upstream sends it. *)
Definition current_london : Py.dict Py.json :=
  [ ("name", Py.JStr "London");
    ("main", Py.JObj [("temp", Py.JNum (Py.PFloat 11.5));
                      ("humidity", Py.JNum (Py.PInt 80));
                      ("pressure", Py.JNum (Py.PInt 1012))]);
    ("wind", Py.JObj [("speed", Py.JNum (Py.PFloat 4.5))]);
    ("weather", Py.JArr [Py.JObj [("description", Py.JStr "light rain");
                                  ("icon", Py.JStr "10d")]]) ].

Definition upstream_current (lat lon : float) (key : string)
  : Py.res (http_response Py.json) :=
  Py.Ok {| status_code := 200;
           json_ok := Py.Ok (Py.JObj current_london);
           json_err := Py.Raise (Py.ValueError "") |}.

(** An environment that sets the key, the debug flag and the port. *)
Definition environ_demo : Py.dict string :=
  [ ("OPENWEATHER_API_KEY", "secret");
    ("DEBUG", "TRUE");
    ("PORT", "2");
    ("DATA_PATH", "") ].

Definition demo_int_error (s : string) : string :=
  "invalid literal for int() with base 10: '" ++ s ++ "'".

(** A host whose texts are all ASCII. *)
Definition demo_title (s : string) : string := s.

(** A file system that is the list of the directories made so far. *)
Definition listed_exists (fs : list string) (p : string) : bool :=
  existsb (String.eqb p) fs.

Definition listed_makedirs (fs : list string) (p : string)
  : Py.res (list string) :=
  Py.Ok (p :: fs).

(* ===================================================================== *)
(** ** Facts about dictionaries                                           *)
(* ===================================================================== *)

Section DictFacts.
Context {V : Type}.
Implicit Types (d : Py.dict V) (k : string) (v : V).

Lemma dict_get_set_same k v d : Py.dict_get k (Py.dict_set k v d) = Some v.
Proof.
  induction d as [|[k' v'] r IH]; simpl.
  - now rewrite String.eqb_refl.
  - destruct (String.eqb k k') eqn:E; simpl.
    + now rewrite String.eqb_refl.
    + now rewrite E.
Qed.

Lemma dict_get_set_other k k' v d :
  k <> k' -> Py.dict_get k' (Py.dict_set k v d) = Py.dict_get k' d.
Proof.
  intros Hne. induction d as [|[k0 v0] r IH]; simpl.
  - destruct (String.eqb_spec k' k); [congruence | reflexivity].
  - destruct (String.eqb_spec k k0) as [->|Hk]; simpl.
    + destruct (String.eqb_spec k' k0); [congruence | reflexivity].
    + destruct (String.eqb_spec k' k0); [reflexivity | exact IH].
Qed.

Lemma dict_get_None_keys k d :
  Py.dict_get k d = None <-> ~ In k (Py.dict_keys d).
Proof.
  induction d as [|[k' v'] r IH]; simpl.
  - split; [intros _ [] | reflexivity].
  - destruct (String.eqb_spec k k') as [->|Hk].
    + split; [discriminate | intros H; exfalso; apply H; now left].
    + rewrite IH. split.
      * intros H [E|HI]; [congruence | contradiction].
      * intros H HI. apply H. now right.
Qed.

Lemma dict_mem_keys k d :
  Py.dict_mem k d = true <-> In k (Py.dict_keys d).
Proof.
  unfold Py.dict_mem. pose proof (dict_get_None_keys k d) as H.
  destruct (Py.dict_get k d).
  - split; [intros _ | reflexivity].
    destruct (in_dec string_dec k (Py.dict_keys d)) as [HI|HI]; [exact HI|].
    apply H in HI. discriminate.
  - split; [discriminate | intros HI]. exfalso. now apply (proj1 H).
Qed.

Lemma dict_keys_set k v d :
  Py.dict_keys (Py.dict_set k v d) =
  if Py.dict_mem k d then Py.dict_keys d else Py.dict_keys d ++ [k].
Proof.
  unfold Py.dict_mem. induction d as [|[k' v'] r IH]; simpl.
  - reflexivity.
  - destruct (String.eqb_spec k k') as [->|Hk]; simpl.
    + reflexivity.
    + rewrite IH. now destruct (Py.dict_get k r).
Qed.

Lemma dict_set_NoDup k v d :
  NoDup (Py.dict_keys d) -> NoDup (Py.dict_keys (Py.dict_set k v d)).
Proof.
  intros Hnd. rewrite dict_keys_set.
  destruct (Py.dict_mem k d) eqn:E; [exact Hnd|].
  apply NoDup_app; [exact Hnd | repeat constructor; intros [] |].
  intros a Ha [<-|[]]. apply dict_mem_keys in Ha. congruence.
Qed.

Lemma dict_get_In k v d : Py.dict_get k d = Some v -> In (k, v) d.
Proof.
  induction d as [|[k' v'] r IH]; simpl; [discriminate|].
  destruct (String.eqb_spec k k') as [->|Hk].
  - intros [= ->]. now left.
  - intros H. right. now apply IH.
Qed.

Lemma dict_In_get k v d :
  NoDup (Py.dict_keys d) -> In (k, v) d -> Py.dict_get k d = Some v.
Proof.
  induction d as [|[k' v'] r IH]; simpl; [intros _ []|].
  intros Hnd [E|HI].
  - inversion E; subst. now rewrite String.eqb_refl.
  - inversion Hnd as [|? ? Hn Hr]; subst.
    destruct (String.eqb_spec k k') as [->|Hk].
    + exfalso. apply Hn. change k' with (fst (k', v)). now apply in_map.
    + now apply IH.
Qed.
End DictFacts.

(* ===================================================================== *)
(** ** The grouping by date                                               *)
(* ===================================================================== *)

Lemma grouped_snoc forecasts f :
  grouped (forecasts ++ [f]) = group_step (grouped forecasts) f.
Proof. unfold grouped. now rewrite fold_left_app. Qed.

Lemma samples_on_snoc k forecasts f :
  samples_on k (forecasts ++ [f]) =
  samples_on k forecasts ++ (if String.eqb (date_key_of f) k then [f] else []).
Proof. unfold samples_on. rewrite filter_app. reflexivity. Qed.

Lemma samples_on_In k forecasts f :
  In f (samples_on k forecasts) <-> In f forecasts /\ date_key_of f = k.
Proof.
  unfold samples_on. rewrite filter_In.
  destruct (String.eqb_spec (date_key_of f) k) as [E|E].
  - split; [intros [H _]; now split | intros [H _]; now split].
  - split; [intros [_ H]; discriminate | intros [_ H]; contradiction].
Qed.

Lemma retained_None k forecasts :
  retained k forecasts = None <-> samples_on k forecasts = [].
Proof.
  unfold retained. split.
  - destruct (rev (filter is_noon (samples_on k forecasts))); [|discriminate].
    now destruct (samples_on k forecasts).
  - intros ->. reflexivity.
Qed.

Lemma retained_In k forecasts f :
  retained k forecasts = Some f -> In f forecasts /\ date_key_of f = k.
Proof.
  unfold retained. intros H. apply samples_on_In.
  destruct (rev (filter is_noon (samples_on k forecasts))) as [|g l] eqn:E.
  - destruct (samples_on k forecasts); simpl in H; [discriminate|].
    injection H as ->. now left.
  - injection H as ->.
    assert (HI : In f (rev (filter is_noon (samples_on k forecasts))))
      by (rewrite E; now left).
    rewrite <- in_rev in HI. now apply filter_In in HI.
Qed.

Lemma retained_snoc k forecasts f :
  retained k (forecasts ++ [f]) =
  if String.eqb (date_key_of f) k then
    if is_noon f then Some f
    else match retained k forecasts with
         | Some g => Some g
         | None => Some f
         end
  else retained k forecasts.
Proof.
  unfold retained. rewrite samples_on_snoc.
  destruct (String.eqb (date_key_of f) k).
  - rewrite filter_app, rev_app_distr. simpl.
    destruct (is_noon f); simpl; [reflexivity|].
    destruct (rev (filter is_noon (samples_on k forecasts))); [|reflexivity].
    now destruct (samples_on k forecasts).
  - now rewrite !app_nil_r.
Qed.

(** The dictionary built by the loop holds, for every date, the sample the
    closed form names. *)
Lemma grouped_get forecasts k :
  Py.dict_get k (grouped forecasts) =
  option_map entry_of (retained k forecasts).
Proof.
  induction forecasts as [|f forecasts IH] using rev_ind; [reflexivity|].
  rewrite grouped_snoc, retained_snoc. unfold group_step, is_noon.
  unfold Py.dict_mem.
  destruct (String.eqb_spec (date_key_of f) k) as [E|E].
  - subst k. rewrite IH.
    destruct (hour_of f =? 12).
    + rewrite orb_true_r. now rewrite dict_get_set_same.
    + rewrite orb_false_r.
      destruct (retained (date_key_of f) forecasts); simpl.
      * exact IH.
      * now rewrite dict_get_set_same.
  - destruct (negb _ || _); [|exact IH].
    rewrite dict_get_set_other by exact E. exact IH.
Qed.

Lemma grouped_NoDup forecasts :
  NoDup (Py.dict_keys (grouped forecasts)).
Proof.
  induction forecasts as [|f forecasts IH] using rev_ind; [constructor|].
  rewrite grouped_snoc. unfold group_step.
  destruct (negb _ || _); [now apply dict_set_NoDup | exact IH].
Qed.

Lemma grouped_keys forecasts k :
  In k (Py.dict_keys (grouped forecasts)) <->
  In k (map date_key_of forecasts).
Proof.
  rewrite in_map_iff.
  destruct (Py.dict_get k (grouped forecasts)) eqn:E.
  - split; intros _.
    + rewrite grouped_get in E.
      destruct (retained k forecasts) as [f|] eqn:R; [|discriminate].
      apply retained_In in R. exists f. destruct R. now split.
    + apply dict_mem_keys. unfold Py.dict_mem. now rewrite E.
  - split; intros H.
    + now apply dict_get_None_keys in E.
    + exfalso. destruct H as (f & Hk & HI).
      rewrite grouped_get in E.
      destruct (retained k forecasts) eqn:R; [discriminate|].
      apply retained_None in R.
      assert (HS : In f (samples_on k forecasts)) by now apply samples_on_In.
      rewrite R in HS. contradiction.
Qed.

Lemma retained_no_noon k forecasts :
  (forall g, In g forecasts -> date_key_of g = k -> hour_of g <> 12) ->
  retained k forecasts = hd_error (samples_on k forecasts).
Proof.
  intros Hno. unfold retained.
  assert (E : filter is_noon (samples_on k forecasts) = []).
  { destruct (filter is_noon (samples_on k forecasts)) as [|g l] eqn:E;
      [reflexivity|].
    assert (HI : In g (filter is_noon (samples_on k forecasts)))
      by (rewrite E; now left).
    apply filter_In in HI. destruct HI as [HI Hn].
    apply samples_on_In in HI. destruct HI as [HI Hk].
    unfold is_noon in Hn. apply Z.eqb_eq in Hn. now destruct (Hno g). }
  now rewrite E.
Qed.

Lemma retained_noon k forecasts f12 :
  In f12 forecasts -> date_key_of f12 = k -> hour_of f12 = 12 ->
  exists f, retained k forecasts = Some f /\ hour_of f = 12.
Proof.
  intros HI Hk Hh. unfold retained.
  assert (HN : In f12 (rev (filter is_noon (samples_on k forecasts)))).
  { rewrite <- in_rev. apply filter_In. split.
    - now apply samples_on_In.
    - unfold is_noon. now apply Z.eqb_eq. }
  destruct (rev (filter is_noon (samples_on k forecasts))) as [|f l] eqn:E;
    [contradiction|].
  exists f. split; [reflexivity|].
  assert (HF : In f (rev (filter is_noon (samples_on k forecasts))))
    by (rewrite E; now left).
  rewrite <- in_rev in HF. apply filter_In in HF.
  unfold is_noon in HF. now apply Z.eqb_eq.
Qed.

Lemma samples_on_first k before f0 after :
  date_key_of f0 = k ->
  (forall g, In g before -> date_key_of g <> k) ->
  hd_error (samples_on k (before ++ f0 :: after)) = Some f0.
Proof.
  intros Hk Hb. unfold samples_on. rewrite filter_app.
  assert (E : filter (fun f => String.eqb (date_key_of f) k) before = []).
  { induction before as [|g r IH]; [reflexivity|]. cbn [filter].
    destruct (String.eqb_spec (date_key_of g) k) as [Hg|Hg].
    - exfalso. apply (Hb g); [now left | exact Hg].
    - apply IH. intros h Hh. apply Hb. now right. }
  rewrite E. cbn [filter app]. rewrite Hk, String.eqb_refl. reflexivity.
Qed.

Lemma StronglySorted_filter {A : Type} (R : A -> A -> Prop) (p : A -> bool) l :
  StronglySorted R l -> StronglySorted R (filter p l).
Proof.
  induction 1 as [|a l Hs IH Hf]; simpl; [constructor|].
  destruct (p a); [|exact IH].
  constructor; [exact IH|].
  rewrite Forall_forall in *. intros x Hx. apply Hf.
  now apply filter_In in Hx.
Qed.

Lemma samples_on_earliest k forecasts f :
  chronological forecasts ->
  hd_error (samples_on k forecasts) = Some f ->
  forall g, In g forecasts -> date_key_of g = k -> dt f <= dt g.
Proof.
  intros Hc Hhd g HI Hk.
  assert (HS : In g (samples_on k forecasts)) by now apply samples_on_In.
  apply (StronglySorted_filter _ (fun f => String.eqb (date_key_of f) k))
    in Hc.
  fold (samples_on k forecasts) in Hc.
  destruct (samples_on k forecasts) as [|f' l]; [discriminate|].
  injection Hhd as ->.
  destruct HS as [->|HS]; [lia|].
  inversion Hc as [|? ? _ Hf]; subst.
  rewrite Forall_forall in Hf. now apply Hf.
Qed.

(** *** The loop as written and its closed form *)

Lemma fromtimestamp_Ok t d :
  Datetime.fromtimestamp utcoffset t = Py.Ok d ->
  d = Datetime.of_wall (t + utcoffset t).
Proof.
  unfold Datetime.fromtimestamp.
  destruct (negb (Datetime.fits_time_t t)); [discriminate|].
  unfold Datetime.localtime at 1. cbv zeta.
  match goal with
  | |- context [if ?c then Py.Ok (t + utcoffset t) else _] => destruct c
  end; cbn [Py.bind]; [|discriminate].
  destruct (Datetime.utc_to_seconds _) as [r|]; cbn [Py.bind]; [|discriminate].
  destruct (Datetime.local utcoffset _) as [q|]; cbn [Py.bind];
    [|discriminate].
  match goal with
  | |- context [Py.bind ?m _] => destruct m
  end; cbn [Py.bind]; [|discriminate].
  now intros [= <-].
Qed.

Lemma bucket_step_converts daily f :
  converts f -> bucket_step daily f = Py.Ok (group_step daily f).
Proof.
  intros [d Hd]. unfold bucket_step, group_step. rewrite Hd. cbn [Py.bind].
  apply fromtimestamp_Ok in Hd. subst d.
  unfold date_key_of, hour_of, entry_of, timestamp_of. cbv zeta.
  now destruct (negb _ || _).
Qed.

Lemma bucket_loop_converts forecasts :
  forall daily,
    Forall converts forecasts ->
    bucket_loop forecasts daily = Py.Ok (fold_left group_step forecasts daily).
Proof.
  induction forecasts as [|f forecasts IH]; intros daily H; [reflexivity|].
  inversion H as [|? ? Hf Hrest]; subst.
  cbn [bucket_loop fold_left]. rewrite (bucket_step_converts _ _ Hf).
  cbn [Py.bind]. now apply IH.
Qed.

Lemma bucket_loop_Ok forecasts :
  forall daily out,
    bucket_loop forecasts daily = Py.Ok out -> Forall converts forecasts.
Proof.
  induction forecasts as [|f forecasts IH]; intros daily out H; [constructor|].
  cbn [bucket_loop] in H.
  destruct (bucket_step daily f) as [daily'|] eqn:E; cbn [Py.bind] in H;
    [|discriminate].
  constructor; [|now apply (IH daily' out)].
  unfold bucket_step in E.
  destruct (Datetime.fromtimestamp utcoffset (dt f)) as [d|] eqn:Ed;
    [now exists d | discriminate].
Qed.

Lemma bucket_loop_raise before f after e :
  forall daily,
    Forall converts before ->
    Datetime.fromtimestamp utcoffset (dt f) = Py.Raise e ->
    bucket_loop (before ++ f :: after) daily = Py.Raise e.
Proof.
  induction before as [|g before IH]; intros daily H He.
  - cbn [app bucket_loop]. unfold bucket_step. now rewrite He.
  - inversion H as [|? ? Hg Hrest]; subst.
    cbn [app bucket_loop]. rewrite (bucket_step_converts _ _ Hg).
    cbn [Py.bind]. now apply IH.
Qed.

(** The loop returns exactly when every timestamp converts, and then with
    the dictionary of the closed form. *)
Lemma daily_forecasts_Ok forecasts daily :
  daily_forecasts forecasts = Py.Ok daily <->
  Forall converts forecasts /\ daily = grouped forecasts.
Proof.
  unfold daily_forecasts, grouped. split.
  - intros H. pose proof (bucket_loop_Ok _ _ _ H) as Hc.
    rewrite (bucket_loop_converts _ _ Hc) in H. injection H as <-.
    now split.
  - intros [Hc ->]. now apply bucket_loop_converts.
Qed.

Lemma converts_snoc forecasts f :
  Forall converts forecasts -> converts f -> Forall converts (forecasts ++ [f]).
Proof.
  intros H Hf. apply Forall_app. split; [exact H|]. now constructor.
Qed.

(** C1. The loop over the samples returns exactly when every timestamp
    converts to a local time; a timestamp [datetime] cannot hold ends it
    with the exception of the conversion.  When it returns, it has kept
    exactly one sample per calendar date (the keys are the dates of the
    samples, each once).  The first sample met for a new date is kept; a
    later sample of that date is kept in its place exactly when its local
    hour is 12; any other sample changes nothing.  Hence the kept sample of
    a date is its last hour-12 sample when it has one and its first sample
    otherwise: a date with samples at hours 9 and 12 keeps an hour-12
    sample, and a date with no hour-12 sample keeps the first one met,
    which in a chronological list (hours 0, 3, 6, 9) is the earliest. *)
Theorem predict_keeps_one_sample_per_date (forecasts : list sample) :
  ((exists daily, daily_forecasts forecasts = Py.Ok daily) <->
   Forall converts forecasts) /\
  (forall before f after e,
     forecasts = before ++ f :: after ->
     Forall converts before ->
     Datetime.fromtimestamp utcoffset (dt f) = Py.Raise e ->
     daily_forecasts forecasts = Py.Raise e) /\
  (forall f timestamp,
     Datetime.fromtimestamp utcoffset (dt f) = Py.Ok timestamp ->
     timestamp = timestamp_of f /\
     Datetime.strftime_Ymd timestamp = date_key_of f /\
     Datetime.hour timestamp = hour_of f) /\
  (forall daily,
     daily_forecasts forecasts = Py.Ok daily ->
     NoDup (Py.dict_keys daily) /\
     (forall k, In k (Py.dict_keys daily) <->
                In k (map date_key_of forecasts)) /\
     (forall f,
        converts f ->
        Py.dict_get (date_key_of f) daily = None ->
        exists daily',
          daily_forecasts (forecasts ++ [f]) = Py.Ok daily' /\
          Py.dict_get (date_key_of f) daily' = Some (entry_of f)) /\
     (forall f,
        converts f ->
        hour_of f = 12 ->
        exists daily',
          daily_forecasts (forecasts ++ [f]) = Py.Ok daily' /\
          Py.dict_get (date_key_of f) daily' = Some (entry_of f)) /\
     (forall f e,
        converts f ->
        Py.dict_get (date_key_of f) daily = Some e ->
        hour_of f <> 12 ->
        daily_forecasts (forecasts ++ [f]) = Py.Ok daily) /\
     (forall f k,
        converts f ->
        date_key_of f <> k ->
        exists daily',
          daily_forecasts (forecasts ++ [f]) = Py.Ok daily' /\
          Py.dict_get k daily' = Py.dict_get k daily) /\
     (forall k,
        Py.dict_get k daily = option_map entry_of (retained k forecasts)) /\
     (forall k f12,
        In f12 forecasts -> date_key_of f12 = k -> hour_of f12 = 12 ->
        exists f,
          Py.dict_get k daily = Some (entry_of f) /\
          In f forecasts /\ date_key_of f = k /\ hour_of f = 12) /\
     (forall k before f0 after,
        forecasts = before ++ f0 :: after ->
        date_key_of f0 = k ->
        (forall g, In g before -> date_key_of g <> k) ->
        (forall g, In g forecasts -> date_key_of g = k -> hour_of g <> 12) ->
        Py.dict_get k daily = Some (entry_of f0)) /\
     (chronological forecasts ->
      forall k e,
        (forall g, In g forecasts -> date_key_of g = k -> hour_of g <> 12) ->
        Py.dict_get k daily = Some e ->
        forall g, In g forecasts -> date_key_of g = k -> e_dt e <= dt g)).
Proof.
  split.
  { split.
    - intros [daily H]. now apply daily_forecasts_Ok in H.
    - intros H. exists (grouped forecasts). now apply daily_forecasts_Ok. }
  split.
  { intros before f after e -> Hb He. now apply bucket_loop_raise. }
  split.
  { intros f timestamp H. apply fromtimestamp_Ok in H. subst timestamp.
    now repeat split. }
  intros daily Hd. apply daily_forecasts_Ok in Hd. destruct Hd as [Hc ->].
  assert (Snoc : forall f, converts f ->
                   daily_forecasts (forecasts ++ [f])
                   = Py.Ok (group_step (grouped forecasts) f)).
  { intros f Hf. apply daily_forecasts_Ok. split; [now apply converts_snoc|].
    symmetry. apply grouped_snoc. }
  split; [apply grouped_NoDup|].
  split; [apply grouped_keys|].
  split.
  { intros f Hf Hnone. eexists. split; [now apply Snoc|].
    unfold group_step, Py.dict_mem. rewrite Hnone. cbn [negb orb].
    apply dict_get_set_same. }
  split.
  { intros f Hf Hh. eexists. split; [now apply Snoc|].
    unfold group_step. apply Z.eqb_eq in Hh. rewrite Hh, orb_true_r.
    apply dict_get_set_same. }
  split.
  { intros f e Hf He Hh. rewrite (Snoc f Hf). unfold group_step, Py.dict_mem.
    rewrite He. apply Z.eqb_neq in Hh. now rewrite Hh. }
  split.
  { intros f k Hf Hk. eexists. split; [now apply Snoc|].
    unfold group_step. destruct (negb _ || _); [|reflexivity].
    now apply dict_get_set_other. }
  split; [intros k; apply grouped_get|].
  split.
  { intros k f12 HI Hk Hh.
    destruct (retained_noon k forecasts f12 HI Hk Hh) as (f & R & Hf).
    exists f. rewrite grouped_get, R. split; [reflexivity|].
    apply retained_In in R. destruct R. now repeat split. }
  split.
  { intros k before f0 after E Hk Hb Hno.
    rewrite grouped_get, (retained_no_noon _ _ Hno). rewrite E.
    now rewrite (samples_on_first k before f0 after Hk Hb). }
  intros Hch k e Hno He g HI Hk.
  rewrite grouped_get, (retained_no_noon _ _ Hno) in He.
  destruct (hd_error (samples_on k forecasts)) as [f|] eqn:Hhd;
    [|discriminate].
  injection He as <-. unfold entry_of. cbn [e_dt].
  now apply (samples_on_earliest k forecasts f Hch Hhd).
Qed.

(* ===================================================================== *)
(** ** The order on datetimes and the sort                                *)
(* ===================================================================== *)

Lemma lex_compare_antisym a b :
  Datetime.lex_compare b a = CompOpp (Datetime.lex_compare a b).
Proof.
  revert b. induction a as [|x a IH]; intros [|y b]; cbn; try reflexivity.
  rewrite (Z.compare_antisym x y).
  destruct (x ?= y); cbn; [apply IH | reflexivity | reflexivity].
Qed.

Lemma lex_compare_eq a b : Datetime.lex_compare a b = Eq -> a = b.
Proof.
  revert b. induction a as [|x a IH]; intros [|y b]; cbn; try discriminate.
  - reflexivity.
  - destruct (x ?= y) eqn:E; try discriminate.
    apply Z.compare_eq in E. intros H. f_equal; [exact E | now apply IH].
Qed.

Lemma lex_compare_refl a : Datetime.lex_compare a a = Eq.
Proof.
  induction a as [|x a IH]; cbn; [reflexivity|].
  now rewrite Z.compare_refl.
Qed.

Lemma lex_compare_lt_trans a b c :
  Datetime.lex_compare a b = Lt -> Datetime.lex_compare b c = Lt ->
  Datetime.lex_compare a c = Lt.
Proof.
  revert b c. induction a as [|x a IH]; intros [|y b] [|z c]; cbn;
    try discriminate; try reflexivity.
  destruct (x ?= y) eqn:Exy; try discriminate;
    destruct (y ?= z) eqn:Eyz; try discriminate; intros H1 H2.
  - apply Z.compare_eq in Exy, Eyz. subst. rewrite Z.compare_refl.
    now apply (IH b c).
  - apply Z.compare_eq in Exy. subst. now rewrite Eyz.
  - apply Z.compare_eq in Eyz. subst. now rewrite Exy.
  - rewrite Z.compare_lt_iff in Exy, Eyz.
    assert (E : (x ?= z) = Lt) by (apply Z.compare_lt_iff; lia).
    now rewrite E.
Qed.

Lemma datetime_leb_total a b :
  Datetime.leb a b = false -> Datetime.leb b a = true.
Proof.
  unfold Datetime.leb, Datetime.ltb.
  rewrite (lex_compare_antisym (Datetime.tuple b) (Datetime.tuple a)).
  now destruct (Datetime.lex_compare (Datetime.tuple b) (Datetime.tuple a)).
Qed.

Lemma datetime_leb_trans a b c :
  Datetime.leb a b = true -> Datetime.leb b c = true ->
  Datetime.leb a c = true.
Proof.
  unfold Datetime.leb, Datetime.ltb. intros Hab Hbc.
  destruct (Datetime.lex_compare (Datetime.tuple c) (Datetime.tuple a))
    eqn:Eca; try reflexivity.
  exfalso.
  destruct (Datetime.lex_compare (Datetime.tuple b) (Datetime.tuple a))
    eqn:Eba; try discriminate.
  - apply lex_compare_eq in Eba. rewrite Eba in Hbc. now rewrite Eca in Hbc.
  - rewrite (lex_compare_antisym (Datetime.tuple a) (Datetime.tuple b)) in Eba.
    destruct (Datetime.lex_compare (Datetime.tuple a) (Datetime.tuple b))
      eqn:Eab; try discriminate.
    rewrite (lex_compare_lt_trans _ _ _ Eca Eab) in Hbc. discriminate.
Qed.

(** An earlier or equal datetime is on an earlier or equal date. *)
Lemma datetime_leb_date a b :
  Datetime.leb a b = true ->
  Datetime.lex_compare (Datetime.date_tuple b) (Datetime.date_tuple a) <> Lt.
Proof.
  unfold Datetime.leb, Datetime.ltb, Datetime.tuple, Datetime.date_tuple.
  cbn [Datetime.lex_compare].
  destruct (Datetime.year b ?= Datetime.year a); try discriminate;
    destruct (Datetime.month b ?= Datetime.month a); try discriminate;
    destruct (Datetime.day b ?= Datetime.day a); discriminate.
Qed.

Lemma strftime_Ymd_date a b :
  Datetime.date_tuple a = Datetime.date_tuple b ->
  Datetime.strftime_Ymd a = Datetime.strftime_Ymd b.
Proof.
  unfold Datetime.date_tuple, Datetime.strftime_Ymd.
  intros [= Hy Hm Hd]. now rewrite Hy, Hm, Hd.
Qed.

Section SortFacts.
Context {A : Type} (leb : A -> A -> bool).
Hypothesis leb_total : forall x y, leb x y = false -> leb y x = true.
Hypothesis leb_trans :
  forall x y z, leb x y = true -> leb y z = true -> leb x z = true.

Lemma insert_by_perm x l : Permutation (Py.insert_by leb x l) (x :: l).
Proof.
  induction l as [|y r IH]; cbn [Py.insert_by]; [reflexivity|].
  destruct (leb x y); [reflexivity|].
  rewrite IH. apply perm_swap.
Qed.

Lemma insert_by_sorted x l :
  StronglySorted (fun a b => leb a b = true) l ->
  StronglySorted (fun a b => leb a b = true) (Py.insert_by leb x l).
Proof using leb_total leb_trans.
  induction 1 as [|y r Hs IH Hf]; cbn [Py.insert_by].
  - repeat constructor.
  - destruct (leb x y) eqn:E.
    + constructor; [now constructor|].
      constructor; [exact E|].
      rewrite Forall_forall in *. intros z Hz.
      eapply leb_trans; [exact E | now apply Hf].
    + constructor; [exact IH|].
      rewrite Forall_forall in *. intros z Hz.
      apply (Permutation_in _ (insert_by_perm x r)) in Hz.
      destruct Hz as [<-|Hz]; [|now apply Hf].
      now apply leb_total.
Qed.

Lemma sort_by_perm l : Permutation (Py.sort_by leb l) l.
Proof.
  induction l as [|x l IH]; cbn [Py.sort_by fold_right]; [reflexivity|].
  fold (Py.sort_by leb l). rewrite insert_by_perm. now constructor.
Qed.

Lemma sort_by_sorted l :
  StronglySorted (fun a b => leb a b = true) (Py.sort_by leb l).
Proof using leb_total leb_trans.
  induction l as [|x l IH]; cbn [Py.sort_by fold_right]; [constructor|].
  fold (Py.sort_by leb l). now apply insert_by_sorted.
Qed.
End SortFacts.

Lemma sorted_by_timestamp_perm l : Permutation (sorted_by_timestamp l) l.
Proof. apply sort_by_perm. Qed.

Lemma sorted_by_timestamp_sorted l :
  StronglySorted item_le (sorted_by_timestamp l).
Proof.
  apply sort_by_sorted; unfold item_leb.
  - intros x y. apply datetime_leb_total.
  - intros x y z. apply datetime_leb_trans.
Qed.

Lemma StronglySorted_app_inv {A : Type} (R : A -> A -> Prop) l1 l2 :
  StronglySorted R (l1 ++ l2) ->
  StronglySorted R l1 /\ forall a b, In a l1 -> In b l2 -> R a b.
Proof.
  induction l1 as [|x l1 IH]; cbn [app]; intros H.
  - split; [constructor | intros a b []].
  - inversion H as [|? ? Hs Hf]; subst. destruct (IH Hs) as [H1 H2].
    rewrite Forall_forall in Hf. split.
    + constructor; [exact H1|]. rewrite Forall_forall. intros z Hz.
      apply Hf. apply in_or_app. now left.
    + intros a b [<-|Ha] Hb; [|now apply H2].
      apply Hf. apply in_or_app. now right.
Qed.

Lemma NoDup_app_disjoint {A : Type} (l1 l2 : list A) x :
  NoDup (l1 ++ l2) -> In x l1 -> In x l2 -> False.
Proof.
  induction l1 as [|y l1 IH]; cbn [app]; intros Hnd H1 H2; [contradiction|].
  inversion Hnd as [|? ? Hn Hr]; subst.
  destruct H1 as [->|H1]; [|now apply IH].
  apply Hn. apply in_or_app. now right.
Qed.

(** What the dictionary holds under a key is a sample of the input whose
    local date is that key. *)
Lemma grouped_item forecasts k e :
  In (k, e) (grouped forecasts) ->
  In (e_forecast e) forecasts /\ date_key_of (e_forecast e) = k /\
  e = entry_of (e_forecast e) /\ Datetime.strftime_Ymd (e_timestamp e) = k.
Proof.
  intros HI.
  apply (dict_In_get _ _ _ (grouped_NoDup forecasts)) in HI.
  rewrite grouped_get in HI.
  destruct (retained k forecasts) as [f|] eqn:R; [|discriminate].
  injection HI as <-. apply retained_In in R. destruct R as [HI Hk].
  unfold entry_of. cbn [e_forecast e_timestamp]. repeat split; assumption.
Qed.

Lemma sorted_forecasts_split forecasts :
  sorted_by_timestamp (grouped forecasts) =
  sorted_forecasts (grouped forecasts) ++
  skipn 5 (sorted_by_timestamp (grouped forecasts)).
Proof. unfold sorted_forecasts. now rewrite firstn_skipn. Qed.

Lemma sorted_forecasts_perm forecasts :
  Permutation (grouped forecasts)
    (sorted_forecasts (grouped forecasts) ++
     skipn 5 (sorted_by_timestamp (grouped forecasts))).
Proof.
  rewrite <- sorted_forecasts_split. symmetry. apply sorted_by_timestamp_perm.
Qed.

Lemma sorted_forecasts_In forecasts item :
  In item (sorted_forecasts (grouped forecasts)) -> In item (grouped forecasts).
Proof.
  intros HI. apply (Permutation_in _ (Permutation_sym (sorted_forecasts_perm forecasts))).
  apply in_or_app. now left.
Qed.

Lemma sorted_forecasts_NoDup forecasts :
  NoDup (map fst (sorted_forecasts (grouped forecasts) ++
                  skipn 5 (sorted_by_timestamp (grouped forecasts)))).
Proof.
  apply (Permutation_NoDup (l := Py.dict_keys (grouped forecasts))).
  - unfold Py.dict_keys. apply Permutation_map, sorted_forecasts_perm.
  - apply grouped_NoDup.
Qed.

Lemma sorted_forecasts_length forecasts :
  List.length (sorted_forecasts (grouped forecasts)) =
  Nat.min 5 (List.length (grouped forecasts)).
Proof.
  unfold sorted_forecasts. rewrite length_firstn.
  now rewrite (Permutation_length (sorted_by_timestamp_perm _)).
Qed.

(** The items cut off by the truncation lie on strictly later dates. *)
Lemma sorted_forecasts_earliest forecasts a b :
  In a (sorted_forecasts (grouped forecasts)) ->
  In b (skipn 5 (sorted_by_timestamp (grouped forecasts))) ->
  Datetime.leb (e_timestamp (snd a)) (e_timestamp (snd b)) = true /\
  Datetime.date_ltb (e_timestamp (snd a)) (e_timestamp (snd b)) = true.
Proof.
  intros Ha Hb.
  pose proof (sorted_by_timestamp_sorted (grouped forecasts)) as Hs.
  rewrite sorted_forecasts_split in Hs.
  apply StronglySorted_app_inv in Hs. destruct Hs as [_ Hle].
  specialize (Hle a b Ha Hb). unfold item_le, item_leb in Hle.
  split; [exact Hle|].
  assert (Hne : fst a <> fst b).
  { intros E. apply (NoDup_app_disjoint _ _ (fst a)
                       (eq_ind _ _ (sorted_forecasts_NoDup forecasts) _
                                (map_app fst _ _))).
    - now apply in_map.
    - rewrite E. now apply in_map. }
  assert (Ia : In a (grouped forecasts))
    by now apply sorted_forecasts_In.
  assert (Ib : In b (grouped forecasts)).
  { apply (Permutation_in _ (Permutation_sym (sorted_forecasts_perm forecasts))).
    apply in_or_app. now right. }
  destruct a as [ka ea], b as [kb eb]. cbn [fst snd] in *.
  apply grouped_item in Ia, Ib.
  destruct Ia as (_ & _ & _ & Ka), Ib as (_ & _ & _ & Kb).
  unfold Datetime.date_ltb.
  destruct (Datetime.lex_compare (Datetime.date_tuple (e_timestamp ea))
                                 (Datetime.date_tuple (e_timestamp eb))) eqn:E.
  - exfalso. apply Hne. rewrite <- Ka, <- Kb.
    apply strftime_Ymd_date. now apply lex_compare_eq.
  - reflexivity.
  - exfalso. apply (datetime_leb_date _ _ Hle).
    rewrite lex_compare_antisym, E. reflexivity.
Qed.

(* ===================================================================== *)
(** ** The formatting loop                                                *)
(* ===================================================================== *)

Lemma mapM_Forall2 {A B : Type} (f : A -> Py.res B) l ys :
  Py.mapM f l = Py.Ok ys <-> Forall2 (fun x y => f x = Py.Ok y) l ys.
Proof.
  revert ys. induction l as [|x l IH]; intros ys; cbn [Py.mapM].
  - split; [intros [= <-]; constructor | intros H; inversion H; reflexivity].
  - split.
    + destruct (f x) as [y|] eqn:Ex; cbn [Py.bind]; [|discriminate].
      destruct (Py.mapM f l) as [zs|] eqn:El; cbn [Py.bind]; [|discriminate].
      intros [= <-]. constructor; [exact Ex | now apply IH].
    + intros H. inversion H as [|? y ? zs Hy Hz]; subst.
      rewrite Hy. cbn [Py.bind]. apply IH in Hz. rewrite Hz. reflexivity.
Qed.

Lemma mapM_total {A B : Type} (f : A -> Py.res B) l :
  (forall x, In x l -> Py.is_ok (f x) = true) ->
  exists ys, Py.mapM f l = Py.Ok ys.
Proof.
  induction l as [|x l IH]; intros H; cbn [Py.mapM]; [now exists []|].
  pose proof (H x (or_introl eq_refl)) as Hx.
  destruct (f x) as [y|]; [|discriminate]. cbn [Py.bind].
  destruct IH as [ys Hys]; [intros z Hz; apply H; now right|].
  rewrite Hys. now exists (y :: ys).
Qed.

Lemma format_prediction_ok idx item s :
  format_prediction idx item = Py.Ok s ->
  day_offset s = idx /\
  precipitation_of (e_forecast (snd item)) = Py.Ok (precipitation s).
Proof.
  unfold format_prediction.
  destruct (precipitation_of (e_forecast (snd item))) as [p|]; cbn [Py.bind];
    [|discriminate].
  intros [= <-]. cbn [day_offset precipitation]. now split.
Qed.

Lemma format_prediction_is_ok idx item :
  Py.is_ok (format_prediction idx item) =
  Py.is_ok (precipitation_of (e_forecast (snd item))).
Proof.
  unfold format_prediction.
  now destruct (precipitation_of (e_forecast (snd item))).
Qed.

Lemma enumerate_from_fst {A : Type} (i : Z) (l : list A) :
  map fst (enumerate_from i l) =
  map (fun n => i + Z.of_nat n) (seq 0 (List.length l)).
Proof.
  revert i. induction l as [|x l IH]; intros i; [reflexivity|].
  cbn [enumerate_from map List.length seq fst]. f_equal; [lia|].
  rewrite IH, <- seq_shift, map_map. apply map_ext. intros n. lia.
Qed.

Lemma enumerate_from_snd {A : Type} (i : Z) (l : list A) :
  map snd (enumerate_from i l) = l.
Proof.
  revert i. induction l as [|x l IH]; intros i; [reflexivity|].
  cbn [enumerate_from map snd]. now rewrite IH.
Qed.

(** The summaries come out one per item, in order, numbered from 0. *)
Lemma format_predictions_ok items ps :
  format_predictions items = Py.Ok ps ->
  map day_offset ps = map Z.of_nat (seq 0 (List.length items)) /\
  Forall2 (fun item s => format_prediction (day_offset s) item = Py.Ok s)
          items ps.
Proof.
  unfold format_predictions, enumerate. intros H.
  apply mapM_Forall2 in H.
  assert (G : forall (l : list (Z * (string * entry))) qs,
             Forall2 (fun x y => format_prediction (fst x) (snd x) = Py.Ok y)
                     l qs ->
             map day_offset qs = map fst l /\
             Forall2 (fun item s =>
                        format_prediction (day_offset s) item = Py.Ok s)
                     (map snd l) qs).
  { induction 1 as [|x y l qs Hxy Hrest IH]; [split; constructor|].
    destruct IH as [IH1 IH2].
    pose proof (format_prediction_ok _ _ _ Hxy) as [Hoff _].
    cbn [map]. split; [now rewrite IH1, Hoff|].
    constructor; [now rewrite Hoff | exact IH2]. }
  apply G in H. rewrite enumerate_from_fst, enumerate_from_snd in H.
  destruct H as [H1 H2]. split; [|exact H2].
  rewrite H1. apply map_ext. intros n. lia.
Qed.

Lemma format_predictions_total items :
  (forall item, In item items ->
     Py.is_ok (precipitation_of (e_forecast (snd item))) = true) ->
  exists ps, format_predictions items = Py.Ok ps.
Proof.
  intros H. unfold format_predictions. apply mapM_total.
  intros x Hx. rewrite format_prediction_is_ok. apply H.
  rewrite <- (enumerate_from_snd 0 items). now apply in_map.
Qed.

Lemma distinct_dates_length forecasts dates :
  NoDup dates ->
  (forall k, In k dates <-> In k (map date_key_of forecasts)) ->
  List.length (grouped forecasts) = List.length dates.
Proof.
  intros Hnd Hiff.
  rewrite <- (length_map fst (grouped forecasts)).
  apply Permutation_length.
  apply NoDup_Permutation;
    [apply grouped_NoDup | exact Hnd |].
  intros k. fold (Py.dict_keys (grouped forecasts)).
  rewrite grouped_keys. symmetry. apply Hiff.
Qed.

Lemma predictions_Ok forecasts ps :
  predictions forecasts = Py.Ok ps <->
  Forall converts forecasts /\
  format_predictions (sorted_forecasts (grouped forecasts)) = Py.Ok ps.
Proof.
  unfold predictions. split.
  - destruct (daily_forecasts forecasts) as [items|] eqn:E; cbn [Py.bind];
      [|discriminate].
    apply daily_forecasts_Ok in E. destruct E as [Hc ->]. now split.
  - intros [Hc H].
    rewrite (proj2 (daily_forecasts_Ok forecasts _) (conj Hc eq_refl)).
    exact H.
Qed.

(** C2. When the loop over the samples returns, the kept (date, sample)
    pairs are sorted ascending by their local timestamp and cut to the first
    5: the result is sorted, holds [min 5 n] of the [n] kept pairs, and
    every pair cut off is no earlier than, and on a strictly later date
    than, every pair that stays.  Each summary carries the position of its
    pair as [day_offset], counted from 0, and summaries are produced
    whenever every timestamp converts and no rain-plus-snow sum overflows.
    With samples on 7 distinct dates, 5 summaries come out, numbered 0 to
    4.  When the loop raises, so does the aggregator. *)
Theorem predict_sorts_truncates_and_numbers (forecasts : list sample) :
  (forall items,
     daily_forecasts forecasts = Py.Ok items ->
     let kept := sorted_forecasts items in
     StronglySorted
       (fun a b =>
          Datetime.leb (e_timestamp (snd a)) (e_timestamp (snd b)) = true)
       kept /\
     List.length kept = Nat.min 5 (List.length items) /\
     (exists rest,
        Permutation items (kept ++ rest) /\
        forall a b, In a kept -> In b rest ->
          Datetime.leb (e_timestamp (snd a)) (e_timestamp (snd b)) = true /\
          Datetime.date_ltb (e_timestamp (snd a)) (e_timestamp (snd b))
          = true) /\
     (forall ps,
        predictions forecasts = Py.Ok ps ->
        map day_offset ps = map Z.of_nat (seq 0 (List.length kept)) /\
        Forall2 (fun item s => format_prediction (day_offset s) item = Py.Ok s)
                kept ps) /\
     ((forall item, In item kept ->
         Py.is_ok (precipitation_of (e_forecast (snd item))) = true) ->
      exists ps, predictions forecasts = Py.Ok ps) /\
     (forall dates,
        NoDup dates ->
        (forall k, In k dates <-> In k (map date_key_of forecasts)) ->
        List.length dates = 7%nat ->
        List.length kept = 5%nat /\
        forall ps, predictions forecasts = Py.Ok ps ->
          map day_offset ps = [0; 1; 2; 3; 4])) /\
  (Forall converts forecasts ->
   exists items, daily_forecasts forecasts = Py.Ok items) /\
  (forall ps,
     predictions forecasts = Py.Ok ps ->
     Forall converts forecasts /\
     (List.length ps <= 5)%nat /\
     map day_offset ps = map Z.of_nat (seq 0 (List.length ps))) /\
  (forall e,
     daily_forecasts forecasts = Py.Raise e ->
     predictions forecasts = Py.Raise e).
Proof.
  split.
  { intros items Hi. apply daily_forecasts_Ok in Hi. destruct Hi as [Hc ->].
    cbv zeta.
    assert (P : forall ps,
               predictions forecasts = Py.Ok ps ->
               format_predictions (sorted_forecasts (grouped forecasts))
               = Py.Ok ps).
    { intros ps Hps. now apply predictions_Ok in Hps. }
    split.
    { pose proof (sorted_by_timestamp_sorted (grouped forecasts)) as Hs.
      rewrite sorted_forecasts_split in Hs.
      now apply StronglySorted_app_inv in Hs. }
    split; [apply sorted_forecasts_length|].
    split.
    { exists (skipn 5 (sorted_by_timestamp (grouped forecasts))).
      split; [apply sorted_forecasts_perm|].
      intros a b. apply sorted_forecasts_earliest. }
    split; [intros ps Hps; apply format_predictions_ok; now apply P|].
    split.
    { intros Hok. destruct (format_predictions_total _ Hok) as [ps Hps].
      exists ps. apply predictions_Ok. now split. }
    intros dates Hnd Hiff Hlen.
    assert (L : List.length (sorted_forecasts (grouped forecasts)) = 5%nat).
    { rewrite sorted_forecasts_length,
        (distinct_dates_length _ _ Hnd Hiff), Hlen. reflexivity. }
    split; [exact L|].
    intros ps Hps. apply P, format_predictions_ok in Hps.
    destruct Hps as [Hoff _]. now rewrite Hoff, L. }
  split.
  { intros Hc. exists (grouped forecasts). now apply daily_forecasts_Ok. }
  split.
  { intros ps Hps. apply predictions_Ok in Hps. destruct Hps as [Hc Hps].
    split; [exact Hc|].
    apply format_predictions_ok in Hps. destruct Hps as [Hoff Hall].
    apply Forall2_length in Hall. rewrite <- Hall.
    split; [|exact Hoff].
    rewrite sorted_forecasts_length. apply Nat.le_min_l. }
  intros e He. unfold predictions. now rewrite He.
Qed.

(** C8. When the loop over the samples returns, the pairs the summaries
    are built from have pairwise distinct date keys and lie on pairwise
    distinct calendar dates; each pair holds a sample of the input list,
    with the local time its timestamp converts to, whose date is the key of
    the pair; and the summaries, which are only produced when the loop
    returns, are built from these pairs one to one. *)
Theorem predict_summaries_distinct_dates_from_input (forecasts : list sample) :
  (forall items,
     daily_forecasts forecasts = Py.Ok items ->
     NoDup (map fst (sorted_forecasts items)) /\
     NoDup (map (fun item => Datetime.date_tuple (e_timestamp (snd item)))
                (sorted_forecasts items)) /\
     (forall k e,
        In (k, e) (sorted_forecasts items) ->
        In (e_forecast e) forecasts /\
        Datetime.fromtimestamp utcoffset (dt (e_forecast e))
        = Py.Ok (e_timestamp e) /\
        Datetime.strftime_Ymd (e_timestamp e) = k /\
        date_key_of (e_forecast e) = k /\
        e = entry_of (e_forecast e)) /\
     (forall ps,
        predictions forecasts = Py.Ok ps ->
        Forall2 (fun item s => format_prediction (day_offset s) item = Py.Ok s)
                (sorted_forecasts items) ps)) /\
  (forall ps,
     predictions forecasts = Py.Ok ps ->
     exists items, daily_forecasts forecasts = Py.Ok items) /\
  (Forall converts forecasts ->
   exists items, daily_forecasts forecasts = Py.Ok items).
Proof.
  split.
  { intros items Hi. apply daily_forecasts_Ok in Hi. destruct Hi as [Hc ->].
    assert (K : NoDup (map fst (sorted_forecasts (grouped forecasts)))).
    { pose proof (sorted_forecasts_NoDup forecasts) as H.
      rewrite map_app in H. now apply NoDup_app_remove_r in H. }
    assert (I : forall k e,
               In (k, e) (sorted_forecasts (grouped forecasts)) ->
               In (e_forecast e) forecasts /\
               date_key_of (e_forecast e) = k /\
               e = entry_of (e_forecast e) /\
               Datetime.strftime_Ymd (e_timestamp e) = k).
    { intros k e HI. apply grouped_item.
      now apply sorted_forecasts_In. }
    split; [exact K|].
    split.
    { revert K I. generalize (sorted_forecasts (grouped forecasts)) as l.
      induction l as [|[k e] l IH]; intros K I; cbn [map]; [constructor|].
      inversion K as [|? ? Hn Hr]; subst. constructor.
      - intros HI. apply in_map_iff in HI. destruct HI as ([k' e'] & E & HI).
        cbn [snd] in E. apply Hn.
        destruct (I k e (or_introl eq_refl)) as (_ & _ & _ & Ke).
        destruct (I k' e' (or_intror HI)) as (_ & _ & _ & Ke').
        apply strftime_Ymd_date in E. rewrite Ke, Ke' in E. subst k'.
        change k with (fst (k, e')). now apply in_map.
      - apply IH; [exact Hr|]. intros k' e' HI. apply I. now right. }
    split.
    { intros k e HI. destruct (I k e HI) as (H1 & H2 & H3 & H4).
      split; [exact H1|].
      split; [|now repeat split].
      rewrite Forall_forall in Hc. destruct (Hc _ H1) as [d Hd].
      rewrite Hd. f_equal. apply fromtimestamp_Ok in Hd.
      rewrite H3. exact Hd. }
    intros ps Hps. apply predictions_Ok in Hps. destruct Hps as [_ Hps].
    now apply format_predictions_ok in Hps. }
  split.
  { intros ps Hps. apply predictions_Ok in Hps. destruct Hps as [Hc _].
    exists (grouped forecasts). now apply daily_forecasts_Ok. }
  intros Hc. exists (grouped forecasts). now apply daily_forecasts_Ok.
Qed.

(* ===================================================================== *)
(** ** The fields of a summary                                            *)
(* ===================================================================== *)

Lemma round_half_even_nearest a b :
  0 < b -> 2 * Z.abs (a - Py.round_half_even a b * b) <= b.
Proof.
  intros Hb. unfold Py.round_half_even.
  pose proof (Z.div_mod a b ltac:(lia)) as Hdm.
  pose proof (Z.mod_pos_bound a b Hb) as Hr.
  set (q := a / b) in *. set (r := a mod b) in *. clearbody q r.
  assert (E0 : a - q * b = r) by (rewrite Hdm; ring).
  assert (E1 : a - (q + 1) * b = r - b) by (rewrite Hdm; ring).
  destruct (2 * r ?= b) eqn:E.
  - apply Z.compare_eq in E.
    destruct (Z.even q); [rewrite E0 | rewrite E1]; lia.
  - rewrite Z.compare_lt_iff in E. rewrite E0. lia.
  - rewrite Z.compare_gt_iff in E. rewrite E1. lia.
Qed.

Lemma round_half_even_tie a b :
  0 < b -> 2 * (a mod b) = b -> Z.even (Py.round_half_even a b) = true.
Proof.
  intros Hb E. unfold Py.round_half_even.
  rewrite E, Z.compare_refl.
  destruct (Z.even (a / b)) eqn:Ev; [exact Ev|].
  rewrite Z.even_add, Ev. reflexivity.
Qed.

Lemma float_add_zero_r a :
  Prim2SF a <> S754_zero true -> PrimFloat.add a 0%float = a.
Proof.
  intros H. apply Prim2SF_inj. rewrite add_spec.
  change (Prim2SF 0%float) with (S754_zero false).
  destruct (Prim2SF a) as [[|]| | |]; try reflexivity. now destruct H.
Qed.

Lemma float_add_zero_l b :
  Prim2SF b <> S754_zero true -> PrimFloat.add 0%float b = b.
Proof.
  intros H. apply Prim2SF_inj. rewrite add_spec.
  change (Prim2SF 0%float) with (S754_zero false).
  destruct (Prim2SF b) as [[|]| | |]; try reflexivity. now destruct H.
Qed.

Lemma get_3h_has block v : has_amount block v -> get_3h block = v.
Proof. intros (d & -> & H). unfold get_3h. now rewrite H. Qed.

Lemma get_3h_no block : no_amount block -> get_3h block = Py.PInt 0.
Proof.
  intros [-> | (d & -> & H)]; [reflexivity|]. unfold get_3h. now rewrite H.
Qed.

(** C5. A summary's precipitation is the sum of the sample's 3-hour rain
    and 3-hour snow amounts, each read as the int 0 when its block or its
    ['3h'] entry is missing.  Two ints add exactly, two doubles as doubles,
    and an int meeting a double is converted first, so that an amount with
    nothing to add to it comes out as it is (the double -0.0 as 0.0): 2.5 of
    rain and no snow give 2.5, 1.0 of rain and 0.5 of snow give 1.5, and
    neither gives 0. *)
Theorem predict_precipitation_is_rain_plus_snow :
  (forall idx item s,
     format_prediction idx item = Py.Ok s ->
     Py.py_add (get_3h (rain (e_forecast (snd item))))
               (get_3h (snow (e_forecast (snd item))))
     = Py.Ok (precipitation s)) /\
  (forall idx item,
     Py.is_ok (format_prediction idx item) =
     Py.is_ok (Py.py_add (get_3h (rain (e_forecast (snd item))))
                         (get_3h (snow (e_forecast (snd item)))))) /\
  get_3h None = Py.PInt 0 /\
  (forall d, Py.dict_get "3h" d = None -> get_3h (Some d) = Py.PInt 0) /\
  (forall d v, Py.dict_get "3h" d = Some v -> get_3h (Some d) = v) /\
  (forall a b, Py.py_add (Py.PFloat a) (Py.PFloat b)
               = Py.Ok (Py.PFloat (PrimFloat.add a b))) /\
  (forall a b, Py.py_add (Py.PInt a) (Py.PInt b) = Py.Ok (Py.PInt (a + b))) /\
  (forall a b x,
     Py.float_of_Z a = Py.Ok x ->
     Py.py_add (Py.PInt a) (Py.PFloat b)
     = Py.Ok (Py.PFloat (PrimFloat.add x b)) /\
     Py.py_add (Py.PFloat b) (Py.PInt a)
     = Py.Ok (Py.PFloat (PrimFloat.add b x))) /\
  (forall a b e,
     Py.float_of_Z a = Py.Raise e ->
     Py.py_add (Py.PInt a) (Py.PFloat b) = Py.Raise e /\
     Py.py_add (Py.PFloat b) (Py.PInt a) = Py.Raise e) /\
  Py.float_of_Z 0 = Py.Ok 0%float /\
  Py.float_of_Z 3 = Py.Ok 3%float /\
  (forall f r,
     has_amount (rain f) (Py.PFloat r) -> no_amount (snow f) ->
     precipitation_of f = Py.Ok (Py.PFloat (PrimFloat.add r 0%float)) /\
     (Prim2SF r <> S754_zero true ->
      precipitation_of f = Py.Ok (Py.PFloat r))) /\
  (forall f w,
     no_amount (rain f) -> has_amount (snow f) (Py.PFloat w) ->
     precipitation_of f = Py.Ok (Py.PFloat (PrimFloat.add 0%float w)) /\
     (Prim2SF w <> S754_zero true ->
      precipitation_of f = Py.Ok (Py.PFloat w))) /\
  (forall f r w,
     has_amount (rain f) (Py.PFloat r) -> has_amount (snow f) (Py.PFloat w) ->
     precipitation_of f = Py.Ok (Py.PFloat (PrimFloat.add r w))) /\
  (forall f r w,
     has_amount (rain f) (Py.PInt r) -> has_amount (snow f) (Py.PInt w) ->
     precipitation_of f = Py.Ok (Py.PInt (r + w))) /\
  (forall f r,
     has_amount (rain f) (Py.PInt r) -> no_amount (snow f) ->
     precipitation_of f = Py.Ok (Py.PInt r)) /\
  (forall f w,
     no_amount (rain f) -> has_amount (snow f) (Py.PInt w) ->
     precipitation_of f = Py.Ok (Py.PInt w)) /\
  (forall f, no_amount (rain f) -> no_amount (snow f) ->
     precipitation_of f = Py.Ok (Py.PInt 0)) /\
  (forall f,
     rain f = Some [("3h", Py.PFloat 2.5)] -> snow f = None ->
     precipitation_of f = Py.Ok (Py.PFloat 2.5)) /\
  (forall f,
     rain f = Some [("3h", Py.PFloat 1.0)] ->
     snow f = Some [("3h", Py.PFloat 0.5)] ->
     precipitation_of f = Py.Ok (Py.PFloat 1.5)) /\
  (forall f,
     rain f = Some [("3h", Py.PInt 3)] ->
     snow f = Some [("3h", Py.PFloat 0.5)] ->
     precipitation_of f = Py.Ok (Py.PFloat 3.5)) /\
  (forall f,
     rain f = None -> snow f = Some [("3h", Py.PFloat 0.5)] ->
     precipitation_of f = Py.Ok (Py.PFloat 0.5)) /\
  (forall f,
     rain f = None -> snow f = None ->
     precipitation_of f = Py.Ok (Py.PInt 0)).
Proof.
  assert (Z0 : Py.float_of_Z 0 = Py.Ok 0%float) by (vm_compute; reflexivity).
  split.
  { intros idx item s H. now apply format_prediction_ok in H. }
  split; [intros idx item; apply format_prediction_is_ok|].
  split; [reflexivity|].
  split; [intros d H; unfold get_3h; now rewrite H|].
  split; [intros d v H; unfold get_3h; now rewrite H|].
  split; [reflexivity|].
  split; [reflexivity|].
  split.
  { intros a b x H. unfold Py.py_add, Py.to_float. rewrite H. now split. }
  split.
  { intros a b e H. unfold Py.py_add, Py.to_float. rewrite H. now split. }
  split; [exact Z0|].
  split; [vm_compute; reflexivity|].
  split.
  { intros f r Hr Hs. unfold precipitation_of.
    rewrite (get_3h_has _ _ Hr), (get_3h_no _ Hs).
    unfold Py.py_add, Py.to_float. rewrite Z0. cbn [Py.bind].
    split; [reflexivity|]. intros H. now rewrite (float_add_zero_r _ H). }
  split.
  { intros f w Hr Hs. unfold precipitation_of.
    rewrite (get_3h_no _ Hr), (get_3h_has _ _ Hs).
    unfold Py.py_add, Py.to_float. rewrite Z0. cbn [Py.bind].
    split; [reflexivity|]. intros H. now rewrite (float_add_zero_l _ H). }
  split.
  { intros f r w Hr Hs. unfold precipitation_of.
    now rewrite (get_3h_has _ _ Hr), (get_3h_has _ _ Hs). }
  split.
  { intros f r w Hr Hs. unfold precipitation_of.
    now rewrite (get_3h_has _ _ Hr), (get_3h_has _ _ Hs). }
  split.
  { intros f r Hr Hs. unfold precipitation_of.
    rewrite (get_3h_has _ _ Hr), (get_3h_no _ Hs). cbn [Py.py_add].
    now rewrite Z.add_0_r. }
  split.
  { intros f w Hr Hs. unfold precipitation_of.
    now rewrite (get_3h_no _ Hr), (get_3h_has _ _ Hs). }
  split.
  { intros f Hr Hs. unfold precipitation_of.
    now rewrite (get_3h_no _ Hr), (get_3h_no _ Hs). }
  repeat split; intros f Hr Hs; unfold precipitation_of;
    rewrite Hr, Hs; vm_compute; reflexivity.
Qed.

Lemma round_half_even_tie_even a b :
  0 < b ->
  2 * Z.abs (a - Py.round_half_even a b * b) = b ->
  Z.even (Py.round_half_even a b) = true.
Proof.
  intros Hb. unfold Py.round_half_even.
  pose proof (Z.div_mod a b ltac:(lia)) as Hdm.
  pose proof (Z.mod_pos_bound a b Hb) as Hr.
  set (q := a / b) in *. set (r := a mod b) in *. clearbody q r.
  assert (E0 : a - q * b = r) by (rewrite Hdm; ring).
  assert (E1 : a - (q + 1) * b = r - b) by (rewrite Hdm; ring).
  destruct (2 * r ?= b) eqn:E.
  - intros _. destruct (Z.even q) eqn:Ev; [exact Ev|].
    rewrite Z.even_add, Ev. reflexivity.
  - rewrite Z.compare_lt_iff in E. rewrite E0. lia.
  - rewrite Z.compare_gt_iff in E. rewrite E1. lia.
Qed.

Lemma nat_of_ascii_of_nat n : (n < 256)%nat -> nat_of_ascii (ascii_of_nat n) = n.
Proof. apply nat_ascii_embedding. Qed.

Lemma title_from_length previous s :
  String.length (Py.title_from previous s) = String.length s.
Proof.
  revert previous. induction s as [|c s IH]; intros previous; [reflexivity|].
  cbn [Py.title_from String.length]. now rewrite IH.
Qed.

Lemma title_from_get previous s i p c :
  String.get i s = Some p -> String.get (S i) s = Some c ->
  String.get (S i) (Py.title_from previous s)
  = Some (if Py.is_cased p then Py.to_lower c else Py.to_upper c).
Proof.
  revert previous i. induction s as [|a s IH]; intros previous i Hp Hc;
    [discriminate|].
  destruct i as [|i].
  - cbn [String.get] in Hp. injection Hp as ->.
    cbn [Py.title_from String.get] in *.
    destruct s as [|b s]; [discriminate|].
    cbn [String.get] in Hc. injection Hc as ->.
    reflexivity.
  - cbn [Py.title_from]. cbn [String.get] in Hp, Hc |- *.
    now apply IH.
Qed.

(** C6. In a summary, temperature, feels-like, minimum, maximum and wind
    speed are [round(x, 1)] of the sample's values; humidity, pressure, wind
    direction and cloud cover are the sample's values untouched; the
    description is title-cased; visibility is the sample's value, or the
    text N/A when the sample has none.  [round(x, 1)] leaves an int alone
    and takes a finite double [m * 2^e] to the double nearest to [n / 10],
    [n] being the integer nearest to ten times the value, the even one at a
    tie; zeros, infinities and NaN come back as they are.  Title-casing of
    an ASCII description keeps its length, upper-cases its first character
    and every character that follows one that is not a letter, and
    lower-cases every character that follows a letter. *)
Theorem predict_summary_fields :
  (forall idx item s,
     format_prediction idx item = Py.Ok s ->
     temperature s = Py.py_round1 (temp (main (e_forecast (snd item)))) /\
     s_feels_like s = Py.py_round1 (feels_like (main (e_forecast (snd item)))) /\
     s_temp_min s = Py.py_round1 (temp_min (main (e_forecast (snd item)))) /\
     s_temp_max s = Py.py_round1 (temp_max (main (e_forecast (snd item)))) /\
     wind_speed s = Py.py_round1 (speed (wind (e_forecast (snd item)))) /\
     s_humidity s = humidity (main (e_forecast (snd item))) /\
     s_pressure s = pressure (main (e_forecast (snd item))) /\
     wind_deg s = deg (wind (e_forecast (snd item))) /\
     cloudiness s = clouds_all (e_forecast (snd item)) /\
     weather_description s
     = title (description (weather0 (e_forecast (snd item)))) /\
     s_visibility s = match visibility (e_forecast (snd item)) with
                      | Some v => Py.JNum v
                      | None => Py.JStr "N/A"
                      end) /\
  (forall z, Py.py_round1 (Py.PInt z) = Py.PInt z) /\
  (forall x s m e,
     Prim2SF x = S754_finite s m e ->
     exists n,
       0 <= n /\
       (0 <= e -> n = 10 * Zpos m * 2 ^ e) /\
       (e < 0 ->
        2 * Z.abs (10 * Zpos m - n * 2 ^ (- e)) <= 2 ^ (- e) /\
        (2 * Z.abs (10 * Zpos m - n * 2 ^ (- e)) = 2 ^ (- e) ->
         Z.even n = true)) /\
       Py.py_round1 (Py.PFloat x) =
       Py.PFloat
         match n with
         | Zpos p => SF2Prim (SFdiv prec emax (S754_finite s p 0)
                                    (S754_finite false 10 0))
         | _ => SF2Prim (S754_zero s)
         end) /\
  (forall x,
     (forall s m e, Prim2SF x <> S754_finite s m e) ->
     Py.py_round1 (Py.PFloat x) = Py.PFloat x) /\
  Py.py_round1 (Py.PFloat 21.46) = Py.PFloat 21.5 /\
  Py.py_round1 (Py.PFloat 0.25) = Py.PFloat 0.2 /\
  Py.py_round1 (Py.PFloat 0.75) = Py.PFloat 0.8 /\
  (forall text,
     Py.is_ascii text = true ->
     String.length (title text) = String.length text /\
     String.get 0 (title text) = option_map Py.to_upper (String.get 0 text) /\
     (forall i p c,
        String.get i text = Some p -> String.get (S i) text = Some c ->
        String.get (S i) (title text)
        = Some (if Py.is_cased p then Py.to_lower c else Py.to_upper c))) /\
  (forall c,
     let n := nat_of_ascii c in
     (Py.is_cased c = true <->
      (65 <= n <= 90)%nat \/ (97 <= n <= 122)%nat) /\
     nat_of_ascii (Py.to_upper c)
     = (if (Nat.leb 97 n && Nat.leb n 122)%bool then n - 32 else n)%nat /\
     nat_of_ascii (Py.to_lower c)
     = (if (Nat.leb 65 n && Nat.leb n 90)%bool then n + 32 else n)%nat) /\
  title "light rain" = "Light Rain" /\
  title "LIGHT rain, 3pm" = "Light Rain, 3Pm".
Proof.
  split.
  { intros idx item s H. unfold format_prediction in H.
    destruct (precipitation_of (e_forecast (snd item))); cbn [Py.bind] in H;
      [|discriminate].
    injection H as <-.
    cbn [temperature s_feels_like s_temp_min s_temp_max wind_speed s_humidity
         s_pressure wind_deg cloudiness weather_description s_visibility].
    repeat split; reflexivity. }
  split; [reflexivity|].
  split.
  { intros x s m e Hx.
    unfold Py.py_round1, Py.float_round1. rewrite Hx.
    destruct (Z.leb_spec 0 e) as [He|He].
    - exists (10 * Zpos m * 2 ^ e).
      assert (0 < 2 ^ e) by (apply Z.pow_pos_nonneg; lia).
      split; [nia|]. split; [reflexivity|]. split; [lia|reflexivity].
    - assert (Hp : 0 < 2 ^ (- e)) by (apply Z.pow_pos_nonneg; lia).
      exists (Py.round_half_even (10 * Zpos m) (2 ^ (- e))).
      split.
      { unfold Py.round_half_even.
        pose proof (Z.div_pos (10 * Zpos m) (2 ^ (- e)) ltac:(lia) Hp).
        destruct (_ ?= _); [destruct (Z.even _)| |]; lia. }
      split; [lia|].
      split; [|reflexivity].
      intros _. split; [now apply round_half_even_nearest|].
      now apply round_half_even_tie_even. }
  split.
  { intros x H. unfold Py.py_round1, Py.float_round1.
    destruct (Prim2SF x) as [| | |s m e] eqn:E; try reflexivity.
    now destruct (H s m e). }
  split; [vm_compute; reflexivity|].
  split; [vm_compute; reflexivity|].
  split; [vm_compute; reflexivity|].
  split.
  { intros text Ha. unfold title. rewrite Ha. unfold Py.title.
    split; [apply title_from_length|].
    split; [now destruct text|].
    intros i p c. apply title_from_get. }
  split.
  { intros c. cbv zeta.
    unfold Py.is_cased, Py.to_upper, Py.to_lower, Py.is_upper, Py.is_lower.
    pose proof (nat_ascii_bounded c) as Hb.
    set (n := nat_of_ascii c) in *.
    split; [|split].
    - rewrite orb_true_iff, !andb_true_iff, !Nat.leb_le. reflexivity.
    - destruct (Nat.leb 97 n && Nat.leb n 122)%bool eqn:E; [|reflexivity].
      apply nat_of_ascii_of_nat. lia.
    - destruct (Nat.leb 65 n && Nat.leb n 90)%bool eqn:E; [|reflexivity].
      apply andb_true_iff in E. rewrite !Nat.leb_le in E.
      apply nat_of_ascii_of_nat. lia. }
  split; reflexivity.
Qed.

(* ===================================================================== *)
(** ** [predict]: validation and the answer                               *)
(* ===================================================================== *)

Lemma dict_get_Some_mem {V : Type} k (v : V) d :
  Py.dict_get k d = Some v -> Py.dict_mem k d = true.
Proof. unfold Py.dict_mem. now intros ->. Qed.

Lemma dict_get_None_mem {V : Type} k (d : Py.dict V) :
  Py.dict_get k d = None -> Py.dict_mem k d = false.
Proof. unfold Py.dict_mem. now intros ->. Qed.

Lemma missing_fields_present items lat_v lon_v :
  Py.dict_get "latitude" items = Some lat_v ->
  Py.dict_get "longitude" items = Some lon_v ->
  missing_fields (Py.JObj items) = Py.Ok false.
Proof.
  intros Hlat Hlon. unfold missing_fields.
  destruct items as [|i items]; [discriminate|].
  cbn [Py.truthy negb Py.contains Py.bind].
  rewrite (dict_get_Some_mem _ _ _ Hlat). cbn [negb].
  now rewrite (dict_get_Some_mem _ _ _ Hlon).
Qed.

Lemma missing_fields_absent items :
  Py.dict_get "latitude" items = None \/
  Py.dict_get "longitude" items = None ->
  missing_fields (Py.JObj items) = Py.Ok true.
Proof.
  intros H. unfold missing_fields.
  destruct items as [|i items]; [reflexivity|].
  cbn [Py.truthy negb Py.contains Py.bind].
  destruct (Py.dict_mem "latitude" (i :: items)) eqn:Elat; cbn [negb];
    [|reflexivity].
  destruct H as [H|H].
  - rewrite (dict_get_None_mem _ _ H) in Elat. discriminate.
  - now rewrite (dict_get_None_mem _ _ H).
Qed.

(** What the validator does with a body holding both fields. *)
Lemma validate_present items lat_v lon_v lat lon :
  Py.dict_get "latitude" items = Some lat_v ->
  Py.dict_get "longitude" items = Some lon_v ->
  py_float lat_v = Py.Ok lat ->
  py_float lon_v = Py.Ok lon ->
  validate (Py.JObj items) =
  Py.Ok (if negb (Py.float_between (-90)%float lat 90%float) then
           Rejected "Invalid latitude. Must be between -90 and 90"
         else if negb (Py.float_between (-180)%float lon 180%float) then
           Rejected "Invalid longitude. Must be between -180 and 180"
         else Accepted lat lon).
Proof.
  intros Hlat Hlon Flat Flon. unfold validate.
  rewrite (missing_fields_present _ _ _ Hlat Hlon).
  cbn [Py.bind Py.getitem]. rewrite Hlat. cbn [Py.bind]. rewrite Flat.
  cbn [Py.bind]. rewrite Hlon. cbn [Py.bind]. rewrite Flon. cbn [Py.bind].
  destruct (negb (Py.float_between (-90)%float lat 90%float)); [reflexivity|].
  now destruct (negb (Py.float_between (-180)%float lon 180%float)).
Qed.

Lemma validate_accepted_obj data lat lon :
  validate data = Py.Ok (Accepted lat lon) -> exists items, data = Py.JObj items.
Proof.
  unfold validate. intros H.
  destruct data as [|b|n|str|l|items]; [..|now exists items]; exfalso;
    destruct (missing_fields _) as [[|]|]; cbn [Py.bind Py.getitem] in H;
    discriminate.
Qed.

(** C3. A body holding a latitude in [-90, 90] and a longitude in
    [-180, 180] passes the validator.  A latitude outside its bounds, or a
    longitude outside its bounds, is answered with status 400 and the
    message naming the field and its bounds; a body that is null or lacks
    one of the two fields is answered with status 400 and the message
    naming the missing fields.  Bounds are compared as doubles, so NaN is
    outside. *)
Theorem predict_validates_coordinates :
  (forall items lat_v lon_v lat lon,
     Py.dict_get "latitude" items = Some lat_v ->
     Py.dict_get "longitude" items = Some lon_v ->
     py_float lat_v = Py.Ok lat ->
     py_float lon_v = Py.Ok lon ->
     PrimFloat.leb (-90)%float lat = true -> PrimFloat.leb lat 90%float = true ->
     PrimFloat.leb (-180)%float lon = true -> PrimFloat.leb lon 180%float = true ->
     validate (Py.JObj items) = Py.Ok (Accepted lat lon)) /\
  (forall items lat_v lon_v lat lon api_key requests_get,
     Py.dict_get "latitude" items = Some lat_v ->
     Py.dict_get "longitude" items = Some lon_v ->
     py_float lat_v = Py.Ok lat ->
     py_float lon_v = Py.Ok lon ->
     PrimFloat.leb (-90)%float lat = false \/ PrimFloat.leb lat 90%float = false ->
     predict (Py.Ok (Py.JObj items)) api_key requests_get
     = (400, Error "Invalid latitude. Must be between -90 and 90")) /\
  (forall items lat_v lon_v lat lon api_key requests_get,
     Py.dict_get "latitude" items = Some lat_v ->
     Py.dict_get "longitude" items = Some lon_v ->
     py_float lat_v = Py.Ok lat ->
     py_float lon_v = Py.Ok lon ->
     PrimFloat.leb (-90)%float lat = true -> PrimFloat.leb lat 90%float = true ->
     PrimFloat.leb (-180)%float lon = false \/ PrimFloat.leb lon 180%float = false ->
     predict (Py.Ok (Py.JObj items)) api_key requests_get
     = (400, Error "Invalid longitude. Must be between -180 and 180")) /\
  (forall data api_key requests_get,
     data = Py.JNull \/
     (exists items,
        data = Py.JObj items /\
        (Py.dict_get "latitude" items = None \/
         Py.dict_get "longitude" items = None)) ->
     predict (Py.Ok data) api_key requests_get
     = (400, Error "Missing required fields: latitude, longitude")).
Proof.
  split.
  { intros items lat_v lon_v lat lon Hlat Hlon Flat Flon A B C D.
    rewrite (validate_present _ _ _ _ _ Hlat Hlon Flat Flon).
    unfold Py.float_between. now rewrite A, B, C, D. }
  split.
  { intros items lat_v lon_v lat lon api_key requests_get Hlat Hlon Flat Flon O.
    unfold predict. cbn [Py.bind].
    rewrite (validate_present _ _ _ _ _ Hlat Hlon Flat Flon).
    assert (E : Py.float_between (-90)%float lat 90%float = false).
    { unfold Py.float_between. destruct O as [-> | ->];
        [reflexivity | apply andb_false_r]. }
    rewrite E. reflexivity. }
  split.
  { intros items lat_v lon_v lat lon api_key requests_get Hlat Hlon Flat Flon
           A B O.
    unfold predict. cbn [Py.bind].
    rewrite (validate_present _ _ _ _ _ Hlat Hlon Flat Flon).
    assert (E : Py.float_between (-180)%float lon 180%float = false).
    { unfold Py.float_between. destruct O as [-> | ->];
        [reflexivity | apply andb_false_r]. }
    unfold Py.float_between at 1. rewrite A, B, E. reflexivity. }
  intros data api_key requests_get [-> | (items & -> & H)].
  - reflexivity.
  - unfold predict, validate. cbn [Py.bind].
    rewrite (missing_fields_absent _ H). reflexivity.
Qed.

Lemma sun_time_cases t :
  (t = None \/ t = Some 0 -> sun_time t = Py.Ok "N/A") /\
  (forall z d,
     t = Some z -> z <> 0 ->
     Datetime.fromtimestamp utcoffset z = Py.Ok d ->
     sun_time t = Py.Ok (Datetime.strftime_HMS d)) /\
  (forall z e,
     t = Some z -> z <> 0 ->
     Datetime.fromtimestamp utcoffset z = Py.Raise e ->
     sun_time t = Py.Raise e).
Proof.
  split; [intros [-> | ->]; reflexivity|].
  split.
  - intros z d -> Hz H. unfold sun_time. apply Z.eqb_neq in Hz.
    now rewrite Hz, H.
  - intros z e -> Hz H. unfold sun_time. apply Z.eqb_neq in Hz.
    now rewrite Hz, H.
Qed.

(** C4. An empty upstream list is not an error: the aggregator returns the
    empty sequence, and the request, once validated, configured and
    answered with status 200 by the upstream, gets status 200 and a success
    body whose predictions are empty, provided the sunrise and sunset of
    the city block, when it has them, convert to a local time (otherwise the
    exception of the conversion decides the answer, as for any list). *)
Theorem predict_empty_forecast_list :
  predictions [] = Py.Ok [] /\
  (forall data lat lon api_key key requests_get r fd sunrise sunset,
     validate data = Py.Ok (Accepted lat lon) ->
     configured api_key = Some key ->
     requests_get lat lon key = Py.Ok r ->
     status_code r = 200 ->
     json_ok r = Py.Ok fd ->
     list_ fd = Some [] \/ list_ fd = None ->
     sun_time (city_sunrise match city fd with
                            | Some c => c | None => empty_city end)
     = Py.Ok sunrise ->
     sun_time (city_sunset match city fd with
                           | Some c => c | None => empty_city end)
     = Py.Ok sunset ->
     exists location,
       loc_sunrise location = sunrise /\ loc_sunset location = sunset /\
       predict (Py.Ok data) api_key requests_get
       = (200, Success {| p_location := location;
                          p_predictions := [];
                          p_generated_at := utcnow_isoformat |})) /\
  (forall data lat lon api_key key requests_get r fd,
     validate data = Py.Ok (Accepted lat lon) ->
     configured api_key = Some key ->
     requests_get lat lon key = Py.Ok r ->
     status_code r = 200 ->
     json_ok r = Py.Ok fd ->
     list_ fd = Some [] \/ list_ fd = None ->
     city fd = None \/
     (exists c, city fd = Some c /\
                (city_sunrise c = None \/ city_sunrise c = Some 0) /\
                (city_sunset c = None \/ city_sunset c = Some 0)) ->
     exists location,
       loc_sunrise location = "N/A" /\ loc_sunset location = "N/A" /\
       predict (Py.Ok data) api_key requests_get
       = (200, Success {| p_location := location;
                          p_predictions := [];
                          p_generated_at := utcnow_isoformat |})) /\
  (forall t,
     (t = None \/ t = Some 0 -> sun_time t = Py.Ok "N/A") /\
     (forall z d,
        t = Some z -> z <> 0 ->
        Datetime.fromtimestamp utcoffset z = Py.Ok d ->
        sun_time t = Py.Ok (Datetime.strftime_HMS d)) /\
     (forall z e,
        t = Some z -> z <> 0 ->
        Datetime.fromtimestamp utcoffset z = Py.Raise e ->
        sun_time t = Py.Raise e)).
Proof.
  assert (G : forall data lat lon api_key key requests_get r fd sunrise sunset,
             validate data = Py.Ok (Accepted lat lon) ->
             configured api_key = Some key ->
             requests_get lat lon key = Py.Ok r ->
             status_code r = 200 ->
             json_ok r = Py.Ok fd ->
             list_ fd = Some [] \/ list_ fd = None ->
             sun_time (city_sunrise match city fd with
                                    | Some c => c | None => empty_city end)
             = Py.Ok sunrise ->
             sun_time (city_sunset match city fd with
                                   | Some c => c | None => empty_city end)
             = Py.Ok sunset ->
             exists location,
               loc_sunrise location = sunrise /\
               loc_sunset location = sunset /\
               predict (Py.Ok data) api_key requests_get
               = (200, Success {| p_location := location;
                                  p_predictions := [];
                                  p_generated_at := utcnow_isoformat |})).
  { intros data lat lon api_key key requests_get r fd sunrise sunset
           Hv Hk Hr Hs Hj Hl Hrise Hset.
    destruct (validate_accepted_obj _ _ _ Hv) as [items ->].
    unfold predict. cbn [Py.bind]. rewrite Hv. cbn [Py.bind].
    unfold forecast_for. cbn [Py.get Py.bind]. rewrite Hk, Hr. cbn [Py.bind].
    rewrite Hs. cbn [Z.eqb Pos.eqb negb]. rewrite Hj. cbn [Py.bind].
    assert (E : match list_ fd with Some l => l | None => [] end = [])
      by (destruct Hl as [-> | ->]; reflexivity).
    rewrite E.
    change (predictions []) with (@Py.Ok (list summary) []). cbn [Py.bind].
    rewrite Hrise. cbn [Py.bind]. rewrite Hset. cbn [Py.bind].
    eexists. split; [|split; [|reflexivity]]; reflexivity. }
  split; [reflexivity|].
  split; [exact G|].
  split; [|exact sun_time_cases].
  intros data lat lon api_key key requests_get r fd Hv Hk Hr Hs Hj Hl Hc.
  apply (G data lat lon api_key key requests_get r fd "N/A" "N/A"
           Hv Hk Hr Hs Hj Hl).
  - destruct Hc as [-> | (c & -> & Hrise & _)]; [reflexivity|].
    now apply (proj1 (sun_time_cases _)).
  - destruct Hc as [-> | (c & -> & _ & Hset)]; [reflexivity|].
    now apply (proj1 (sun_time_cases _)).
Qed.

(* ===================================================================== *)
(** ** [get_current_weather]                                              *)
(* ===================================================================== *)

(** Every answer the body of the [try] returns has status 200 with a
    success object or status 500 with an error. *)
Lemma current_weather_attempt_shape args api_key requests_get r :
  current_weather_attempt args api_key requests_get = Py.Ok r ->
  (exists payload, r = (200, Success payload)) \/
  (exists msg, r = (500, Error msg)).
Proof.
  unfold current_weather_attempt.
  destruct (py_float_arg (Py.dict_get "latitude" args)) as [la|];
    cbn [Py.bind]; [|discriminate].
  destruct (py_float_arg (Py.dict_get "longitude" args)) as [lo|];
    cbn [Py.bind]; [|discriminate].
  destruct (configured api_key) as [key|];
    [|intros [= <-]; right; eexists; reflexivity].
  destruct (requests_get la lo key) as [h|]; cbn [Py.bind]; [|discriminate].
  destruct (negb (status_code h =? 200)).
  - destruct (weather_api_error h _) as [msg|]; cbn [Py.bind]; [|discriminate].
    intros [= <-]. right. eexists. reflexivity.
  - destruct (json_ok h) as [wd|]; cbn [Py.bind]; [|discriminate].
    destruct (Py.get wd "name" _); cbn [Py.bind]; [|discriminate].
    destruct (getitem2 wd "main" "temp"); cbn [Py.bind]; [|discriminate].
    destruct (getitem2 wd "main" "humidity"); cbn [Py.bind]; [|discriminate].
    destruct (getitem2 wd "main" "pressure"); cbn [Py.bind]; [|discriminate].
    destruct (getitem2 wd "wind" "speed"); cbn [Py.bind]; [|discriminate].
    destruct (weather0_field wd "description"); cbn [Py.bind]; [|discriminate].
    destruct (weather0_field wd "icon"); cbn [Py.bind]; [|discriminate].
    intros [= <-]. left. eexists. reflexivity.
Qed.

Lemma current_weather_bad_coordinates args api_key requests_get :
  py_float_arg (Py.dict_get "latitude" args) = Py.Raise Py.TypeError \/
  (exists msg, py_float_arg (Py.dict_get "latitude" args)
               = Py.Raise (Py.ValueError msg)) \/
  py_float_arg (Py.dict_get "longitude" args) = Py.Raise Py.TypeError \/
  (exists msg, py_float_arg (Py.dict_get "longitude" args)
               = Py.Raise (Py.ValueError msg)) ->
  get_current_weather args api_key requests_get
  = (500, Error "Failed to fetch weather data").
Proof.
  intros H. unfold get_current_weather, current_weather_attempt.
  destruct H as [H | [[msg H] | [H | [msg H]]]]; try (now rewrite H);
    destruct (py_float_arg (Py.dict_get "latitude" args));
    cbn [Py.bind]; try reflexivity; now rewrite H.
Qed.

(** C7. The current-weather endpoint answers 200 with its success object
    or 500 with an error, and nothing else: any exception in the handler,
    a missing API key and a non-200 upstream answer all give 500.  A
    latitude or longitude that is missing, or that does not parse as a
    float, gives 500 with the generic message; no input gives 400. *)
Theorem current_weather_failures_are_500
    (args : Py.dict string) (api_key : option string)
    (requests_get : float -> float -> string
                    -> Py.res (http_response Py.json)) :
  let r := get_current_weather args api_key requests_get in
  (fst r = 200 \/ fst r = 500) /\
  (fst r =? 400) = false /\
  (forall msg, snd r = Error msg -> fst r = 500) /\
  (forall payload, snd r = Success payload -> fst r = 200) /\
  (forall e,
     current_weather_attempt args api_key requests_get = Py.Raise e ->
     r = (500, Error "Failed to fetch weather data")) /\
  (Py.dict_get "latitude" args = None \/
   Py.dict_get "longitude" args = None \/
   (exists s msg, Py.dict_get "latitude" args = Some s /\
                  float_of_str s = inl msg) \/
   (exists s msg, Py.dict_get "longitude" args = Some s /\
                  float_of_str s = inl msg) ->
   r = (500, Error "Failed to fetch weather data")) /\
  (configured api_key = None -> fst r = 500) /\
  (forall la lo key h,
     py_float_arg (Py.dict_get "latitude" args) = Py.Ok la ->
     py_float_arg (Py.dict_get "longitude" args) = Py.Ok lo ->
     configured api_key = Some key ->
     requests_get la lo key = Py.Ok h ->
     status_code h <> 200 ->
     fst r = 500).
Proof.
  cbv zeta.
  assert (S : (exists payload, get_current_weather args api_key requests_get
                               = (200, Success payload)) \/
              (exists msg, get_current_weather args api_key requests_get
                           = (500, Error msg))).
  { unfold get_current_weather.
    destruct (current_weather_attempt args api_key requests_get) as [r|e] eqn:E.
    - apply (current_weather_attempt_shape _ _ _ _ E).
    - right. eexists. reflexivity. }
  split; [destruct S as [[x ->] | [x ->]]; [now left | now right]|].
  split; [destruct S as [[x ->] | [x ->]]; reflexivity|].
  split; [intros msg; destruct S as [[x ->] | [x ->]];
          [discriminate | reflexivity]|].
  split; [intros payload; destruct S as [[x ->] | [x ->]];
          [reflexivity | discriminate]|].
  split; [intros e E; unfold get_current_weather; now rewrite E|].
  split.
  { intros H. apply current_weather_bad_coordinates.
    destruct H as [H | [H | [(str & msg & H & F) | (str & msg & H & F)]]].
    - left. now rewrite H.
    - right. right. left. now rewrite H.
    - right. left. exists msg. rewrite H. cbn [py_float_arg py_float].
      now rewrite F.
    - right. right. right. exists msg. rewrite H. cbn [py_float_arg py_float].
      now rewrite F. }
  split.
  { intros Hk. unfold get_current_weather, current_weather_attempt.
    destruct (py_float_arg (Py.dict_get "latitude" args)); cbn [Py.bind];
      [|reflexivity].
    destruct (py_float_arg (Py.dict_get "longitude" args)); cbn [Py.bind];
      [|reflexivity].
    now rewrite Hk. }
  intros la lo key h Hla Hlo Hk Hr Hs.
  destruct S as [[x E] | [x ->]]; [|reflexivity]. exfalso.
  unfold get_current_weather, current_weather_attempt in E.
  rewrite Hla, Hlo in E. cbn [Py.bind] in E. rewrite Hk, Hr in E.
  cbn [Py.bind] in E. apply Z.eqb_neq in Hs. rewrite Hs in E. cbn [negb] in E.
  destruct (weather_api_error h _); cbn [Py.bind] in E; discriminate.
Qed.

(* ===================================================================== *)
(** ** [train_model]                                                      *)
(* ===================================================================== *)

(** C10. A null JSON body, like a body the request could not supply, makes
    the training endpoint answer 500 with its failure message, because
    [.get] is looked up on the body; the queued acknowledgement is given
    exactly to a body that is a JSON object. *)
Theorem train_null_body_is_500 :
  train_model (Py.Ok Py.JNull) = (500, Error "Failed to initiate training") /\
  (forall e, train_model (Py.Raise e)
             = (500, Error "Failed to initiate training")) /\
  (forall items,
     train_model (Py.Ok (Py.JObj items))
     = (200, Success
          {| t_message := "Training initiated";
             t_model_type := match Py.dict_get "model_type" items with
                             | Some v => v
                             | None => Py.JStr "ensemble"
                             end;
             t_event_type := match Py.dict_get "event_type" items with
                             | Some v => v
                             | None => Py.JNull
                             end;
             t_status := "queued" |})) /\
  (forall get_json,
     (exists items, get_json = Py.Ok (Py.JObj items)) \/
     train_model get_json = (500, Error "Failed to initiate training")) /\
  (forall get_json payload,
     train_model get_json = (200, Success payload) ->
     exists items, get_json = Py.Ok (Py.JObj items)).
Proof.
  assert (G : forall get_json,
             (exists items, get_json = Py.Ok (Py.JObj items)) \/
             train_model get_json
             = (500, Error "Failed to initiate training")).
  { intros [[|b|n|str|l|items]|e]; try (right; reflexivity).
    left. now exists items. }
  split; [reflexivity|].
  split; [reflexivity|].
  split; [reflexivity|].
  split; [exact G|].
  intros get_json payload H.
  destruct (G get_json) as [E|E]; [exact E|].
  rewrite E in H. discriminate.
Qed.

(* ===================================================================== *)
(** ** [get_prediction_history]                                           *)
(* ===================================================================== *)

Lemma order_by_created_at_desc_perm rows :
  Permutation (order_by_created_at_desc rows) rows.
Proof. apply sort_by_perm. Qed.

Lemma order_by_created_at_desc_sorted rows :
  StronglySorted
    (fun a b => Datetime.leb (created_at b) (created_at a) = true)
    (order_by_created_at_desc rows).
Proof.
  apply (sort_by_sorted newer_first); unfold newer_first.
  - intros x y. apply datetime_leb_total.
  - intros x y z Hxy Hyz. exact (datetime_leb_trans _ _ _ Hyz Hxy).
Qed.

Lemma box_centre_Some latitude longitude la lo :
  box_centre latitude longitude = Some (la, lo) <->
  latitude = Some la /\ longitude = Some lo /\
  PrimFloat.eqb la 0%float = false /\ PrimFloat.eqb lo 0%float = false.
Proof.
  unfold box_centre, Py.float_truthy.
  destruct latitude as [x|], longitude as [y|];
    try (split; [discriminate | intros (H1 & H2 & _); discriminate]).
  destruct (PrimFloat.eqb x 0%float) eqn:Ex, (PrimFloat.eqb y 0%float) eqn:Ey;
    cbn [negb andb]; split;
    try discriminate;
    try (intros (H1 & H2 & H3 & H4); injection H1 as <-; injection H2 as <-;
         congruence).
  intros [= <- <-]. now repeat split.
Qed.

Lemma box_centre_None latitude longitude :
  latitude = None \/ longitude = None \/
  (exists x, latitude = Some x /\ PrimFloat.eqb x 0%float = true) \/
  (exists x, longitude = Some x /\ PrimFloat.eqb x 0%float = true) ->
  box_centre latitude longitude = None.
Proof.
  unfold box_centre, Py.float_truthy.
  intros [-> | [-> | [(x & -> & E) | (x & -> & E)]]].
  - reflexivity.
  - now destruct latitude.
  - destruct longitude; [|reflexivity]. now rewrite E.
  - destruct latitude; [|reflexivity]. rewrite E. cbn [negb].
    now rewrite andb_false_r.
Qed.

Lemma history_filter_needs_both_nonzero_aux args la lo :
  q_filter (history_query args) = Some (la, lo) <->
  arg_float args "latitude" = Some la /\
  arg_float args "longitude" = Some lo /\
  PrimFloat.eqb la 0%float = false /\ PrimFloat.eqb lo 0%float = false.
Proof. unfold history_query. cbn [q_filter]. apply box_centre_Some. Qed.

Lemma limit_rows_cases n l :
  (n < - 2 ^ 63 \/ 2 ^ 63 <= n ->
   limit_rows n l = Py.Raise Py.OverflowError) /\
  (- 2 ^ 63 <= n < 0 -> limit_rows n l = Py.Ok l) /\
  (0 <= n < 2 ^ 63 -> limit_rows n l = Py.Ok (firstn (Z.to_nat n) l)).
Proof.
  unfold limit_rows.
  destruct (Z.ltb_spec n (- 2 ^ 63)), (Z.leb_spec (2 ^ 63) n),
    (Z.ltb_spec n 0); cbn [orb]; repeat split; intros; try reflexivity; lia.
Qed.

Lemma get_prediction_history_eq args rows :
  get_prediction_history args (Py.Ok rows)
  = match run_query rows (history_query args) with
    | Py.Ok out =>
        (200, Success {| h_count := Z.of_nat (List.length out);
                         h_predictions := map to_dict out |})
    | Py.Raise _ => (500, Error "Failed to fetch predictions")
    end.
Proof.
  unfold get_prediction_history. cbn [Py.bind].
  now destruct (run_query rows (history_query args)).
Qed.

(** C9. The bounding-box filter of the prediction history is built exactly
    when latitude and longitude both parse to a float other than zero, and
    then keeps the rows within half a degree on both axes.  When either
    parameter is missing, does not parse, or is 0.0 (or -0.0), there is no
    filter and the rows of every location are taken.  The rows taken are
    put newest first; a limit from 0 to 2^63 - 1 (100 when none is given)
    cuts them to that many, a negative limit down to -2^63 cuts nothing,
    and a limit outside the 64-bit range is answered with 500. *)
Theorem history_filter_needs_both_nonzero (args : Py.dict string) :
  let q := history_query args in
  let limit := arg_int args "limit" 100 in
  let taken rows := match q_filter q with
                    | Some c => filter (in_box c) rows
                    | None => rows
                    end in
  (forall la lo,
     q_filter q = Some (la, lo) <->
     arg_float args "latitude" = Some la /\
     arg_float args "longitude" = Some lo /\
     PrimFloat.eqb la 0%float = false /\ PrimFloat.eqb lo 0%float = false) /\
  (forall la lo p,
     in_box (la, lo) p =
     (PrimFloat.leb (PrimFloat.sub la 0.5%float) (latitude p)
      && PrimFloat.leb (latitude p) (PrimFloat.add la 0.5%float))
     && (PrimFloat.leb (PrimFloat.sub lo 0.5%float) (longitude p)
         && PrimFloat.leb (longitude p) (PrimFloat.add lo 0.5%float))) /\
  (Py.dict_get "latitude" args = None \/
   Py.dict_get "longitude" args = None \/
   (exists x, arg_float args "latitude" = Some x /\
              PrimFloat.eqb x 0%float = true) \/
   (exists x, arg_float args "longitude" = Some x /\
              PrimFloat.eqb x 0%float = true) ->
   q_filter q = None /\ forall rows, taken rows = rows) /\
  (forall rows,
     0 <= limit < 2 ^ 63 ->
     let out :=
       firstn (Z.to_nat limit) (order_by_created_at_desc (taken rows)) in
     get_prediction_history args (Py.Ok rows)
     = (200, Success {| h_count := Z.of_nat (List.length out);
                        h_predictions := map to_dict out |}) /\
     (List.length out <= Z.to_nat limit)%nat) /\
  (forall rows,
     - 2 ^ 63 <= limit < 0 ->
     let out := order_by_created_at_desc (taken rows) in
     get_prediction_history args (Py.Ok rows)
     = (200, Success {| h_count := Z.of_nat (List.length out);
                        h_predictions := map to_dict out |}) /\
     List.length out = List.length (taken rows)) /\
  (forall rows,
     limit < - 2 ^ 63 \/ 2 ^ 63 <= limit ->
     get_prediction_history args (Py.Ok rows)
     = (500, Error "Failed to fetch predictions")) /\
  (forall rows,
     Permutation (order_by_created_at_desc rows) rows /\
     StronglySorted
       (fun a b => Datetime.leb (created_at b) (created_at a) = true)
       (order_by_created_at_desc rows)) /\
  (Py.dict_get "limit" args = None -> limit = 100) /\
  (forall s z, Py.dict_get "limit" args = Some s -> int_of_str s = Some z ->
               limit = z) /\
  PrimFloat.eqb 0%float 0%float = true /\
  PrimFloat.eqb (-0)%float 0%float = true.
Proof.
  cbv zeta.
  assert (R : forall rows,
             run_query rows (history_query args)
             = limit_rows (arg_int args "limit" 100)
                 (order_by_created_at_desc
                    match q_filter (history_query args) with
                    | Some c => filter (in_box c) rows
                    | None => rows
                    end)) by reflexivity.
  split.
  { intros la lo. unfold history_query. cbn [q_filter].
    apply box_centre_Some. }
  split; [reflexivity|].
  split.
  { intros H.
    assert (E : q_filter (history_query args) = None).
    { unfold history_query. cbn [q_filter]. apply box_centre_None.
      destruct H as [H | [H | [H | H]]].
      - left. unfold arg_float. now rewrite H.
      - right. left. unfold arg_float. now rewrite H.
      - right. right. now left.
      - right. right. now right. }
    split; [exact E|]. intros rows. now rewrite E. }
  split.
  { intros rows Hl. rewrite get_prediction_history_eq, R.
    rewrite (proj2 (proj2 (limit_rows_cases _ _)) Hl).
    split; [reflexivity|]. rewrite length_firstn. apply Nat.le_min_l. }
  split.
  { intros rows Hl. rewrite get_prediction_history_eq, R.
    rewrite (proj1 (proj2 (limit_rows_cases _ _)) Hl).
    split; [reflexivity|].
    apply Permutation_length, order_by_created_at_desc_perm. }
  split.
  { intros rows Hl. rewrite get_prediction_history_eq, R.
    now rewrite (proj1 (limit_rows_cases _ _) Hl). }
  split.
  { intros rows. split;
      [apply order_by_created_at_desc_perm
      |apply order_by_created_at_desc_sorted]. }
  split.
  { intros H. unfold arg_int. now rewrite H. }
  split.
  { intros str z H Hz. unfold arg_int. now rewrite H, Hz. }
  split; reflexivity.
Qed.

(* ===================================================================== *)
(** ** [predict]: coordinates that do not convert                         *)
(* ===================================================================== *)

(** X1. What [float(...)] failing on a coordinate leads to: a [ValueError] (a
    string that is not a number) is answered with 400 and its message; any
    other exception, such as the [TypeError] of a null or the
    [OverflowError] of an integer too large for a double, with 500.  The
    latitude is converted first, so that its exception decides when both
    fail; the longitude is converted before any range is checked, so that
    its exception decides whatever the latitude is. *)
Theorem predict_conversion_failures :
  (forall items lat_v lon_v api_key requests_get msg,
     Py.dict_get "latitude" items = Some lat_v ->
     Py.dict_get "longitude" items = Some lon_v ->
     py_float lat_v = Py.Raise (Py.ValueError msg) ->
     predict (Py.Ok (Py.JObj items)) api_key requests_get
     = (400, Error ("Invalid input: " ++ msg)%string)) /\
  (forall items lat_v lon_v api_key requests_get e,
     Py.dict_get "latitude" items = Some lat_v ->
     Py.dict_get "longitude" items = Some lon_v ->
     py_float lat_v = Py.Raise e ->
     Py.is_ValueError e = false ->
     predict (Py.Ok (Py.JObj items)) api_key requests_get
     = (500, Error "Failed to generate predictions")) /\
  (forall items lat_v lon_v api_key requests_get la msg,
     Py.dict_get "latitude" items = Some lat_v ->
     Py.dict_get "longitude" items = Some lon_v ->
     py_float lat_v = Py.Ok la ->
     py_float lon_v = Py.Raise (Py.ValueError msg) ->
     predict (Py.Ok (Py.JObj items)) api_key requests_get
     = (400, Error ("Invalid input: " ++ msg)%string)) /\
  (forall items lat_v lon_v api_key requests_get la e,
     Py.dict_get "latitude" items = Some lat_v ->
     Py.dict_get "longitude" items = Some lon_v ->
     py_float lat_v = Py.Ok la ->
     py_float lon_v = Py.Raise e ->
     Py.is_ValueError e = false ->
     predict (Py.Ok (Py.JObj items)) api_key requests_get
     = (500, Error "Failed to generate predictions")) /\
  (forall s msg, float_of_str s = inl msg ->
     py_float (Py.JStr s) = Py.Raise (Py.ValueError msg)) /\
  py_float Py.JNull = Py.Raise Py.TypeError /\
  (forall l, py_float (Py.JArr l) = Py.Raise Py.TypeError) /\
  (forall o, py_float (Py.JObj o) = Py.Raise Py.TypeError) /\
  py_float (Py.JNum (Py.PInt (10 ^ 400))) = Py.Raise Py.OverflowError /\
  py_float (Py.JNum (Py.PInt 91)) = Py.Ok 91%float.
Proof.
  assert (G : forall items lat_v lon_v api_key requests_get e,
             Py.dict_get "latitude" items = Some lat_v ->
             Py.dict_get "longitude" items = Some lon_v ->
             py_float lat_v = Py.Raise e ->
             predict (Py.Ok (Py.JObj items)) api_key requests_get
             = match e with
               | Py.ValueError msg => (400, Error ("Invalid input: " ++ msg)%string)
               | _ => (500, Error "Failed to generate predictions")
               end).
  { intros items lat_v lon_v api_key requests_get e Hlat Hlon F.
    unfold predict, validate. cbn [Py.bind].
    rewrite (missing_fields_present _ _ _ Hlat Hlon).
    cbn [Py.bind Py.getitem]. rewrite Hlat. cbn [Py.bind]. rewrite F.
    reflexivity. }
  assert (G' : forall items lat_v lon_v api_key requests_get la e,
             Py.dict_get "latitude" items = Some lat_v ->
             Py.dict_get "longitude" items = Some lon_v ->
             py_float lat_v = Py.Ok la ->
             py_float lon_v = Py.Raise e ->
             predict (Py.Ok (Py.JObj items)) api_key requests_get
             = match e with
               | Py.ValueError msg => (400, Error ("Invalid input: " ++ msg)%string)
               | _ => (500, Error "Failed to generate predictions")
               end).
  { intros items lat_v lon_v api_key requests_get la e Hlat Hlon F F'.
    unfold predict, validate. cbn [Py.bind].
    rewrite (missing_fields_present _ _ _ Hlat Hlon).
    cbn [Py.bind Py.getitem]. rewrite Hlat. cbn [Py.bind]. rewrite F.
    cbn [Py.bind]. rewrite Hlon. cbn [Py.bind]. rewrite F'.
    reflexivity. }
  split.
  { intros items lat_v lon_v api_key requests_get msg Hlat Hlon F.
    now rewrite (G _ _ _ api_key requests_get _ Hlat Hlon F). }
  split.
  { intros items lat_v lon_v api_key requests_get e Hlat Hlon F Hv.
    rewrite (G _ _ _ api_key requests_get _ Hlat Hlon F).
    now destruct e. }
  split.
  { intros items lat_v lon_v api_key requests_get la msg Hlat Hlon F F'.
    now rewrite (G' _ _ _ api_key requests_get _ _ Hlat Hlon F F'). }
  split.
  { intros items lat_v lon_v api_key requests_get la e Hlat Hlon F F' Hv.
    rewrite (G' _ _ _ api_key requests_get _ _ Hlat Hlon F F').
    now destruct e. }
  split; [intros str msg H; cbn [py_float]; now rewrite H|].
  split; [reflexivity|].
  split; [reflexivity|].
  split; [reflexivity|].
  split; vm_compute; reflexivity.
Qed.


Lemma prefix_app sub s :
  String.prefix sub s = true <-> exists post, s = (sub ++ post)%string.
Proof.
  revert s. induction sub as [|c sub IH]; intros s.
  - split; [intros _; now exists s | now destruct s].
  - destruct s as [|d s]; cbn [String.prefix String.append].
    + split; [discriminate | intros [post H]; discriminate].
    + destruct (Ascii.ascii_dec c d) as [->|Hn].
      * rewrite IH. split; intros [post H]; exists post;
          [now rewrite H | now injection H].
      * split; [discriminate|]. intros [post H]. injection H as H1 H2.
        now destruct Hn.
Qed.

(** [sub in s]: [sub] occurs in [s]. *)
Lemma is_substring_occurs sub s :
  Py.is_substring sub s = true <-> exists pre post, s = (pre ++ sub ++ post)%string.
Proof.
  induction s as [|c s IH]; cbn [Py.is_substring].
  - rewrite orb_false_r, prefix_app. split.
    + intros [post H]. now exists "", post.
    + intros (pre & post & H). destruct pre as [|d pre]; [|discriminate].
      now exists post.
  - rewrite orb_true_iff, prefix_app, IH. split.
    + intros [[post H] | (pre & post & H)].
      * now exists "", post.
      * exists (String c pre), post. cbn [String.append]. now rewrite H.
    + intros (pre & post & H). destruct pre as [|d pre].
      * left. now exists post.
      * right. cbn [String.append] in H. injection H as _ H.
        now exists pre, post.
Qed.

(** [k in l] for a list [l]: an element equal to the string [k]. *)
Lemma existsb_is_JStr k l :
  existsb (Py.is_JStr k) l = true <-> In (Py.JStr k) l.
Proof.
  rewrite existsb_exists. split.
  - intros (v & Hv & E). destruct v; try discriminate.
    cbn [Py.is_JStr] in E. apply String.eqb_eq in E. now subst.
  - intros H. exists (Py.JStr k). split; [exact H|].
    cbn [Py.is_JStr]. apply String.eqb_refl.
Qed.

(** X2. What [predict] answers when the body is not a JSON object.  A body
    that is falsy (null, false, 0, an empty string, list or object) is
    answered with 400 and the missing-fields message.  A body that is
    [true] or a number other than zero makes the membership test raise and
    is answered with 500.  A string or a list is tested for the two names
    (as substrings of the string, as elements of the list): when one is
    missing the answer is 400 with the missing-fields message, when both
    are there the subscript raises and the answer is 500.  A body the
    request could not supply is answered by the exception [get_json]
    raised. *)
Theorem predict_body_not_an_object :
  (forall data api_key requests_get,
     Py.truthy data = false ->
     predict (Py.Ok data) api_key requests_get
     = (400, Error "Missing required fields: latitude, longitude")) /\
  (forall data,
     Py.truthy data = false <->
     data = Py.JNull \/ data = Py.JBool false \/
     data = Py.JNum (Py.PInt 0) \/
     (exists f, data = Py.JNum (Py.PFloat f) /\ PrimFloat.eqb f 0%float = true) \/
     data = Py.JStr "" \/ data = Py.JArr [] \/ data = Py.JObj []) /\
  (forall api_key requests_get,
     predict (Py.Ok (Py.JBool true)) api_key requests_get
     = (500, Error "Failed to generate predictions")) /\
  (forall n api_key requests_get,
     Py.truthy (Py.JNum n) = true ->
     predict (Py.Ok (Py.JNum n)) api_key requests_get
     = (500, Error "Failed to generate predictions")) /\
  (forall s api_key requests_get,
     (exists pre post, s = (pre ++ "latitude" ++ post)%string) ->
     (exists pre post, s = (pre ++ "longitude" ++ post)%string) ->
     predict (Py.Ok (Py.JStr s)) api_key requests_get
     = (500, Error "Failed to generate predictions")) /\
  (forall s api_key requests_get,
     ~ (exists pre post, s = (pre ++ "latitude" ++ post)%string) \/
     ~ (exists pre post, s = (pre ++ "longitude" ++ post)%string) ->
     predict (Py.Ok (Py.JStr s)) api_key requests_get
     = (400, Error "Missing required fields: latitude, longitude")) /\
  (forall l api_key requests_get,
     In (Py.JStr "latitude") l -> In (Py.JStr "longitude") l ->
     predict (Py.Ok (Py.JArr l)) api_key requests_get
     = (500, Error "Failed to generate predictions")) /\
  (forall l api_key requests_get,
     ~ In (Py.JStr "latitude") l \/ ~ In (Py.JStr "longitude") l ->
     predict (Py.Ok (Py.JArr l)) api_key requests_get
     = (400, Error "Missing required fields: latitude, longitude")) /\
  (forall e api_key requests_get,
     predict (Py.Raise e) api_key requests_get
     = match e with
       | Py.ValueError msg => (400, Error ("Invalid input: " ++ msg)%string)
       | _ => (500, Error "Failed to generate predictions")
       end).
Proof.
  assert (M : forall data api_key requests_get,
             missing_fields data = Py.Ok true ->
             predict (Py.Ok data) api_key requests_get
             = (400, Error "Missing required fields: latitude, longitude")).
  { intros data api_key requests_get H. unfold predict, validate.
    cbn [Py.bind]. now rewrite H. }
  assert (T : forall data api_key requests_get,
             missing_fields data = Py.Ok false ->
             (forall items, data <> Py.JObj items) ->
             predict (Py.Ok data) api_key requests_get
             = (500, Error "Failed to generate predictions")).
  { intros data api_key requests_get H Hn. unfold predict, validate.
    cbn [Py.bind]. rewrite H. cbn [Py.bind].
    destruct data as [|b|n|str|l|items]; try reflexivity.
    now destruct (Hn items). }
  assert (B : forall b, b <> true -> b = false) by (now intros [|]).
  split.
  { intros data api_key requests_get H. apply M.
    unfold missing_fields. now rewrite H. }
  split.
  { intros data. split.
    - destruct data as [|[|]|[z|f]|str|[|v l]|[|i items]]; cbn [Py.truthy];
        try discriminate; intros H.
      + now left.
      + right. now left.
      + right. right. left. apply negb_false_iff, Z.eqb_eq in H. now subst.
      + right. right. right. left. exists f. split; [reflexivity|].
        unfold Py.float_truthy in H. now apply negb_false_iff in H.
      + right. right. right. right. left.
        apply negb_false_iff, String.eqb_eq in H. now subst.
      + right. right. right. right. right. now left.
      + right. right. right. right. right. now right.
    - intros [-> | [-> | [-> | [(f & -> & H) | [-> | [-> | ->]]]]]];
        try reflexivity.
      cbn [Py.truthy]. unfold Py.float_truthy. now rewrite H. }
  split; [reflexivity|].
  split.
  { intros n api_key requests_get H.
    unfold predict, validate, missing_fields. cbn [Py.bind].
    rewrite H. reflexivity. }
  split.
  { intros str api_key requests_get Hlat Hlon. apply T; [|discriminate].
    apply is_substring_occurs in Hlat, Hlon.
    unfold missing_fields.
    assert (Ht : Py.truthy (Py.JStr str) = true).
    { destruct str; [discriminate Hlat | reflexivity]. }
    rewrite Ht. cbn [negb Py.contains Py.bind]. rewrite Hlat. cbn [negb].
    now rewrite Hlon. }
  split.
  { intros str api_key requests_get H. apply M. unfold missing_fields.
    destruct (Py.truthy (Py.JStr str)); [|reflexivity].
    cbn [negb Py.contains Py.bind].
    destruct (Py.is_substring "latitude" str) eqn:Elat; [|reflexivity].
    cbn [negb].
    destruct (Py.is_substring "longitude" str) eqn:Elon; [|reflexivity].
    exfalso. apply is_substring_occurs in Elat, Elon.
    destruct H as [H | H]; now apply H. }
  split.
  { intros l api_key requests_get Hlat Hlon. apply T; [|discriminate].
    unfold missing_fields.
    assert (Ht : Py.truthy (Py.JArr l) = true).
    { destruct l; [destruct Hlat | reflexivity]. }
    apply existsb_is_JStr in Hlat, Hlon.
    rewrite Ht. cbn [negb Py.contains Py.bind]. rewrite Hlat. cbn [negb].
    now rewrite Hlon. }
  split.
  { intros l api_key requests_get H. apply M. unfold missing_fields.
    destruct (Py.truthy (Py.JArr l)); [|reflexivity].
    cbn [negb Py.contains Py.bind].
    destruct (existsb (Py.is_JStr "latitude") l) eqn:Elat; [|reflexivity].
    cbn [negb].
    destruct (existsb (Py.is_JStr "longitude") l) eqn:Elon; [|reflexivity].
    exfalso. apply existsb_is_JStr in Elat, Elon.
    destruct H as [H | H]; now apply H. }
  intros e api_key requests_get. reflexivity.
Qed.

(* ===================================================================== *)
(** ** Filtered, ordered and limited queries                              *)
(* ===================================================================== *)

Section QueryFacts.
Context {A : Type} (leb : A -> A -> bool) (p : A -> bool).
Hypothesis leb_total : forall x y, leb x y = false -> leb y x = true.
Hypothesis leb_trans :
  forall x y z, leb x y = true -> leb y z = true -> leb x z = true.

(** What [filter(...).order_by(...).limit(n).all()] returns: rows of the
    table that pass the filter, in order, as many as the limit allows, the
    rows left out coming after the rows returned. *)
Lemma query_rows (n : nat) (l : list A) :
  let out := firstn n (Py.sort_by leb (filter p l)) in
  (forall x, In x out -> In x l /\ p x = true) /\
  StronglySorted (fun a b => leb a b = true) out /\
  List.length out = Nat.min n (List.length (filter p l)) /\
  exists rest,
    Permutation (filter p l) (out ++ rest) /\
    (forall a b, In a out -> In b rest -> leb a b = true) /\
    ((List.length (filter p l) <= n)%nat -> rest = []).
Proof using leb_total leb_trans.
  cbv zeta.
  pose proof (sort_by_perm leb (filter p l)) as HP.
  pose proof (sort_by_sorted leb leb_total leb_trans (filter p l)) as HS.
  rewrite <- (firstn_skipn n (Py.sort_by leb (filter p l))) in HS.
  apply StronglySorted_app_inv in HS. destruct HS as [HS1 HS2].
  split.
  { intros x Hx. apply filter_In.
    apply (Permutation_in _ HP).
    rewrite <- (firstn_skipn n (Py.sort_by leb (filter p l))).
    apply in_or_app. now left. }
  split; [exact HS1|].
  split.
  { rewrite length_firstn. now rewrite (Permutation_length HP). }
  exists (skipn n (Py.sort_by leb (filter p l))).
  split; [rewrite firstn_skipn; now symmetry|].
  split; [exact HS2|].
  intros Hlen. apply skipn_all2.
  now rewrite (Permutation_length HP).
Qed.
End QueryFacts.

Lemma float_leb_nan_l x : PrimFloat.leb nan x = false.
Proof.
  rewrite leb_spec.
  change (Prim2SF nan) with S754_nan. reflexivity.
Qed.

(* ===================================================================== *)
(** ** [get_historical_weather]: what comes back                          *)
(* ===================================================================== *)

Lemma weather_newer_first_total x y :
  weather_newer_first x y = false -> weather_newer_first y x = true.
Proof. unfold weather_newer_first. apply datetime_leb_total. Qed.

Lemma weather_newer_first_trans x y z :
  weather_newer_first x y = true -> weather_newer_first y z = true ->
  weather_newer_first x z = true.
Proof.
  unfold weather_newer_first. intros Hxy Hyz.
  exact (datetime_leb_trans _ _ _ Hyz Hxy).
Qed.

Lemma date_bound_parsed v b :
  date_bound v = Py.Ok b <-> parsed_bound v b.
Proof.
  unfold date_bound, parsed_bound. split.
  - destruct v as [str|]; [|intros [= <-]; left; split; [now left|reflexivity]].
    destruct (String.eqb_spec str "") as [->|Hne];
      [intros [= <-]; left; split; [now right|reflexivity]|].
    destruct (fromisoformat str) as [msg|d] eqn:E; [discriminate|].
    intros [= <-]. right. now exists str, d.
  - intros [[[-> | ->] ->] | (str & d & -> & Hne & E & ->)];
      try reflexivity.
    destruct (String.eqb_spec str ""); [contradiction|]. now rewrite E.
Qed.

Lemma weather_matches_iff q d :
  weather_matches q d = true <->
  PrimFloat.leb (PrimFloat.sub (fst (wq_centre q)) 0.5%float) (w_latitude d)
  = true /\
  PrimFloat.leb (w_latitude d) (PrimFloat.add (fst (wq_centre q)) 0.5%float)
  = true /\
  PrimFloat.leb (PrimFloat.sub (snd (wq_centre q)) 0.5%float) (w_longitude d)
  = true /\
  PrimFloat.leb (w_longitude d) (PrimFloat.add (snd (wq_centre q)) 0.5%float)
  = true /\
  (forall t, wq_start q = Some t -> Datetime.leb t (w_timestamp d) = true) /\
  (forall t, wq_end q = Some t -> Datetime.leb (w_timestamp d) t = true).
Proof.
  unfold weather_matches, weather_in_box, Py.float_between.
  destruct (wq_centre q) as [la lo]. cbn [fst snd].
  rewrite !andb_true_iff. split.
  - intros [[[[H1 H2] [H3 H4]] Hs] He]. repeat split; try assumption.
    + intros t E. now rewrite E in Hs.
    + intros t E. now rewrite E in He.
  - intros (H1 & H2 & H3 & H4 & Hs & He). repeat split; try assumption.
    + destruct (wq_start q); [now apply Hs | reflexivity].
    + destruct (wq_end q); [now apply He | reflexivity].
Qed.

(** X3. The historical-weather endpoint needs both coordinates: a latitude
    or longitude that is missing or does not parse, like a start or end
    date that does not parse, gives 500, and so does a table that cannot be
    read.  When the coordinates and the dates given parse, the query is
    built from them, around latitude or longitude 0.0 as well, an empty or
    missing date setting no bound, and the answer is 200.  The rows
    returned are the rows of the table within half a degree of the
    coordinates and within the dates given, newest first, at most 1000, and
    [count] is their number; when at most 1000 rows match, every matching
    row is returned. *)
Theorem historical_weather_rows (args : Py.dict string) :
  (Py.dict_get "latitude" args = None \/
   Py.dict_get "longitude" args = None \/
   (exists s msg, Py.dict_get "latitude" args = Some s /\
                  float_of_str s = inl msg) \/
   (exists s msg, Py.dict_get "longitude" args = Some s /\
                  float_of_str s = inl msg) ->
   forall table,
     get_historical_weather args table
     = (500, Error "Failed to fetch historical data")) /\
  (forall k s msg,
     k = "start_date" \/ k = "end_date" ->
     Py.dict_get k args = Some s -> s <> "" -> fromisoformat s = inl msg ->
     forall table,
       get_historical_weather args table
       = (500, Error "Failed to fetch historical data")) /\
  (forall e,
     get_historical_weather args (Py.Raise e)
     = (500, Error "Failed to fetch historical data")) /\
  (forall sla slo la lo start_date end_date,
     Py.dict_get "latitude" args = Some sla -> float_of_str sla = inr la ->
     Py.dict_get "longitude" args = Some slo -> float_of_str slo = inr lo ->
     parsed_bound (Py.dict_get "start_date" args) start_date ->
     parsed_bound (Py.dict_get "end_date" args) end_date ->
     let q := {| wq_centre := (la, lo);
                 wq_start := start_date;
                 wq_end := end_date |} in
     historical_query args = Py.Ok q /\
     forall rows,
       exists data,
         get_historical_weather args (Py.Ok rows)
         = (200, Success {| hw_count := Z.of_nat (List.length data);
                            hw_data := map weather_to_dict data |}) /\
         (List.length data <= 1000)%nat /\
         (forall d, In d data ->
            In d rows /\
            PrimFloat.leb (PrimFloat.sub la 0.5%float) (w_latitude d) = true /\
            PrimFloat.leb (w_latitude d) (PrimFloat.add la 0.5%float) = true /\
            PrimFloat.leb (PrimFloat.sub lo 0.5%float) (w_longitude d) = true /\
            PrimFloat.leb (w_longitude d) (PrimFloat.add lo 0.5%float) = true /\
            (forall t, start_date = Some t ->
                       Datetime.leb t (w_timestamp d) = true) /\
            (forall t, end_date = Some t ->
                       Datetime.leb (w_timestamp d) t = true)) /\
         StronglySorted
           (fun a b => Datetime.leb (w_timestamp b) (w_timestamp a) = true)
           data /\
         (exists rest,
            Permutation (filter (weather_matches q) rows) (data ++ rest) /\
            forall a b, In a data -> In b rest ->
              Datetime.leb (w_timestamp b) (w_timestamp a) = true) /\
         ((List.length (filter (weather_matches q) rows) <= 1000)%nat ->
          forall d,
            In d rows ->
            PrimFloat.leb (PrimFloat.sub la 0.5%float) (w_latitude d) = true ->
            PrimFloat.leb (w_latitude d) (PrimFloat.add la 0.5%float) = true ->
            PrimFloat.leb (PrimFloat.sub lo 0.5%float) (w_longitude d) = true ->
            PrimFloat.leb (w_longitude d) (PrimFloat.add lo 0.5%float) = true ->
            (forall t, start_date = Some t ->
                       Datetime.leb t (w_timestamp d) = true) ->
            (forall t, end_date = Some t ->
                       Datetime.leb (w_timestamp d) t = true) ->
            In d data)) /\
  (forall q d,
     weather_matches q d = true <->
     PrimFloat.leb (PrimFloat.sub (fst (wq_centre q)) 0.5%float) (w_latitude d)
     = true /\
     PrimFloat.leb (w_latitude d) (PrimFloat.add (fst (wq_centre q)) 0.5%float)
     = true /\
     PrimFloat.leb (PrimFloat.sub (snd (wq_centre q)) 0.5%float) (w_longitude d)
     = true /\
     PrimFloat.leb (w_longitude d) (PrimFloat.add (snd (wq_centre q)) 0.5%float)
     = true /\
     (forall t, wq_start q = Some t -> Datetime.leb t (w_timestamp d) = true) /\
     (forall t, wq_end q = Some t -> Datetime.leb (w_timestamp d) t = true)).
Proof.
  split.
  { intros H table. unfold get_historical_weather, historical_query.
    assert (B : forall k s msg,
               Py.dict_get k args = Some s -> float_of_str s = inl msg ->
               py_float_arg (Py.dict_get k args)
               = Py.Raise (Py.ValueError msg)).
    { intros k s msg Hk Hs. rewrite Hk. cbn [py_float_arg py_float].
      now rewrite Hs. }
    destruct H as [H | [H | [(str & msg & H & F) | (str & msg & H & F)]]].
    - now rewrite H.
    - rewrite H. now destruct (py_float_arg (Py.dict_get "latitude" args)).
    - now rewrite (B _ _ _ H F).
    - rewrite (B _ _ _ H F).
      now destruct (py_float_arg (Py.dict_get "latitude" args)). }
  split.
  { intros k s msg Hk Hget Hne F table.
    assert (D : date_bound (Py.dict_get k args)
                = Py.Raise (Py.ValueError msg)).
    { rewrite Hget. unfold date_bound.
      destruct (String.eqb_spec s ""); [contradiction|]. now rewrite F. }
    unfold get_historical_weather, historical_query.
    destruct (py_float_arg (Py.dict_get "latitude" args)); cbn [Py.bind];
      [|reflexivity].
    destruct (py_float_arg (Py.dict_get "longitude" args)); cbn [Py.bind];
      [|reflexivity].
    destruct Hk as [-> | ->].
    - now rewrite D.
    - rewrite D. now destruct (date_bound (Py.dict_get "start_date" args)). }
  split.
  { intros e. unfold get_historical_weather.
    now destruct (historical_query args). }
  split; [|exact weather_matches_iff].
  intros sla slo la lo start_date end_date Hla Fla Hlo Flo Hs He. cbv zeta.
  set (q := {| wq_centre := (la, lo);
               wq_start := start_date; wq_end := end_date |}).
  assert (Hq : historical_query args = Py.Ok q).
  { unfold historical_query. rewrite Hla, Hlo.
    cbn [py_float_arg py_float]. rewrite Fla, Flo. cbn [Py.bind].
    apply date_bound_parsed in Hs, He. rewrite Hs, He. reflexivity. }
  split; [exact Hq|].
  intros rows. exists (run_weather_query rows q).
  destruct (query_rows weather_newer_first (weather_matches q)
              weather_newer_first_total weather_newer_first_trans 1000 rows)
    as (HIn & HSorted & HLen & rest & HPerm & HRest & HAll).
  fold (run_weather_query rows q) in HIn, HSorted, HLen, HPerm, HRest.
  split.
  { unfold get_historical_weather. rewrite Hq. reflexivity. }
  split; [rewrite HLen; apply Nat.le_min_l|].
  split.
  { intros d Hd. destruct (HIn d Hd) as [Hrow Hm].
    split; [exact Hrow|]. now apply weather_matches_iff in Hm. }
  split; [exact HSorted|].
  split; [exists rest; split; [exact HPerm | exact HRest]|].
  intros Hle d Hd H1 H2 H3 H4 H5 H6.
  rewrite (HAll Hle), app_nil_r in HPerm.
  apply (Permutation_in _ HPerm). apply filter_In. split; [exact Hd|].
  apply weather_matches_iff. now repeat split.
Qed.

(* ===================================================================== *)
(** ** [get_prediction_history]: what comes back                          *)
(* ===================================================================== *)

Lemma newer_first_total x y :
  newer_first x y = false -> newer_first y x = true.
Proof. unfold newer_first. apply datetime_leb_total. Qed.

Lemma newer_first_trans x y z :
  newer_first x y = true -> newer_first y z = true -> newer_first x z = true.
Proof.
  unfold newer_first. intros Hxy Hyz.
  exact (datetime_leb_trans _ _ _ Hyz Hxy).
Qed.

Lemma limit_rows_incl n l out x :
  limit_rows n l = Py.Ok out -> In x out -> In x l.
Proof.
  unfold limit_rows. destruct (_ || _); [discriminate|].
  destruct (n <? 0); intros [= <-]; [trivial|].
  intros H. rewrite <- (firstn_skipn (Z.to_nat n) l).
  apply in_or_app. now left.
Qed.

Lemma limit_rows_sorted n l out (R : Prediction -> Prediction -> Prop) :
  limit_rows n l = Py.Ok out -> StronglySorted R l -> StronglySorted R out.
Proof.
  unfold limit_rows. destruct (_ || _); [discriminate|].
  destruct (n <? 0); intros [= <-]; [trivial|].
  intros H. rewrite <- (firstn_skipn (Z.to_nat n) l) in H.
  now apply StronglySorted_app_inv in H.
Qed.

(** X4. The prediction history answers 500 when the table cannot be read or
    the limit does not fit 64 bits, and 200 otherwise; then [count] is the
    number of predictions in the body, every prediction returned is a
    stored row, they come newest first, and a limit that is not negative
    bounds their number.  When the box filter is built, every row returned
    lies within half a degree of the coordinates on both axes; a latitude
    or longitude that parses to NaN builds the filter and lets no row
    through. *)
Theorem history_rows (args : Py.dict string) :
  let limit := arg_int args "limit" 100 in
  (forall e,
     get_prediction_history args (Py.Raise e)
     = (500, Error "Failed to fetch predictions")) /\
  (limit < - 2 ^ 63 \/ 2 ^ 63 <= limit ->
   forall rows,
     get_prediction_history args (Py.Ok rows)
     = (500, Error "Failed to fetch predictions")) /\
  (- 2 ^ 63 <= limit < 2 ^ 63 ->
   forall rows,
     exists out,
       get_prediction_history args (Py.Ok rows)
       = (200, Success {| h_count := Z.of_nat (List.length out);
                          h_predictions := map to_dict out |}) /\
       run_query rows (history_query args) = Py.Ok out /\
       (forall p, In p out -> In p rows) /\
       StronglySorted
         (fun a b => Datetime.leb (created_at b) (created_at a) = true) out /\
       (0 <= limit -> (List.length out <= Z.to_nat limit)%nat) /\
       (forall la lo p,
          q_filter (history_query args) = Some (la, lo) ->
          In p out ->
          PrimFloat.leb (PrimFloat.sub la 0.5%float) (latitude p) = true /\
          PrimFloat.leb (latitude p) (PrimFloat.add la 0.5%float) = true /\
          PrimFloat.leb (PrimFloat.sub lo 0.5%float) (longitude p) = true /\
          PrimFloat.leb (longitude p) (PrimFloat.add lo 0.5%float) = true)) /\
  (forall other rows,
     - 2 ^ 63 <= limit < 2 ^ 63 ->
     (arg_float args "latitude" = Some nan /\
      arg_float args "longitude" = Some other /\
      PrimFloat.eqb other 0%float = false) \/
     (arg_float args "longitude" = Some nan /\
      arg_float args "latitude" = Some other /\
      PrimFloat.eqb other 0%float = false) ->
     get_prediction_history args (Py.Ok rows)
     = (200, Success {| h_count := 0; h_predictions := [] |})).
Proof.
  cbv zeta.
  assert (R : forall rows,
             run_query rows (history_query args)
             = limit_rows (arg_int args "limit" 100)
                 (order_by_created_at_desc
                    match q_filter (history_query args) with
                    | Some c => filter (in_box c) rows
                    | None => rows
                    end)) by reflexivity.
  assert (L : - 2 ^ 63 <= arg_int args "limit" 100 < 2 ^ 63 ->
              forall l, exists out,
                limit_rows (arg_int args "limit" 100) l = Py.Ok out /\
                (0 <= arg_int args "limit" 100 ->
                 (List.length out <= Z.to_nat (arg_int args "limit" 100))%nat)).
  { intros Hl l.
    destruct (Z.ltb_spec (arg_int args "limit" 100) 0) as [Hn|Hn].
    - exists l. split; [|lia].
      apply (proj1 (proj2 (limit_rows_cases _ _))). lia.
    - eexists. split.
      + apply (proj2 (proj2 (limit_rows_cases _ _))). lia.
      + intros _. rewrite length_firstn. apply Nat.le_min_l. }
  split; [reflexivity|].
  split.
  { intros Hl rows. rewrite get_prediction_history_eq, R.
    now rewrite (proj1 (limit_rows_cases _ _) Hl). }
  split.
  { intros Hl rows.
    destruct (L Hl (order_by_created_at_desc
                      match q_filter (history_query args) with
                      | Some c => filter (in_box c) rows
                      | None => rows
                      end)) as (out & Hout & Hlen).
    exists out. rewrite get_prediction_history_eq, R, Hout.
    split; [reflexivity|]. split; [reflexivity|].
    assert (G : forall p, In p out ->
               In p rows /\
               forall c, q_filter (history_query args) = Some c ->
                         in_box c p = true).
    { intros p Hp. apply (limit_rows_incl _ _ _ _ Hout) in Hp.
      apply (Permutation_in _ (order_by_created_at_desc_perm _)) in Hp.
      destruct (q_filter (history_query args)) as [c|].
      - apply filter_In in Hp. destruct Hp as [Hr Hb].
        split; [exact Hr|]. now intros c' [= <-].
      - split; [exact Hp | discriminate]. }
    split; [intros p Hp; now apply (G p)|].
    split.
    { apply (limit_rows_sorted _ _ _ _ Hout).
      apply order_by_created_at_desc_sorted. }
    split; [exact Hlen|].
    intros la lo p Hf Hp. destruct (G p Hp) as [_ Hb].
    specialize (Hb _ Hf). unfold in_box, Py.float_between in Hb.
    apply andb_prop in Hb. destruct Hb as [Hla Hlo].
    apply andb_prop in Hla. apply andb_prop in Hlo.
    destruct Hla, Hlo. now repeat split. }
  intros other rows Hl H.
  assert (E : exists c, q_filter (history_query args) = Some c /\
                        forall p, in_box c p = false).
  { destruct H as [(Hla & Hlo & Hz) | (Hlo & Hla & Hz)].
    - exists (nan, other). split.
      + apply (proj2 (history_filter_needs_both_nonzero_aux args nan other)).
        repeat split; assumption || reflexivity.
      + intros p. unfold in_box, Py.float_between.
        change (PrimFloat.sub nan 0.5%float) with nan.
        now rewrite float_leb_nan_l.
    - exists (other, nan). split.
      + apply (proj2 (history_filter_needs_both_nonzero_aux args other nan)).
        repeat split; assumption || reflexivity.
      + intros p. unfold in_box, Py.float_between.
        change (PrimFloat.sub nan 0.5%float) with nan.
        rewrite float_leb_nan_l. cbn [andb]. apply andb_false_r. }
  destruct E as (c & Hc & Hnone).
  rewrite get_prediction_history_eq, R, Hc.
  assert (F : filter (in_box c) rows = []).
  { induction rows as [|r rows IH]; [reflexivity|].
    cbn [filter]. now rewrite Hnone. }
  rewrite F. cbn [order_by_created_at_desc Py.sort_by fold_right].
  destruct (L Hl (@nil Prediction)) as (out & Hout & _).
  rewrite Hout.
  assert (out = []).
  { destruct out as [|p out]; [reflexivity|].
    destruct (limit_rows_incl _ _ _ p Hout (or_introl eq_refl)). }
  now subst out.
Qed.

(* ===================================================================== *)
(** ** [get_model_performance]                                            *)
(* ===================================================================== *)

Lemma performance_newer_first_total x y :
  performance_newer_first x y = false -> performance_newer_first y x = true.
Proof. unfold performance_newer_first. apply datetime_leb_total. Qed.

Lemma performance_newer_first_trans x y z :
  performance_newer_first x y = true -> performance_newer_first y z = true ->
  performance_newer_first x z = true.
Proof.
  unfold performance_newer_first. intros Hxy Hyz.
  exact (datetime_leb_trans _ _ _ Hyz Hxy).
Qed.

(** X5. The model-performance endpoint answers 200 when the table can be
    read and 500 when it cannot.  The metrics returned are stored rows,
    newest first, at most 50, and [count] is their number.  With a
    [model_name] parameter that is not empty every row returned carries
    exactly that name; without the parameter, or with an empty one, rows of
    every model are returned, all of them when there are at most 50. *)
Theorem model_performance_rows (args : Py.dict string) :
  (forall e,
     get_model_performance args (Py.Raise e)
     = (500, Error "Failed to fetch model performance")) /\
  (forall rows,
     exists out,
       get_model_performance args (Py.Ok rows)
       = (200, Success {| mp_count := Z.of_nat (List.length out);
                          mp_metrics := map performance_to_dict out |}) /\
       (List.length out <= 50)%nat /\
       (forall m, In m out -> In m rows) /\
       StronglySorted
         (fun a b => Datetime.leb (m_timestamp b) (m_timestamp a) = true) out /\
       (forall n m,
          Py.dict_get "model_name" args = Some n -> n <> "" ->
          In m out -> m_model_name m = n) /\
       (Py.dict_get "model_name" args = None \/
        Py.dict_get "model_name" args = Some "" ->
        (List.length rows <= 50)%nat ->
        Permutation out rows)).
Proof.
  split; [reflexivity|].
  intros rows.
  set (f := name_filter (Py.dict_get "model_name" args)).
  destruct (query_rows performance_newer_first (performance_matches f)
              performance_newer_first_total performance_newer_first_trans
              50 rows)
    as (HIn & HSorted & HLen & rest & HPerm & _ & HAll).
  fold (run_performance_query rows f) in HIn, HSorted, HLen, HPerm.
  exists (run_performance_query rows f).
  split; [reflexivity|].
  split; [rewrite HLen; apply Nat.le_min_l|].
  split; [intros m Hm; now apply HIn|].
  split; [exact HSorted|].
  split.
  { intros n m Hn Hne Hm. destruct (HIn m Hm) as [_ Hp].
    unfold f, name_filter in Hp. rewrite Hn in Hp.
    destruct (String.eqb_spec n ""); [contradiction|].
    cbn [performance_matches] in Hp. now apply String.eqb_eq. }
  intros Hnone Hle.
  assert (Ef : f = None).
  { unfold f, name_filter. destruct Hnone as [-> | ->]; reflexivity. }
  assert (Efilter : filter (performance_matches f) rows = rows).
  { rewrite Ef. clear. induction rows as [|r rows IH]; [reflexivity|].
    cbn [filter performance_matches]. now rewrite IH. }
  rewrite Efilter in HPerm, HAll.
  rewrite (HAll Hle), app_nil_r in HPerm. now symmetry.
Qed.

(* ===================================================================== *)
(** ** [predict]: every answer                                            *)
(* ===================================================================== *)

Lemma validate_inv data v :
  validate data = Py.Ok v ->
  match v with
  | Rejected msg =>
      msg = "Missing required fields: latitude, longitude" \/
      msg = "Invalid latitude. Must be between -90 and 90" \/
      msg = "Invalid longitude. Must be between -180 and 180"
  | Accepted la lo =>
      Py.float_between (-90)%float la 90%float = true /\
      Py.float_between (-180)%float lo 180%float = true /\
      exists items lat_v lon_v,
        data = Py.JObj items /\
        Py.dict_get "latitude" items = Some lat_v /\
        Py.dict_get "longitude" items = Some lon_v /\
        py_float lat_v = Py.Ok la /\ py_float lon_v = Py.Ok lo
  end.
Proof.
  unfold validate.
  destruct (missing_fields data) as [[|]|]; cbn [Py.bind];
    [intros [= <-]; now left | | discriminate].
  destruct data as [|b|n|str|l|items]; cbn [Py.getitem Py.bind];
    try discriminate.
  destruct (Py.dict_get "latitude" items) as [lat_v|] eqn:Elat;
    cbn [Py.bind]; [|discriminate].
  destruct (py_float lat_v) as [la|] eqn:Fla; cbn [Py.bind]; [|discriminate].
  destruct (Py.dict_get "longitude" items) as [lon_v|] eqn:Elon;
    cbn [Py.bind]; [|discriminate].
  destruct (py_float lon_v) as [lo|] eqn:Flo; cbn [Py.bind]; [|discriminate].
  destruct (Py.float_between (-90)%float la 90%float) eqn:Bla; cbn [negb];
    [|intros [= <-]; right; now left].
  destruct (Py.float_between (-180)%float lo 180%float) eqn:Blo; cbn [negb];
    [|intros [= <-]; right; now right].
  intros [= <-]. split; [exact Bla|]. split; [exact Blo|].
  exists items, lat_v, lon_v. now repeat split.
Qed.

Lemma predictions_shape forecasts ps :
  predictions forecasts = Py.Ok ps ->
  (List.length ps <= 5)%nat /\
  map day_offset ps = map Z.of_nat (seq 0 (List.length ps)).
Proof.
  intros H. apply predictions_Ok in H. destruct H as [_ H].
  apply format_predictions_ok in H. destruct H as [Hoff Hall].
  apply Forall2_length in Hall. rewrite <- Hall.
  split; [|exact Hoff].
  rewrite sorted_forecasts_length. apply Nat.le_min_l.
Qed.

Lemma forecast_for_inv data la lo api_key requests_get r :
  forecast_for data la lo api_key requests_get = Py.Ok r ->
  (exists msg, r = (500, Error msg)) \/
  (exists key payload,
     configured api_key = Some key /\
     r = (200, Success payload) /\
     loc_latitude (p_location payload) = la /\
     loc_longitude (p_location payload) = lo /\
     p_generated_at payload = utcnow_isoformat /\
     (List.length (p_predictions payload) <= 5)%nat /\
     map day_offset (p_predictions payload)
     = map Z.of_nat (seq 0 (List.length (p_predictions payload)))).
Proof.
  unfold forecast_for.
  destruct (Py.get data "location_name" _) as [name|]; cbn [Py.bind];
    [|discriminate].
  destruct (configured api_key) as [key|];
    [|intros [= <-]; left; eexists; reflexivity].
  destruct (requests_get la lo key) as [h|]; cbn [Py.bind]; [|discriminate].
  destruct (negb (status_code h =? 200)).
  - destruct (weather_api_error h _) as [msg|]; cbn [Py.bind]; [|discriminate].
    intros [= <-]. left. eexists. reflexivity.
  - destruct (json_ok h) as [fd|]; cbn [Py.bind]; [|discriminate].
    destruct (predictions _) as [ps|] eqn:Eps; cbn [Py.bind]; [|discriminate].
    destruct (sun_time (city_sunrise _)) as [sunrise|]; cbn [Py.bind];
      [|discriminate].
    destruct (sun_time (city_sunset _)) as [sunset|]; cbn [Py.bind];
      [|discriminate].
    intros [= <-]. right. eexists. eexists.
    split; [reflexivity|]. split; [reflexivity|].
    cbn [p_location p_predictions p_generated_at loc_latitude loc_longitude].
    destruct (predictions_shape _ _ Eps) as [H5 Hoff].
    now repeat split.
Qed.

(** X6. [predict] answers with status 200, 400 or 500 and nothing else; an
    error body comes with 400 or 500, a success body with 200.  A success
    body echoes coordinates that passed the range check, carries at most 5
    predictions whose day offsets count up from 0, is stamped with the
    clock's time, and is only given when an API key is configured. *)
Theorem predict_answers
    (get_json : Py.res Py.json) (api_key : option string)
    (requests_get : float -> float -> string
                    -> Py.res (http_response forecast_data)) :
  let r := predict get_json api_key requests_get in
  (fst r = 200 \/ fst r = 400 \/ fst r = 500) /\
  (forall msg, snd r = Error msg -> fst r = 400 \/ fst r = 500) /\
  (forall payload,
     snd r = Success payload ->
     fst r = 200 /\
     Py.float_between (-90)%float (loc_latitude (p_location payload)) 90%float
     = true /\
     Py.float_between (-180)%float (loc_longitude (p_location payload))
                      180%float = true /\
     (List.length (p_predictions payload) <= 5)%nat /\
     map day_offset (p_predictions payload)
     = map Z.of_nat (seq 0 (List.length (p_predictions payload))) /\
     p_generated_at payload = utcnow_isoformat /\
     exists key, configured api_key = Some key).
Proof.
  cbv zeta.
  assert (S : (exists msg, predict get_json api_key requests_get
                           = (400, Error msg)) \/
              (exists msg, predict get_json api_key requests_get
                           = (500, Error msg)) \/
              (exists payload key,
                 predict get_json api_key requests_get
                 = (200, Success payload) /\
                 configured api_key = Some key /\
                 Py.float_between (-90)%float
                   (loc_latitude (p_location payload)) 90%float = true /\
                 Py.float_between (-180)%float
                   (loc_longitude (p_location payload)) 180%float = true /\
                 p_generated_at payload = utcnow_isoformat /\
                 (List.length (p_predictions payload) <= 5)%nat /\
                 map day_offset (p_predictions payload)
                 = map Z.of_nat (seq 0 (List.length (p_predictions payload))))).
  { unfold predict.
    destruct get_json as [data|e]; cbn [Py.bind];
      [|destruct e; [left | right; left ..]; eexists; reflexivity].
    destruct (validate data) as [[msg|la lo]|e] eqn:Ev; cbn [Py.bind];
      [left; eexists; reflexivity | |
       destruct e; [left | right; left ..]; eexists; reflexivity].
    apply validate_inv in Ev. destruct Ev as (Bla & Blo & _).
    destruct (forecast_for data la lo api_key requests_get) as [r|e] eqn:Ef;
      [|destruct e; [left | right; left ..]; eexists; reflexivity].
    apply forecast_for_inv in Ef.
    destruct Ef as [[msg ->] | (key & payload & Hk & -> & Hla & Hlo & Hg & H5 & Ho)].
    - right. left. eexists. reflexivity.
    - right. right. exists payload, key. rewrite Hla, Hlo.
      now repeat split. }
  destruct S as [[msg ->] | [[msg ->] | (payload & key & -> & Hk & Bla & Blo & Hg & H5 & Ho)]];
    cbn [fst snd].
  - split; [right; now left|]. split; [intros _ _; now left | discriminate].
  - split; [right; now right|]. split; [intros _ _; now right | discriminate].
  - split; [now left|]. split; [discriminate|].
    intros payload' [= <-]. repeat split; try assumption.
    now exists key.
Qed.

(** X7. Once the coordinates are validated, [predict] turns to the
    upstream: without a configured key it answers 500 without asking it;
    it asks only for the validated coordinates with the configured key; an
    exception of the request gives 500, unless it is a [ValueError], which
    gives 400; a status other than 200 gives 500 with the upstream's
    [message], or a fixed text when the answer has none; and a 200 whose
    body cannot be decoded gives 400 with the decoder's message. *)
Theorem predict_upstream_failures
    (data : Py.json) (la lo : float) (api_key : option string)
    (requests_get : float -> float -> string
                    -> Py.res (http_response forecast_data)) :
  validate data = Py.Ok (Accepted la lo) ->
  (configured api_key = None ->
   predict (Py.Ok data) api_key requests_get
   = (500, Error "OpenWeatherMap API key not configured")) /\
  (forall key other,
     configured api_key = Some key ->
     other la lo key = requests_get la lo key ->
     predict (Py.Ok data) api_key other
     = predict (Py.Ok data) api_key requests_get) /\
  (forall key e,
     configured api_key = Some key ->
     requests_get la lo key = Py.Raise e ->
     predict (Py.Ok data) api_key requests_get
     = match e with
       | Py.ValueError msg => (400, Error ("Invalid input: " ++ msg)%string)
       | _ => (500, Error "Failed to generate predictions")
       end) /\
  (forall key h items,
     configured api_key = Some key ->
     requests_get la lo key = Py.Ok h ->
     status_code h <> 200 ->
     json_err h = Py.Ok (Py.JObj items) ->
     predict (Py.Ok data) api_key requests_get
     = (500, Error ("Weather API error: " ++
                    match Py.dict_get "message" items with
                    | Some (Py.JStr m) => m
                    | Some v => py_str v
                    | None => "Could not retrieve forecast data"
                    end)%string)) /\
  (forall key h msg,
     configured api_key = Some key ->
     requests_get la lo key = Py.Ok h ->
     status_code h = 200 ->
     json_ok h = Py.Raise (Py.ValueError msg) ->
     predict (Py.Ok data) api_key requests_get
     = (400, Error ("Invalid input: " ++ msg)%string)).
Proof.
  intros Hv.
  destruct (validate_accepted_obj _ _ _ Hv) as [items0 ->].
  assert (P : forall rg,
             predict (Py.Ok (Py.JObj items0)) api_key rg
             = match forecast_for (Py.JObj items0) la lo api_key rg with
               | Py.Ok r => r
               | Py.Raise (Py.ValueError msg) =>
                   (400, Error ("Invalid input: " ++ msg)%string)
               | Py.Raise _ => (500, Error "Failed to generate predictions")
               end).
  { intros rg. unfold predict. cbn [Py.bind]. rewrite Hv. reflexivity. }
  split.
  { intros Hk. rewrite P. unfold forecast_for. cbn [Py.get Py.bind].
    now rewrite Hk. }
  split.
  { intros key other Hk Heq. rewrite !P. unfold forecast_for.
    cbn [Py.get Py.bind]. now rewrite Hk, Heq. }
  split.
  { intros key e Hk Hr. rewrite P. unfold forecast_for.
    cbn [Py.get Py.bind]. rewrite Hk, Hr. reflexivity. }
  split.
  { intros key h items Hk Hr Hs Hj. rewrite P. unfold forecast_for.
    cbn [Py.get Py.bind]. rewrite Hk, Hr. cbn [Py.bind].
    apply Z.eqb_neq in Hs. rewrite Hs. cbn [negb].
    unfold weather_api_error. rewrite Hj. cbn [Py.bind Py.get].
    destruct (Py.dict_get "message" items) as [[| | |m| |]|]; reflexivity. }
  intros key h msg Hk Hr Hs Hj. rewrite P. unfold forecast_for.
  cbn [Py.get Py.bind]. rewrite Hk, Hr. cbn [Py.bind].
  rewrite Hs. cbn [Z.eqb Pos.eqb negb]. rewrite Hj. reflexivity.
Qed.



(* ===================================================================== *)
(** ** [predict]: timestamps that do not convert                          *)
(* ===================================================================== *)

Lemma wrap_int_small y : - 2 ^ 31 <= y < 2 ^ 31 -> Datetime.wrap_int y = y.
Proof.
  intros H. unfold Datetime.wrap_int. rewrite Z.mod_small; lia.
Qed.

Lemma fromtimestamp_year_out_of_range t y :
  - 2 ^ 63 <= t < 2 ^ 63 ->
  Datetime.year_of_wall (t + utcoffset t) = y ->
  (- 2 ^ 31 + 1900 <= y < 1 \/ 9999 < y < 2 ^ 31) ->
  Datetime.fromtimestamp utcoffset t
  = Py.Raise (Py.ValueError ("year " ++ Datetime.decimal y ++
                             " is out of range")).
Proof.
  intros Ht Hy Hr. unfold Datetime.fromtimestamp, Datetime.fits_time_t.
  destruct (Z.leb_spec (- 2 ^ 63) t); [|lia].
  destruct (Z.ltb_spec t (2 ^ 63)); [|lia]. cbn [andb negb].
  unfold Datetime.localtime. cbv zeta. rewrite Hy.
  destruct (Z.leb_spec (- 2 ^ 31) (y - 1900)); [|lia].
  destruct (Z.ltb_spec (y - 1900) (2 ^ 31)); [|lia]. cbn [andb Py.bind].
  unfold Datetime.utc_to_seconds. cbv zeta. rewrite Hy.
  rewrite wrap_int_small by lia.
  destruct (Z.leb_spec 1 y), (Z.leb_spec y 9999); cbn [andb Py.bind];
    try reflexivity; lia.
Qed.

Lemma fromtimestamp_probe_out_of_range t y :
  - 2 ^ 63 <= t - 86400 -> t < 2 ^ 63 ->
  1 <= Datetime.year_of_wall (t + utcoffset t) <= 9999 ->
  Datetime.year_of_wall (t - 86400 + utcoffset (t - 86400)) = y ->
  (- 2 ^ 31 + 1900 <= y < 1 \/ 9999 < y < 2 ^ 31) ->
  Datetime.fromtimestamp utcoffset t
  = Py.Raise (Py.ValueError ("year " ++ Datetime.decimal y ++
                             " is out of range")).
Proof.
  intros Ht1 Ht2 Hw Hy Hr.
  unfold Datetime.fromtimestamp, Datetime.fits_time_t.
  destruct (Z.leb_spec (- 2 ^ 63) t); [|lia].
  destruct (Z.ltb_spec t (2 ^ 63)); [|lia]. cbn [andb negb].
  unfold Datetime.localtime at 1. cbv zeta.
  destruct (Z.leb_spec (- 2 ^ 31)
              (Datetime.year_of_wall (t + utcoffset t) - 1900)); [|lia].
  destruct (Z.ltb_spec (Datetime.year_of_wall (t + utcoffset t) - 1900)
              (2 ^ 31)); [|lia].
  cbn [andb Py.bind].
  unfold Datetime.utc_to_seconds at 1. cbv zeta.
  rewrite wrap_int_small by lia.
  destruct (Z.leb_spec 1 (Datetime.year_of_wall (t + utcoffset t))); [|lia].
  destruct (Z.leb_spec (Datetime.year_of_wall (t + utcoffset t)) 9999);
    [|lia].
  cbn [andb Py.bind].
  unfold Datetime.local at 1, Datetime.fits_time_t, Datetime.max_fold_seconds.
  change (24 * 3600) with 86400.
  destruct (Z.leb_spec (- 2 ^ 63) (t - 86400)); [|lia].
  destruct (Z.ltb_spec (t - 86400) (2 ^ 63)); [|lia]. cbn [andb].
  unfold Datetime.localtime. cbv zeta. rewrite Hy.
  destruct (Z.leb_spec (- 2 ^ 31) (y - 1900)); [|lia].
  destruct (Z.ltb_spec (y - 1900) (2 ^ 31)); [|lia]. cbn [andb Py.bind].
  unfold Datetime.utc_to_seconds. cbv zeta. rewrite Hy.
  rewrite wrap_int_small by lia.
  destruct (Z.leb_spec 1 y), (Z.leb_spec y 9999); cbn [andb Py.bind];
    try reflexivity; lia.
Qed.

Lemma fromtimestamp_no_time_t t :
  t < - 2 ^ 63 \/ 2 ^ 63 <= t ->
  Datetime.fromtimestamp utcoffset t = Py.Raise Py.OverflowError.
Proof.
  intros Ht. unfold Datetime.fromtimestamp, Datetime.fits_time_t.
  destruct (Z.leb_spec (- 2 ^ 63) t), (Z.ltb_spec t (2 ^ 63));
    cbn [andb negb]; try reflexivity; lia.
Qed.

Lemma fromtimestamp_no_tm_year t y :
  - 2 ^ 63 <= t < 2 ^ 63 ->
  Datetime.year_of_wall (t + utcoffset t) = y ->
  (y < - 2 ^ 31 + 1900 \/ 2 ^ 31 + 1900 <= y) ->
  Datetime.fromtimestamp utcoffset t = Py.Raise Py.OSError.
Proof.
  intros Ht Hy Hr. unfold Datetime.fromtimestamp, Datetime.fits_time_t.
  destruct (Z.leb_spec (- 2 ^ 63) t); [|lia].
  destruct (Z.ltb_spec t (2 ^ 63)); [|lia]. cbn [andb negb].
  unfold Datetime.localtime. cbv zeta. rewrite Hy.
  destruct (Z.leb_spec (- 2 ^ 31) (y - 1900)),
    (Z.ltb_spec (y - 1900) (2 ^ 31)); cbn [andb Py.bind];
    try reflexivity; lia.
Qed.

(** X14. A timestamp that [datetime.fromtimestamp] refuses ends [predict]
    with the exception of the conversion: 400 with its message for a
    [ValueError], 500 otherwise.  This holds for the first such sample of
    the upstream list, and, when the aggregator has returned, for the
    sunrise and then the sunset of the city block.  The conversion raises
    [OverflowError] on a timestamp outside 64 bits, [OSError] when the year
    of the local time does not fit the C library's [int], and a
    [ValueError] naming the year when that year, or the year of the local
    time one day before, is not within 1 to 9999; a value it returns is
    the local time. *)
Theorem predict_timestamp_failures
    (items : Py.dict Py.json) (la lo : float) (api_key : option string)
    (key : string)
    (requests_get : float -> float -> string
                    -> Py.res (http_response forecast_data))
    (h : http_response forecast_data) (fd : forecast_data) :
  validate (Py.JObj items) = Py.Ok (Accepted la lo) ->
  configured api_key = Some key ->
  requests_get la lo key = Py.Ok h ->
  status_code h = 200 ->
  json_ok h = Py.Ok fd ->
  let answer e :=
    match e with
    | Py.ValueError msg => (400, @Error predict_payload ("Invalid input: " ++ msg))
    | _ => (500, Error "Failed to generate predictions")
    end in
  (forall before f after e,
     list_ fd = Some (before ++ f :: after) ->
     Forall converts before ->
     Datetime.fromtimestamp utcoffset (dt f) = Py.Raise e ->
     predict (Py.Ok (Py.JObj items)) api_key requests_get = answer e) /\
  (forall ps c z e,
     predictions (match list_ fd with Some l => l | None => [] end)
     = Py.Ok ps ->
     city fd = Some c -> city_sunrise c = Some z -> z <> 0 ->
     Datetime.fromtimestamp utcoffset z = Py.Raise e ->
     predict (Py.Ok (Py.JObj items)) api_key requests_get = answer e) /\
  (forall ps c sunrise z e,
     predictions (match list_ fd with Some l => l | None => [] end)
     = Py.Ok ps ->
     city fd = Some c -> sun_time (city_sunrise c) = Py.Ok sunrise ->
     city_sunset c = Some z -> z <> 0 ->
     Datetime.fromtimestamp utcoffset z = Py.Raise e ->
     predict (Py.Ok (Py.JObj items)) api_key requests_get = answer e) /\
  (forall t,
     t < - 2 ^ 63 \/ 2 ^ 63 <= t ->
     Datetime.fromtimestamp utcoffset t = Py.Raise Py.OverflowError) /\
  (forall t y,
     - 2 ^ 63 <= t < 2 ^ 63 ->
     Datetime.year_of_wall (t + utcoffset t) = y ->
     y < - 2 ^ 31 + 1900 \/ 2 ^ 31 + 1900 <= y ->
     Datetime.fromtimestamp utcoffset t = Py.Raise Py.OSError) /\
  (forall t y,
     - 2 ^ 63 <= t < 2 ^ 63 ->
     Datetime.year_of_wall (t + utcoffset t) = y ->
     - 2 ^ 31 + 1900 <= y < 1 \/ 9999 < y < 2 ^ 31 ->
     Datetime.fromtimestamp utcoffset t
     = Py.Raise (Py.ValueError ("year " ++ Datetime.decimal y ++
                                " is out of range"))) /\
  (forall t y,
     - 2 ^ 63 <= t - 86400 -> t < 2 ^ 63 ->
     1 <= Datetime.year_of_wall (t + utcoffset t) <= 9999 ->
     Datetime.year_of_wall (t - 86400 + utcoffset (t - 86400)) = y ->
     - 2 ^ 31 + 1900 <= y < 1 \/ 9999 < y < 2 ^ 31 ->
     Datetime.fromtimestamp utcoffset t
     = Py.Raise (Py.ValueError ("year " ++ Datetime.decimal y ++
                                " is out of range"))) /\
  (forall t d,
     Datetime.fromtimestamp utcoffset t = Py.Ok d ->
     d = Datetime.of_wall (t + utcoffset t) /\
     - 2 ^ 63 <= t < 2 ^ 63 /\
     1 <= Datetime.year_of_wall (t + utcoffset t) <= 9999).
Proof.
  intros Hv Hk Hr Hs Hj. cbv zeta.
  assert (P : predict (Py.Ok (Py.JObj items)) api_key requests_get
              = match
                  Py.bind (predictions match list_ fd with
                                       | Some l => l | None => []
                                       end) (fun ps =>
                  Py.bind (sun_time (city_sunrise
                                       match city fd with
                                       | Some c => c | None => empty_city
                                       end)) (fun sunrise =>
                  Py.bind (sun_time (city_sunset
                                       match city fd with
                                       | Some c => c | None => empty_city
                                       end)) (fun sunset =>
                  Py.Ok (ps, sunrise, sunset))))
                with
                | Py.Ok _ => predict (Py.Ok (Py.JObj items)) api_key requests_get
                | Py.Raise (Py.ValueError msg) =>
                    (400, Error ("Invalid input: " ++ msg)%string)
                | Py.Raise _ => (500, Error "Failed to generate predictions")
                end).
  { unfold predict. cbn [Py.bind]. rewrite Hv. cbn [Py.bind].
    unfold forecast_for. cbn [Py.get Py.bind]. rewrite Hk, Hr. cbn [Py.bind].
    rewrite Hs. cbn [Z.eqb Pos.eqb negb]. rewrite Hj. cbn [Py.bind].
    destruct (predictions _) as [ps|e]; cbn [Py.bind]; [|reflexivity].
    destruct (sun_time (city_sunrise _)) as [sunrise|e]; cbn [Py.bind];
      [|reflexivity].
    destruct (sun_time (city_sunset _)) as [sunset|e]; cbn [Py.bind];
      reflexivity. }
  split.
  { intros before f after e Hl Hb He. rewrite P, Hl.
    unfold predictions, daily_forecasts.
    rewrite (bucket_loop_raise before f after e [] Hb He). reflexivity. }
  split.
  { intros ps c z e Hp Hc Hz Hne He. rewrite P, Hp, Hc. cbn [Py.bind].
    rewrite (proj2 (proj2 (sun_time_cases _)) z e Hz Hne He). reflexivity. }
  split.
  { intros ps c sunrise z e Hp Hc Hrise Hz Hne He. rewrite P, Hp, Hc.
    cbn [Py.bind]. rewrite Hrise. cbn [Py.bind].
    rewrite (proj2 (proj2 (sun_time_cases _)) z e Hz Hne He). reflexivity. }
  split; [exact fromtimestamp_no_time_t|].
  split; [exact fromtimestamp_no_tm_year|].
  split; [exact fromtimestamp_year_out_of_range|].
  split; [exact fromtimestamp_probe_out_of_range|].
  intros t d Hd. split; [now apply fromtimestamp_Ok|].
  unfold Datetime.fromtimestamp, Datetime.fits_time_t in Hd.
  destruct (Z.leb_spec (- 2 ^ 63) t), (Z.ltb_spec t (2 ^ 63));
    cbn [andb negb] in Hd; try discriminate.
  split; [lia|].
  unfold Datetime.localtime in Hd. cbv zeta in Hd.
  destruct (Z.leb_spec (- 2 ^ 31)
              (Datetime.year_of_wall (t + utcoffset t) - 1900)),
    (Z.ltb_spec (Datetime.year_of_wall (t + utcoffset t) - 1900) (2 ^ 31));
    cbn [andb Py.bind] in Hd; try discriminate.
  unfold Datetime.utc_to_seconds in Hd at 1. cbv zeta in Hd.
  set (y := Datetime.year_of_wall (t + utcoffset t)) in *.
  destruct (Z.ltb_spec y (2 ^ 31)) as [Hy|Hy].
  - rewrite wrap_int_small in Hd by lia.
    destruct (Z.leb_spec 1 y), (Z.leb_spec y 9999); cbn [andb Py.bind] in Hd;
      try discriminate. lia.
  - exfalso. unfold Datetime.wrap_int in Hd.
    assert (E : (y + 2 ^ 31) mod 2 ^ 32 = y - 2 ^ 31).
    { symmetry. apply (Z.mod_unique _ _ 1); lia. }
    rewrite E in Hd.
    destruct (Z.leb_spec 1 (y - 2 ^ 31 - 2 ^ 31)); cbn [andb Py.bind] in Hd;
      [lia | discriminate].
Qed.

(* ===================================================================== *)
(** ** [get_current_weather]: what is passed on                           *)
(* ===================================================================== *)

(** X9. The current-weather endpoint does not check the range of its
    coordinates: whatever floats the parameters parse to are what the
    upstream is asked for, with the configured key, and the answer depends
    on the upstream through that one request only.  On a 200 answer whose
    body is an object the readings are passed through as they are, the name
    defaulting to the empty string; a body without [main], [wind] or
    [weather] gives 500. *)
Theorem current_weather_passes_through
    (args : Py.dict string) (la lo : float) (api_key : option string)
    (key : string)
    (requests_get : float -> float -> string
                    -> Py.res (http_response Py.json)) :
  py_float_arg (Py.dict_get "latitude" args) = Py.Ok la ->
  py_float_arg (Py.dict_get "longitude" args) = Py.Ok lo ->
  configured api_key = Some key ->
  (forall other,
     other la lo key = requests_get la lo key ->
     get_current_weather args api_key other
     = get_current_weather args api_key requests_get) /\
  (forall h items main_items wind_items w0 others
          temp_v humidity_v pressure_v speed_v descr_v icon_v,
     requests_get la lo key = Py.Ok h ->
     status_code h = 200 ->
     json_ok h = Py.Ok (Py.JObj items) ->
     Py.dict_get "main" items = Some (Py.JObj main_items) ->
     Py.dict_get "temp" main_items = Some temp_v ->
     Py.dict_get "humidity" main_items = Some humidity_v ->
     Py.dict_get "pressure" main_items = Some pressure_v ->
     Py.dict_get "wind" items = Some (Py.JObj wind_items) ->
     Py.dict_get "speed" wind_items = Some speed_v ->
     Py.dict_get "weather" items = Some (Py.JArr (Py.JObj w0 :: others)) ->
     Py.dict_get "description" w0 = Some descr_v ->
     Py.dict_get "icon" w0 = Some icon_v ->
     get_current_weather args api_key requests_get
     = (200, Success
          {| c_timestamp := utcnow_isoformat;
             c_latitude := la;
             c_longitude := lo;
             c_location_name := match Py.dict_get "name" items with
                                | Some v => v
                                | None => Py.JStr ""
                                end;
             c_temperature := temp_v;
             c_humidity := humidity_v;
             c_pressure := pressure_v;
             c_wind_speed := speed_v;
             c_weather_description := descr_v;
             c_weather_icon := icon_v |})) /\
  (forall h items,
     requests_get la lo key = Py.Ok h ->
     status_code h = 200 ->
     json_ok h = Py.Ok (Py.JObj items) ->
     Py.dict_get "main" items = None \/
     Py.dict_get "wind" items = None \/
     Py.dict_get "weather" items = None \/
     Py.dict_get "weather" items = Some (Py.JArr []) ->
     get_current_weather args api_key requests_get
     = (500, Error "Failed to fetch weather data")).
Proof.
  intros Hla Hlo Hk.
  assert (P : forall rg,
             get_current_weather args api_key rg
             = match
                 Py.bind (rg la lo key) (fun r =>
                 if negb (status_code r =? 200) then
                   Py.bind (weather_api_error r "Could not retrieve weather data")
                           (fun msg => Py.Ok (500, Error msg))
                 else
                   Py.bind (json_ok r) (fun weather_data =>
                   Py.bind (Py.get weather_data "name" (Py.JStr "")) (fun name =>
                   Py.bind (getitem2 weather_data "main" "temp") (fun temperature =>
                   Py.bind (getitem2 weather_data "main" "humidity") (fun humidity =>
                   Py.bind (getitem2 weather_data "main" "pressure") (fun pressure =>
                   Py.bind (getitem2 weather_data "wind" "speed") (fun wind_speed =>
                   Py.bind (weather0_field weather_data "description") (fun descr =>
                   Py.bind (weather0_field weather_data "icon") (fun icon =>
                   Py.Ok (200, Success
                     {| c_timestamp := utcnow_isoformat;
                        c_latitude := la;
                        c_longitude := lo;
                        c_location_name := name;
                        c_temperature := temperature;
                        c_humidity := humidity;
                        c_pressure := pressure;
                        c_wind_speed := wind_speed;
                        c_weather_description := descr;
                        c_weather_icon := icon |}))))))))))
               with
               | Py.Ok r => r
               | Py.Raise _ => (500, Error "Failed to fetch weather data")
               end).
  { intros rg. unfold get_current_weather, current_weather_attempt.
    rewrite Hla, Hlo. cbn [Py.bind]. rewrite Hk. reflexivity. }
  split.
  { intros other Heq. rewrite !P. now rewrite Heq. }
  split.
  { intros h items main_items wind_items w0 others temp_v humidity_v
           pressure_v speed_v descr_v icon_v Hr Hs Hj Hm Ht Hh Hp Hw Hsp
           Hwe Hd Hi.
    rewrite P, Hr. cbn [Py.bind]. rewrite Hs. cbn [Z.eqb Pos.eqb negb].
    rewrite Hj. cbn [Py.bind Py.get].
    unfold getitem2, weather0_field. cbn [Py.getitem Py.bind].
    rewrite Hm. cbn [Py.getitem Py.bind]. rewrite Ht, Hh, Hp. cbn [Py.bind].
    rewrite Hw. cbn [Py.getitem Py.bind]. rewrite Hsp. cbn [Py.bind].
    rewrite Hwe. cbn [Py.getitem0 Py.getitem Py.bind]. rewrite Hd, Hi.
    reflexivity. }
  intros h items Hr Hs Hj Hmiss.
  rewrite P, Hr. cbn [Py.bind]. rewrite Hs. cbn [Z.eqb Pos.eqb negb].
  rewrite Hj. cbn [Py.bind Py.get].
  unfold getitem2, weather0_field. cbn [Py.getitem Py.bind].
  destruct Hmiss as [Hm | [Hm | [Hm | Hm]]].
  - now rewrite Hm.
  - destruct (Py.dict_get "main" items) as [mv|]; cbn [Py.bind];
      [|reflexivity].
    destruct (Py.getitem mv "temp"); cbn [Py.bind]; [|reflexivity].
    destruct (Py.getitem mv "humidity"); cbn [Py.bind]; [|reflexivity].
    destruct (Py.getitem mv "pressure"); cbn [Py.bind]; [|reflexivity].
    now rewrite Hm.
  - destruct (Py.dict_get "main" items) as [mv|]; cbn [Py.bind];
      [|reflexivity].
    destruct (Py.getitem mv "temp"); cbn [Py.bind]; [|reflexivity].
    destruct (Py.getitem mv "humidity"); cbn [Py.bind]; [|reflexivity].
    destruct (Py.getitem mv "pressure"); cbn [Py.bind]; [|reflexivity].
    destruct (Py.dict_get "wind" items) as [wv|]; cbn [Py.bind];
      [|reflexivity].
    destruct (Py.getitem wv "speed"); cbn [Py.bind]; [|reflexivity].
    now rewrite Hm.
  - destruct (Py.dict_get "main" items) as [mv|]; cbn [Py.bind];
      [|reflexivity].
    destruct (Py.getitem mv "temp"); cbn [Py.bind]; [|reflexivity].
    destruct (Py.getitem mv "humidity"); cbn [Py.bind]; [|reflexivity].
    destruct (Py.getitem mv "pressure"); cbn [Py.bind]; [|reflexivity].
    destruct (Py.dict_get "wind" items) as [wv|]; cbn [Py.bind];
      [|reflexivity].
    destruct (Py.getitem wv "speed"); cbn [Py.bind]; [|reflexivity].
    now rewrite Hm.
Qed.

(* ===================================================================== *)
(** ** The configuration classes                                          *)
(* ===================================================================== *)

Lemma env_or_nonempty environ k default :
  default <> "" -> env_or environ k default <> "".
Proof.
  intros Hd. unfold env_or.
  destruct (Py.dict_get k environ) as [s|]; [|exact Hd].
  destruct (String.eqb s "") eqn:E; [exact Hd|].
  now apply String.eqb_neq in E.
Qed.

Lemma Config_inv environ base :
  Config environ = Py.Ok base ->
  env_int environ "PORT" 5000 = Py.Ok (PORT base) /\
  env_int environ "FORECAST_DAYS" 7 = Py.Ok (FORECAST_DAYS base) /\
  env_float environ "CONFIDENCE_THRESHOLD" 0.75 = Py.Ok (CONFIDENCE_THRESHOLD base) /\
  OPENWEATHER_API_KEY base = Py.dict_get "OPENWEATHER_API_KEY" environ /\
  SECRET_KEY base
  = env_or environ "SECRET_KEY" "dev-secret-key-change-in-production" /\
  MODEL_PATH base = env_or environ "MODEL_PATH" "./models/saved_models" /\
  DATA_PATH base = env_or environ "DATA_PATH" "./data" /\
  LOGS_PATH base = env_or environ "LOGS_PATH" "./logs" /\
  DEBUG base = String.eqb (lower (env_get environ "DEBUG" "True")) "true" /\
  TESTING base = None.
Proof.
  unfold Config.
  destruct (env_int environ "PORT" 5000) as [port|]; cbn [Py.bind];
    [|discriminate].
  destruct (env_int environ "FORECAST_DAYS" 7) as [days|]; cbn [Py.bind];
    [|discriminate].
  destruct (env_float environ "CONFIDENCE_THRESHOLD" 0.75) as [ct|];
    cbn [Py.bind]; [|discriminate].
  intros [= <-]. now repeat split.
Qed.

Lemma config_by_name_cases environ base name :
  Config environ = Py.Ok base ->
  config_by_name environ name
  = if String.eqb name "development" then Py.Ok (DevelopmentConfig base)
    else if String.eqb name "production" then Py.Ok (ProductionConfig base)
    else if String.eqb name "testing" then Py.Ok (TestingConfig base)
    else if String.eqb name "default" then Py.Ok (DevelopmentConfig base)
    else Py.Raise Py.KeyError.
Proof.
  intros H. unfold config_by_name, config. rewrite H.
  cbn [Py.bind Py.dict_get].
  destruct (String.eqb name "development"); [reflexivity|].
  destruct (String.eqb name "production"); [reflexivity|].
  destruct (String.eqb name "testing"); [reflexivity|].
  now destruct (String.eqb name "default").
Qed.

(** X10. Once the module [config] is imported, four names and no other
    select a configuration; [default] is the development one.  Debug mode
    is on under development and off under production whatever the
    environment says, and under testing it is what the environment gives:
    on when DEBUG is unset or spells true in any case.  The testing database
    does not depend on DATABASE_URL.  Whatever the name, the key of the
    weather service is the environment's, and the secret key and the three
    paths are never empty: an empty variable gives the default. *)
Theorem config_by_name_classes
    (environ : Py.dict string) (base : config_class) :
  Config environ = Py.Ok base ->
  config_by_name environ "default" = config_by_name environ "development" /\
  (forall name,
     name <> "development" -> name <> "production" ->
     name <> "testing" -> name <> "default" ->
     config_by_name environ name = Py.Raise Py.KeyError) /\
  (forall name c,
     config_by_name environ name = Py.Ok c ->
     ((name = "default" \/ name = "development") /\
      DEBUG c = true /\ TESTING c = None /\
      SQLALCHEMY_DATABASE_URI c
      = env_or environ "DATABASE_URL" "sqlite:///weather_forecast.db" \/
      name = "production" /\
      DEBUG c = false /\ TESTING c = None /\
      SQLALCHEMY_DATABASE_URI c
      = env_or environ "DATABASE_URL" "sqlite:///weather_forecast.db" \/
      name = "testing" /\
      (DEBUG c = true <-> lower (env_get environ "DEBUG" "True") = "true") /\
      (Py.dict_get "DEBUG" environ = None -> DEBUG c = true) /\
      TESTING c = Some true /\
      SQLALCHEMY_DATABASE_URI c = "sqlite:///test_weather_forecast.db") /\
     OPENWEATHER_API_KEY c = Py.dict_get "OPENWEATHER_API_KEY" environ /\
     SECRET_KEY c <> "" /\
     MODEL_PATH c <> "" /\ DATA_PATH c <> "" /\ LOGS_PATH c <> "" /\
     (Py.dict_get "MODEL_PATH" environ = None \/
      Py.dict_get "MODEL_PATH" environ = Some "" ->
      MODEL_PATH c = "./models/saved_models") /\
     (Py.dict_get "DATA_PATH" environ = None \/
      Py.dict_get "DATA_PATH" environ = Some "" ->
      DATA_PATH c = "./data") /\
     (Py.dict_get "LOGS_PATH" environ = None \/
      Py.dict_get "LOGS_PATH" environ = Some "" ->
      LOGS_PATH c = "./logs")).
Proof.
  intros H.
  pose proof (Config_inv _ _ H)
    as (_ & _ & _ & Hkey & Hsec & Hmp & Hdp & Hlp & Hdbg & Htest).
  assert (Hbase : SQLALCHEMY_DATABASE_URI base
                  = env_or environ "DATABASE_URL" "sqlite:///weather_forecast.db").
  { revert H. unfold Config.
    destruct (env_int environ "PORT" 5000); cbn [Py.bind]; [|discriminate].
    destruct (env_int environ "FORECAST_DAYS" 7); cbn [Py.bind];
      [|discriminate].
    destruct (env_float environ "CONFIDENCE_THRESHOLD" 0.75); cbn [Py.bind];
      [|discriminate].
    now intros [= <-]. }
  split.
  { now rewrite !(config_by_name_cases _ _ _ H). }
  split.
  { intros name H1 H2 H3 H4. rewrite (config_by_name_cases _ _ _ H).
    apply String.eqb_neq in H1, H2, H3, H4. now rewrite H1, H2, H3, H4. }
  intros name c Hc. rewrite (config_by_name_cases _ _ _ H) in Hc.
  assert (Hcommon :
            OPENWEATHER_API_KEY base
            = Py.dict_get "OPENWEATHER_API_KEY" environ /\
            SECRET_KEY base <> "" /\
            MODEL_PATH base <> "" /\ DATA_PATH base <> "" /\
            LOGS_PATH base <> "" /\
            (Py.dict_get "MODEL_PATH" environ = None \/
             Py.dict_get "MODEL_PATH" environ = Some "" ->
             MODEL_PATH base = "./models/saved_models") /\
            (Py.dict_get "DATA_PATH" environ = None \/
             Py.dict_get "DATA_PATH" environ = Some "" ->
             DATA_PATH base = "./data") /\
            (Py.dict_get "LOGS_PATH" environ = None \/
             Py.dict_get "LOGS_PATH" environ = Some "" ->
             LOGS_PATH base = "./logs")).
  { split; [exact Hkey|]. rewrite Hsec, Hmp, Hdp, Hlp.
    split; [apply env_or_nonempty; discriminate|].
    split; [apply env_or_nonempty; discriminate|].
    split; [apply env_or_nonempty; discriminate|].
    split; [apply env_or_nonempty; discriminate|].
    unfold env_or.
    split; [intros [-> | ->]; reflexivity|].
    split; intros [-> | ->]; reflexivity. }
  destruct (String.eqb name "development") eqn:E1.
  { apply String.eqb_eq in E1. injection Hc as <-.
    split; [|exact Hcommon].
    left. split; [now right|]. split; [reflexivity|].
    split; [exact Htest|exact Hbase]. }
  destruct (String.eqb name "production") eqn:E2.
  { apply String.eqb_eq in E2. injection Hc as <-.
    split; [|exact Hcommon].
    right; left. split; [exact E2|]. split; [reflexivity|].
    split; [exact Htest|exact Hbase]. }
  destruct (String.eqb name "testing") eqn:E3.
  { apply String.eqb_eq in E3. injection Hc as <-.
    split; [|exact Hcommon].
    right; right. split; [exact E3|].
    cbn [TestingConfig DEBUG TESTING SQLALCHEMY_DATABASE_URI].
    rewrite Hdbg. split; [apply String.eqb_eq|].
    split; [|now split].
    intros Hunset. unfold env_get. rewrite Hunset. reflexivity. }
  destruct (String.eqb name "default") eqn:E4; [|discriminate].
  apply String.eqb_eq in E4. injection Hc as <-.
  split; [|exact Hcommon].
  left. split; [now left|]. split; [reflexivity|].
  split; [exact Htest|exact Hbase].
Qed.

(** X11. The import of [config] fails exactly when PORT or FORECAST_DAYS is
    set to something [int] refuses, or CONFIDENCE_THRESHOLD to something
    [float] refuses; the error is the ValueError of that conversion, PORT's
    first, and then no name selects a configuration.  With the three unset
    the values are 5000, 7 and 0.75. *)
Theorem config_import_needs_numbers (environ : Py.dict string) :
  ((exists base, Config environ = Py.Ok base) <->
   (forall s, Py.dict_get "PORT" environ = Some s ->
              exists z, int_of_str s = Some z) /\
   (forall s, Py.dict_get "FORECAST_DAYS" environ = Some s ->
              exists z, int_of_str s = Some z) /\
   (forall s, Py.dict_get "CONFIDENCE_THRESHOLD" environ = Some s ->
              exists f, float_of_str s = inr f)) /\
  (forall s,
     Py.dict_get "PORT" environ = Some s -> int_of_str s = None ->
     Config environ = Py.Raise (Py.ValueError (int_error s))) /\
  (forall s,
     (forall p, Py.dict_get "PORT" environ = Some p -> int_of_str p <> None) ->
     Py.dict_get "FORECAST_DAYS" environ = Some s -> int_of_str s = None ->
     Config environ = Py.Raise (Py.ValueError (int_error s))) /\
  (forall e,
     Config environ = Py.Raise e ->
     (exists msg, e = Py.ValueError msg) /\
     forall name, config_by_name environ name = Py.Raise e) /\
  (forall base,
     Config environ = Py.Ok base ->
     (Py.dict_get "PORT" environ = None -> PORT base = 5000) /\
     (forall s, Py.dict_get "PORT" environ = Some s ->
                int_of_str s = Some (PORT base)) /\
     (Py.dict_get "FORECAST_DAYS" environ = None -> FORECAST_DAYS base = 7) /\
     (forall s, Py.dict_get "FORECAST_DAYS" environ = Some s ->
                int_of_str s = Some (FORECAST_DAYS base)) /\
     (Py.dict_get "CONFIDENCE_THRESHOLD" environ = None ->
      CONFIDENCE_THRESHOLD base = 0.75%float) /\
     (forall s, Py.dict_get "CONFIDENCE_THRESHOLD" environ = Some s ->
                float_of_str s = inr (CONFIDENCE_THRESHOLD base))).
Proof.
  split.
  { split.
    - intros [base H].
      pose proof (Config_inv _ _ H) as (Hp & Hf & Hc & _).
      unfold env_int in Hp, Hf. unfold env_float, py_float in Hc.
      split; [|split].
      + intros s Hs. rewrite Hs in Hp.
        destruct (int_of_str s) as [z|]; [now exists z|discriminate].
      + intros s Hs. rewrite Hs in Hf.
        destruct (int_of_str s) as [z|]; [now exists z|discriminate].
      + intros s Hs. rewrite Hs in Hc.
        destruct (float_of_str s) as [msg|f]; [discriminate|now exists f].
    - intros (Hp & Hf & Hc). unfold Config, env_int, env_float, py_float.
      destruct (Py.dict_get "PORT" environ) as [s|].
      + destruct (Hp s eq_refl) as [z ->]. cbn [Py.bind].
        destruct (Py.dict_get "FORECAST_DAYS" environ) as [s'|].
        * destruct (Hf s' eq_refl) as [z' ->]. cbn [Py.bind].
          destruct (Py.dict_get "CONFIDENCE_THRESHOLD" environ) as [s''|].
          -- destruct (Hc s'' eq_refl) as [f ->]. cbn [Py.bind].
             now eexists.
          -- cbn [Py.bind]. now eexists.
        * cbn [Py.bind].
          destruct (Py.dict_get "CONFIDENCE_THRESHOLD" environ) as [s''|].
          -- destruct (Hc s'' eq_refl) as [f ->]. cbn [Py.bind].
             now eexists.
          -- cbn [Py.bind]. now eexists.
      + cbn [Py.bind].
        destruct (Py.dict_get "FORECAST_DAYS" environ) as [s'|].
        * destruct (Hf s' eq_refl) as [z' ->]. cbn [Py.bind].
          destruct (Py.dict_get "CONFIDENCE_THRESHOLD" environ) as [s''|].
          -- destruct (Hc s'' eq_refl) as [f ->]. cbn [Py.bind].
             now eexists.
          -- cbn [Py.bind]. now eexists.
        * cbn [Py.bind].
          destruct (Py.dict_get "CONFIDENCE_THRESHOLD" environ) as [s''|].
          -- destruct (Hc s'' eq_refl) as [f ->]. cbn [Py.bind].
             now eexists.
          -- cbn [Py.bind]. now eexists. }
  split.
  { intros s Hs Hn. unfold Config, env_int. now rewrite Hs, Hn. }
  split.
  { intros s Hp Hs Hn. unfold Config, env_int. rewrite Hs, Hn.
    destruct (Py.dict_get "PORT" environ) as [p|]; [|reflexivity].
    specialize (Hp p eq_refl). now destruct (int_of_str p). }
  split.
  { intros e He. split.
    - revert He. unfold Config, env_int, env_float, py_float.
      destruct (Py.dict_get "PORT" environ) as [s|].
      + destruct (int_of_str s); cbn [Py.bind];
          [|intros [= <-]; now eexists].
        destruct (Py.dict_get "FORECAST_DAYS" environ) as [s'|].
        * destruct (int_of_str s'); cbn [Py.bind];
            [|intros [= <-]; now eexists].
          destruct (Py.dict_get "CONFIDENCE_THRESHOLD" environ) as [s''|];
            [|discriminate].
          destruct (float_of_str s''); cbn [Py.bind];
            [intros [= <-]; now eexists|discriminate].
        * cbn [Py.bind].
          destruct (Py.dict_get "CONFIDENCE_THRESHOLD" environ) as [s''|];
            [|discriminate].
          destruct (float_of_str s''); cbn [Py.bind];
            [intros [= <-]; now eexists|discriminate].
      + cbn [Py.bind].
        destruct (Py.dict_get "FORECAST_DAYS" environ) as [s'|].
        * destruct (int_of_str s'); cbn [Py.bind];
            [|intros [= <-]; now eexists].
          destruct (Py.dict_get "CONFIDENCE_THRESHOLD" environ) as [s''|];
            [|discriminate].
          destruct (float_of_str s''); cbn [Py.bind];
            [intros [= <-]; now eexists|discriminate].
        * cbn [Py.bind].
          destruct (Py.dict_get "CONFIDENCE_THRESHOLD" environ) as [s''|];
            [|discriminate].
          destruct (float_of_str s''); cbn [Py.bind];
            [intros [= <-]; now eexists|discriminate].
    - intros name. unfold config_by_name, config. now rewrite He. }
  intros base H.
  pose proof (Config_inv _ _ H) as (Hp & Hf & Hc & _).
  unfold env_int in Hp, Hf. unfold env_float, py_float in Hc.
  split; [intros Hn; rewrite Hn in Hp; now injection Hp|].
  split.
  { intros s Hs. rewrite Hs in Hp.
    destruct (int_of_str s); [now injection Hp as ->|discriminate]. }
  split; [intros Hn; rewrite Hn in Hf; now injection Hf|].
  split.
  { intros s Hs. rewrite Hs in Hf.
    destruct (int_of_str s); [now injection Hf as ->|discriminate]. }
  split; [intros Hn; rewrite Hn in Hc; now injection Hc|].
  intros s Hs. rewrite Hs in Hc.
  destruct (float_of_str s); [discriminate|now injection Hc as ->].
Qed.

(** X12. The handlers read the key from the class [Config] itself: when
    OPENWEATHER_API_KEY is unset or empty in the environment, [predict]
    answers every valid body, and [get_current_weather] every pair of
    coordinates that parses, with status 500 and a message that says so,
    whatever the upstream would have answered; a key that is set and not
    empty is the one the upstream is asked with. *)
Theorem unset_api_key_answers_500
    (environ : Py.dict string) (base : config_class) :
  Config environ = Py.Ok base ->
  (Py.dict_get "OPENWEATHER_API_KEY" environ = None \/
   Py.dict_get "OPENWEATHER_API_KEY" environ = Some "" ->
   (forall data la lo requests_get,
      validate data = Py.Ok (Accepted la lo) ->
      predict (Py.Ok data) (OPENWEATHER_API_KEY base) requests_get
      = (500, Error "OpenWeatherMap API key not configured")) /\
   (forall args la lo requests_get,
      py_float_arg (Py.dict_get "latitude" args) = Py.Ok la ->
      py_float_arg (Py.dict_get "longitude" args) = Py.Ok lo ->
      get_current_weather args (OPENWEATHER_API_KEY base) requests_get
      = (500, Error "OpenWeatherMap API key not configured"))) /\
  (forall key,
     Py.dict_get "OPENWEATHER_API_KEY" environ = Some key -> key <> "" ->
     configured (OPENWEATHER_API_KEY base) = Some key /\
     (forall data la lo requests_get e,
        validate data = Py.Ok (Accepted la lo) ->
        requests_get la lo key = Py.Raise e ->
        fst (predict (Py.Ok data) (OPENWEATHER_API_KEY base) requests_get)
        <> 200)).
Proof.
  intros H. pose proof (Config_inv _ _ H) as (_ & _ & _ & Hkey & _).
  split.
  { intros Hunset.
    assert (Hc : configured (OPENWEATHER_API_KEY base) = None).
    { rewrite Hkey. now destruct Hunset as [-> | ->]. }
    split.
    - intros data la lo rg Hv.
      destruct (validate_accepted_obj _ _ _ Hv) as [items0 ->].
      unfold predict. cbn [Py.bind]. rewrite Hv. cbn [Py.bind].
      unfold forecast_for. cbn [Py.get Py.bind]. now rewrite Hc.
    - intros args la lo rg Hla Hlo.
      unfold get_current_weather, current_weather_attempt.
      rewrite Hla, Hlo. cbn [Py.bind]. now rewrite Hc. }
  intros key Hk Hne.
  assert (Hc : configured (OPENWEATHER_API_KEY base) = Some key).
  { rewrite Hkey, Hk. unfold configured.
    apply String.eqb_neq in Hne. now rewrite Hne. }
  split; [exact Hc|].
  intros data la lo rg e Hv Hr.
  destruct (validate_accepted_obj _ _ _ Hv) as [items0 ->].
  unfold predict. cbn [Py.bind]. rewrite Hv. cbn [Py.bind].
  unfold forecast_for. cbn [Py.get Py.bind]. rewrite Hc, Hr. cbn [Py.bind].
  destruct e; cbn [fst]; discriminate.
Qed.

(* ===================================================================== *)
(** ** [create_directories]                                               *)
(* ===================================================================== *)

Lemma for_each_directory_all_exist ds fs log :
  (forall d, In d ds -> path_exists fs d = true) ->
  for_each_directory ds (fs, log) = Py.Ok (fs, log).
Proof.
  induction ds as [|d ds IH]; intros Hall; [reflexivity|].
  cbn [for_each_directory]. unfold ensure_directory. cbn [fst snd].
  rewrite (Hall d (or_introl eq_refl)). cbn [Py.bind].
  apply IH. intros d' Hd'. apply Hall. now right.
Qed.

Lemma for_each_directory_ok ds :
  (forall fs d fs', makedirs fs d = Py.Ok fs' -> path_exists fs' d = true) ->
  (forall fs d fs' p,
     makedirs fs d = Py.Ok fs' ->
     path_exists fs p = true -> path_exists fs' p = true) ->
  forall fs log fs' log',
    for_each_directory ds (fs, log) = Py.Ok (fs', log') ->
    (forall d, In d ds -> path_exists fs' d = true) /\
    (forall p, path_exists fs p = true -> path_exists fs' p = true) /\
    exists made,
      log' = (log ++ map (String.append "Created directory: ") made)%list /\
      (List.length made <= List.length ds)%nat /\
      forall d, In d made -> In d ds /\ path_exists fs d = false.
Proof.
  intros Hnew Hkeep.
  induction ds as [|d ds IH]; intros fs log fs' log' H.
  - cbn [for_each_directory] in H. injection H as <- <-.
    split; [intros d []|]. split; [auto|].
    exists []. cbn [map]. rewrite app_nil_r.
    split; [reflexivity|]. split; [apply Nat.le_refl|]. intros d [].
  - cbn [for_each_directory] in H. unfold ensure_directory in H.
    cbn [fst snd] in H.
    destruct (path_exists fs d) eqn:E.
    + cbn [Py.bind] in H.
      destruct (IH _ _ _ _ H) as (Hall & Hmono & made & Hlog & Hlen & Hmade).
      split.
      { intros d' [<- | Hd']; [now apply Hmono | now apply Hall]. }
      split; [exact Hmono|].
      exists made. split; [exact Hlog|].
      split; [cbn [List.length]; now apply Nat.le_le_succ_r|].
      intros d' Hd'. destruct (Hmade d' Hd'). split; [now right|assumption].
    + destruct (makedirs fs d) as [fs1|e] eqn:M; cbn [Py.bind] in H;
        [|discriminate].
      destruct (IH _ _ _ _ H) as (Hall & Hmono & made & Hlog & Hlen & Hmade).
      split.
      { intros d' [<- | Hd']; [|now apply Hall].
        apply Hmono. now apply (Hnew fs d fs1). }
      split.
      { intros p Hp. apply Hmono. now apply (Hkeep fs d fs1 p). }
      exists (d :: made). split.
      { rewrite Hlog. cbn [map]. now rewrite <- app_assoc. }
      split; [cbn [List.length]; now apply le_n_S|].
      intros d' [<- | Hd']; [split; [now left|exact E]|].
      destruct (Hmade d' Hd') as [Hin Hno]. split; [now right|].
      destruct (path_exists fs d') eqn:E'; [|reflexivity].
      now rewrite (Hkeep fs d fs1 d' M E') in Hno.
Qed.

Lemma for_each_directory_raise ds :
  forall fs log e,
    for_each_directory ds (fs, log) = Py.Raise e ->
    exists d fs1,
      In d ds /\ path_exists fs1 d = false /\ makedirs fs1 d = Py.Raise e.
Proof.
  induction ds as [|d ds IH]; intros fs log e H.
  - discriminate.
  - cbn [for_each_directory] in H. unfold ensure_directory in H.
    cbn [fst snd] in H.
    destruct (path_exists fs d) eqn:E.
    + cbn [Py.bind] in H. destruct (IH _ _ _ H) as (d' & fs1 & Hin & Hrest).
      exists d', fs1. split; [now right|exact Hrest].
    + destruct (makedirs fs d) as [fs1|e'] eqn:M; cbn [Py.bind] in H.
      * destruct (IH _ _ _ H) as (d' & fs2 & Hin & Hrest).
        exists d', fs2. split; [now right|exact Hrest].
      * injection H as <-. exists d, fs. split; [now left|]. now split.
Qed.

(** X13. [create_directories], over any file system in which [os.makedirs]
    leaves the directory it was asked for and removes nothing.  When it
    returns, the five directories exist, whatever existed before still
    does, at most five messages were logged, each for a directory of the
    list that was missing at the start, and a second call changes and logs
    nothing.  When the five exist already nothing is made or logged.  When
    it raises, the error is that of [os.makedirs] on a missing directory
    of the list. *)
Theorem create_directories_ensures (c : config_class) (fs : filesystem) :
  (forall fs d fs', makedirs fs d = Py.Ok fs' -> path_exists fs' d = true) ->
  (forall fs d fs' p,
     makedirs fs d = Py.Ok fs' ->
     path_exists fs p = true -> path_exists fs' p = true) ->
  (forall fs' log,
     create_directories c fs = Py.Ok (fs', log) ->
     (forall d, In d (directories c) -> path_exists fs' d = true) /\
     (forall p, path_exists fs p = true -> path_exists fs' p = true) /\
     (exists made,
        log = map (String.append "Created directory: ") made /\
        (List.length made <= 5)%nat /\
        forall d, In d made ->
                  In d (directories c) /\ path_exists fs d = false) /\
     create_directories c fs' = Py.Ok (fs', [])) /\
  ((forall d, In d (directories c) -> path_exists fs d = true) ->
   create_directories c fs = Py.Ok (fs, [])) /\
  (forall e,
     create_directories c fs = Py.Raise e ->
     exists d fs1,
       In d (directories c) /\ path_exists fs1 d = false /\
       makedirs fs1 d = Py.Raise e).
Proof.
  intros Hnew Hkeep. unfold create_directories.
  split.
  { intros fs' log H.
    destruct (for_each_directory_ok _ Hnew Hkeep _ _ _ _ H)
      as (Hall & Hmono & made & Hlog & Hlen & Hmade).
    split; [exact Hall|]. split; [exact Hmono|].
    split; [now exists made|].
    now apply for_each_directory_all_exist. }
  split; [apply for_each_directory_all_exist|].
  intros e H. now apply (for_each_directory_raise _ _ _ _ H).
Qed.

End Routes.

(* ===================================================================== *)
(** ** The theorems at work on reference inputs                           *)
(* ===================================================================== *)

(** On [two_days] the loop returns; the first date keeps its hour-12 sample
    and the second, which has none, its first sample.  A sample of the year
    10000 after them ends the loop. *)
Lemma predict_keeps_one_sample_per_date_witness :
  exists daily,
    daily_forecasts utc two_days = Py.Ok daily /\
    Py.dict_keys daily = ["2024-01-15"; "2024-01-16"] /\
    Py.dict_get "2024-01-15" daily = Some (entry_of utc (at_hour 0 12)) /\
    Py.dict_get "2024-01-16" daily = Some (entry_of utc (at_hour 1 0)) /\
    (exists f,
       Py.dict_get "2024-01-15" daily = Some (entry_of utc f) /\
       In f two_days /\ date_key_of utc f = "2024-01-15" /\
       hour_of utc f = 12) /\
    (forall e,
       Py.dict_get "2024-01-16" daily = Some e ->
       forall g, In g two_days -> date_key_of utc g = "2024-01-16" ->
                 e_dt e <= dt g) /\
    daily_forecasts utc (two_days ++ [sample_at 253402300800])
    = Py.Raise (Py.ValueError "year 10000 is out of range").
Proof.
  destruct (predict_keeps_one_sample_per_date utc two_days)
    as (Hiff & _ & _ & Hall).
  eassert (Hd : daily_forecasts utc two_days = Py.Ok _)
    by (vm_compute; reflexivity).
  eexists. split; [exact Hd|].
  destruct (Hall _ Hd)
    as (_ & _ & _ & _ & _ & _ & Hget & Hnoon & Hfirst & Hchron).
  assert (Hno : forall g, In g two_days -> date_key_of utc g = "2024-01-16" ->
                          hour_of utc g <> 12).
  { intros g HI Hk.
    repeat (destruct HI as [<-|HI];
            [first [ vm_compute in Hk; discriminate Hk
                   | vm_compute; discriminate ]|]).
    destruct HI. }
  split; [reflexivity|].
  split; [rewrite Hget; vm_compute; reflexivity|].
  split.
  { apply (Hfirst "2024-01-16" [at_hour 0 9; at_hour 0 12] (at_hour 1 0)
                  [at_hour 1 3; at_hour 1 6; at_hour 1 9]).
    - reflexivity.
    - vm_compute. reflexivity.
    - intros g [<-|[<-|[]]]; vm_compute; discriminate.
    - exact Hno. }
  split.
  { apply (Hnoon "2024-01-15" (at_hour 0 12)).
    - right. now left.
    - vm_compute. reflexivity.
    - vm_compute. reflexivity. }
  split.
  { intros e He.
    apply (Hchron ltac:(repeat constructor; vm_compute; discriminate)
                  "2024-01-16" e Hno He). }
  apply (proj1 (proj2 (predict_keeps_one_sample_per_date utc
                         (two_days ++ [sample_at 253402300800])))
               two_days (sample_at 253402300800) []).
  - reflexivity.
  - apply (proj1 Hiff). eexists. exact Hd.
  - vm_compute. reflexivity.
Defined.

(** On [seven_days] the five earliest dates stay, in order, numbered 0 to
    4. *)
Lemma predict_sorts_truncates_and_numbers_witness :
  exists items,
    daily_forecasts utc seven_days = Py.Ok items /\
    List.length items = 7%nat /\
    map fst (sorted_forecasts items)
    = ["2024-01-15"; "2024-01-16"; "2024-01-17"; "2024-01-18"; "2024-01-19"] /\
    List.length (sorted_forecasts items) = 5%nat /\
    exists ps,
      predictions utc demo_title seven_days = Py.Ok ps /\
      map day_offset ps = [0; 1; 2; 3; 4].
Proof.
  destruct (predict_sorts_truncates_and_numbers utc demo_title seven_days)
    as (Hall & _).
  eassert (Hd : daily_forecasts utc seven_days = Py.Ok _)
    by (vm_compute; reflexivity).
  eexists. split; [exact Hd|].
  pose proof (Hall _ Hd) as H. cbv zeta in H.
  destruct H as (_ & _ & _ & _ & Htotal & Hseven).
  split; [reflexivity|].
  split; [vm_compute; reflexivity|].
  destruct (Hseven (nodup string_dec (map (date_key_of utc) seven_days)))
    as [Hlen Hoff].
  - apply NoDup_nodup.
  - intros k. apply nodup_In.
  - vm_compute. reflexivity.
  - split; [exact Hlen|].
    destruct Htotal as [ps Hps].
    + intros item HI. vm_compute in HI.
      repeat (destruct HI as [<-|HI]; [vm_compute; reflexivity|]).
      destruct HI.
    + exists ps. split; [exact Hps | exact (Hoff ps Hps)].
Defined.

(** On [seven_days] the pair kept for the first date holds a sample of the
    input that falls on that date. *)
Lemma predict_summaries_distinct_dates_from_input_witness :
  exists items,
    daily_forecasts utc seven_days = Py.Ok items /\
    NoDup (map fst (sorted_forecasts items)) /\
    In (noon_item 0 "2024-01-15") (sorted_forecasts items) /\
    In (at_hour 0 12) seven_days /\
    Datetime.fromtimestamp utc (dt (at_hour 0 12))
    = Py.Ok (Datetime.of_wall (dt (at_hour 0 12))) /\
    date_key_of utc (at_hour 0 12) = "2024-01-15".
Proof.
  destruct (predict_summaries_distinct_dates_from_input utc demo_title
              seven_days) as (Hall & _).
  eassert (Hd : daily_forecasts utc seven_days = Py.Ok _)
    by (vm_compute; reflexivity).
  eexists. split; [exact Hd|].
  destruct (Hall _ Hd) as (Hnd & _ & Hin & _).
  split; [exact Hnd|].
  assert (HI : In (noon_item 0 "2024-01-15")
                  (sorted_forecasts
                     match daily_forecasts utc seven_days with
                     | Py.Ok items => items
                     | Py.Raise _ => []
                     end)) by (vm_compute; left; reflexivity).
  rewrite Hd in HI. split; [exact HI|].
  destruct (Hin "2024-01-15" (snd (noon_item 0 "2024-01-15")) HI)
    as (H1 & H2 & _ & H4 & _).
  split; [exact H1|]. split; [exact H2 | exact H4].
Defined.

(** The reference sample has 2.5 of rain and no snow. *)
Lemma predict_precipitation_is_rain_plus_snow_witness :
  (exists s,
     format_prediction demo_title 0 (noon_item 0 "2024-01-15") = Py.Ok s /\
     precipitation s = Py.PFloat 2.5) /\
  precipitation_of (sample_at day0) = Py.Ok (Py.PFloat 2.5).
Proof.
  split.
  - destruct (format_prediction demo_title 0 (noon_item 0 "2024-01-15"))
      as [s|] eqn:E; [|vm_compute in E; discriminate E].
    exists s. split; [reflexivity|].
    pose proof (proj1 (predict_precipitation_is_rain_plus_snow demo_title)
                      _ _ _ E) as H.
    vm_compute in H. injection H as H. symmetry. exact H.
  - destruct (predict_precipitation_is_rain_plus_snow demo_title)
      as (_ & _ & _ & _ & _ & _ & _ & _ & _ & _ & _ & Hrain & _).
    apply (Hrain (sample_at day0) 2.5%float).
    + exists [("3h", Py.PFloat 2.5)]. split; reflexivity.
    + left. reflexivity.
    + vm_compute. discriminate.
Defined.

(** The summary of the reference sample. *)
Lemma predict_summary_fields_witness :
  (exists s,
     format_prediction demo_title 0 (noon_item 0 "2024-01-15") = Py.Ok s /\
     temperature s = Py.PFloat 21.5 /\
     s_temp_min s = Py.PInt 19 /\
     s_humidity s = Py.PInt 64 /\
     weather_description s = "Light Rain" /\
     s_visibility s = Py.JNum (Py.PInt 10000)) /\
  String.length (title demo_title "light rain") = 10%nat /\
  String.get 6 (title demo_title "light rain") = Some "R"%char.
Proof.
  destruct (predict_summary_fields demo_title)
    as (Hfields & _ & _ & _ & _ & _ & _ & Htitle & _).
  split.
  - destruct (format_prediction demo_title 0 (noon_item 0 "2024-01-15"))
      as [s|] eqn:E; [|vm_compute in E; discriminate E].
    exists s. split; [reflexivity|].
    destruct (Hfields _ _ _ E)
      as (Ht & _ & Hmin & _ & _ & Hh & _ & _ & _ & Hd & Hv).
    rewrite Ht, Hmin, Hh, Hd, Hv. vm_compute. repeat split; reflexivity.
  - destruct (Htitle "light rain" eq_refl) as (Hlen & _ & Hnext).
    split; [exact Hlen|].
    apply (Hnext 5%nat " "%char "r"%char); reflexivity.
Defined.

(** London passes; latitude 91, longitude 180.5 and a body without
    longitude are answered with 400. *)
Lemma predict_validates_coordinates_witness :
  validate demo_float_of_str body_london
  = Py.Ok (Accepted 51.5%float (-0.12)%float) /\
  predict utc demo_float_of_str demo_str demo_now demo_title
          (Py.Ok body_latitude_91) (Some "key") upstream_empty
  = (400, Error "Invalid latitude. Must be between -90 and 90") /\
  predict utc demo_float_of_str demo_str demo_now demo_title
          (Py.Ok body_longitude_180_5) (Some "key") upstream_empty
  = (400, Error "Invalid longitude. Must be between -180 and 180") /\
  predict utc demo_float_of_str demo_str demo_now demo_title
          (Py.Ok body_no_longitude) (Some "key") upstream_empty
  = (400, Error "Missing required fields: latitude, longitude") /\
  predict utc demo_float_of_str demo_str demo_now demo_title
          (Py.Ok Py.JNull) (Some "key") upstream_empty
  = (400, Error "Missing required fields: latitude, longitude").
Proof.
  destruct (predict_validates_coordinates utc demo_float_of_str demo_str
                                          demo_now demo_title)
    as (Hok & Hlat & Hlon & Hmiss).
  split.
  { apply (Hok _ (Py.JNum (Py.PFloat 51.5)) (Py.JNum (Py.PFloat (-0.12))));
      reflexivity. }
  split.
  { apply (Hlat _ (Py.JNum (Py.PInt 91)) (Py.JNum (Py.PInt 0))
                91%float 0%float); try reflexivity.
    right. reflexivity. }
  split.
  { apply (Hlon _ (Py.JNum (Py.PInt 10)) (Py.JNum (Py.PFloat 180.5))
                10%float 180.5%float); try reflexivity.
    right. reflexivity. }
  split.
  { apply Hmiss. right. eexists. split; [reflexivity|]. right. reflexivity. }
  apply Hmiss. left. reflexivity.
Defined.

(** London, with a key and an upstream whose list is empty: 200 and no
    predictions. *)
Lemma predict_empty_forecast_list_witness :
  exists location,
    loc_sunrise location = "N/A" /\ loc_sunset location = "N/A" /\
    predict utc demo_float_of_str demo_str demo_now demo_title
            (Py.Ok body_london) (Some "key") upstream_empty
    = (200, Success {| p_location := location;
                       p_predictions := [];
                       p_generated_at := demo_now |}).
Proof.
  apply (proj1 (proj2 (proj2 (predict_empty_forecast_list utc
                                demo_float_of_str demo_str demo_now
                                demo_title)))
               body_london 51.5%float (-0.12)%float (Some "key") "key"
               upstream_empty
               {| status_code := 200;
                  json_ok := Py.Ok {| city := None; list_ := Some [] |};
                  json_err := Py.Raise (Py.ValueError "") |}
               {| city := None; list_ := Some [] |});
    try reflexivity.
  - left. reflexivity.
  - left. reflexivity.
Defined.

(** A latitude that is not a number, and a missing longitude. *)
Lemma current_weather_failures_are_500_witness :
  get_current_weather demo_float_of_str demo_str demo_now
                      [("latitude", "north"); ("longitude", "10")]
                      (Some "key") upstream_down
  = (500, Error "Failed to fetch weather data") /\
  get_current_weather demo_float_of_str demo_str demo_now
                      [("latitude", "51.5")] (Some "key") upstream_down
  = (500, Error "Failed to fetch weather data") /\
  fst (get_current_weather demo_float_of_str demo_str demo_now
                           [("latitude", "51.5"); ("longitude", "10")]
                           None upstream_down) = 500.
Proof.
  split; [|split].
  - apply (proj1 (proj2 (proj2 (proj2 (proj2 (proj2
             (current_weather_failures_are_500 demo_float_of_str demo_str
                demo_now [("latitude", "north"); ("longitude", "10")]
                (Some "key") upstream_down))))))).
    right. right. left. exists "north". eexists. split; reflexivity.
  - apply (proj1 (proj2 (proj2 (proj2 (proj2 (proj2
             (current_weather_failures_are_500 demo_float_of_str demo_str
                demo_now [("latitude", "51.5")]
                (Some "key") upstream_down))))))).
    right. left. reflexivity.
  - apply (proj1 (proj2 (proj2 (proj2 (proj2 (proj2 (proj2
             (current_weather_failures_are_500 demo_float_of_str demo_str
                demo_now [("latitude", "51.5"); ("longitude", "10")]
                None upstream_down)))))))).
    reflexivity.
Defined.

(** Latitude 0.0 on the equator: no filter, and with limit 2 the two newest
    rows of all places come back. *)
Lemma history_filter_needs_both_nonzero_witness :
  q_filter (history_query demo_float_of_str demo_int_of_str
              [("latitude", "0.0"); ("longitude", "10"); ("limit", "2")])
  = None /\
  (exists payload,
     get_prediction_history demo_float_of_str demo_int_of_str
       [("latitude", "0.0"); ("longitude", "10"); ("limit", "2")]
       (Py.Ok stored_rows)
     = (200, Success payload) /\
     h_count payload = 2 /\
     map (Py.dict_get "id") (h_predictions payload)
     = [Some (Py.JNum (Py.PInt 3)); Some (Py.JNum (Py.PInt 2))]) /\
  q_filter (history_query demo_float_of_str demo_int_of_str
              [("latitude", "51.5"); ("longitude", "10")])
  = Some (51.5%float, 10%float).
Proof.
  pose proof (history_filter_needs_both_nonzero demo_float_of_str
                demo_int_of_str
                [("latitude", "0.0"); ("longitude", "10"); ("limit", "2")])
    as H.
  cbv zeta in H. destruct H as (_ & _ & Hskip & Hcap & _).
  destruct Hskip as [Hq _].
  { right. right. left. exists 0%float. split; reflexivity. }
  split; [exact Hq|].
  split.
  { destruct (Hcap stored_rows) as [Hget _].
    { vm_compute. split; [discriminate | reflexivity]. }
    eexists. split; [exact Hget|]. split; vm_compute; reflexivity. }
  pose proof (history_filter_needs_both_nonzero demo_float_of_str
                demo_int_of_str [("latitude", "51.5"); ("longitude", "10")])
    as H.
  cbv zeta in H. apply (proj1 H). repeat split; reflexivity.
Defined.

(** With limit -1 and no coordinates the three stored rows come back, more
    than the limit asked for; with limit 2^63 the answer is 500 and no
    record is returned. *)
Lemma history_filter_needs_both_nonzero_counterexample :
  arg_int demo_int_of_str [("limit", "-1")] "limit" 100 = -1 /\
  get_prediction_history demo_float_of_str demo_int_of_str
    [("limit", "-1")] (Py.Ok stored_rows)
  = (200, Success {| h_count := 3;
                     h_predictions :=
                       map to_dict
                           (order_by_created_at_desc stored_rows) |}) /\
  -1 < 3 /\
  arg_int demo_int_of_str [("limit", "9223372036854775808")] "limit" 100
  = 2 ^ 63 /\
  get_prediction_history demo_float_of_str demo_int_of_str
    [("limit", "9223372036854775808")] (Py.Ok stored_rows)
  = (500, Error "Failed to fetch predictions").
Proof.
  split; [reflexivity|].
  split; [vm_compute; reflexivity|].
  split; [reflexivity|].
  split; vm_compute; reflexivity.
Defined.

(** The acknowledgement is only given to an object body. *)
Lemma train_null_body_is_500_witness :
  train_model (Py.Ok Py.JNull) = (500, Error "Failed to initiate training") /\
  exists items,
    Py.Ok (Py.JObj [("model_type", Py.JStr "lstm")]) = Py.Ok (Py.JObj items).
Proof.
  destruct train_null_body_is_500 as (Hnull & _ & Hobj & _ & Honly).
  split; [exact Hnull|].
  apply (Honly (Py.Ok (Py.JObj [("model_type", Py.JStr "lstm")])) _
               (Hobj [("model_type", Py.JStr "lstm")])).
Defined.

(** An integer of 401 digits as latitude is answered with 500; a longitude
    that is not a number with 400, also beside a latitude out of range. *)
Lemma predict_conversion_failures_witness :
  predict utc demo_float_of_str demo_str demo_now demo_title
          (Py.Ok (Py.JObj [("latitude", Py.JNum (Py.PInt (10 ^ 400)));
                           ("longitude", Py.JNum (Py.PInt 0))]))
          (Some "key") upstream_empty
  = (500, Error "Failed to generate predictions") /\
  predict utc demo_float_of_str demo_str demo_now demo_title
          (Py.Ok (Py.JObj [("latitude", Py.JNum (Py.PInt 91));
                           ("longitude", Py.JStr "abc")]))
          (Some "key") upstream_empty
  = (400, Error "Invalid input: could not convert string to float").
Proof.
  destruct (predict_conversion_failures utc demo_float_of_str demo_str
              demo_now demo_title) as (_ & Hlat & Hlon & _).
  split.
  - apply (Hlat _ (Py.JNum (Py.PInt (10 ^ 400))) (Py.JNum (Py.PInt 0))
                (Some "key") upstream_empty Py.OverflowError);
      reflexivity.
  - apply (Hlon _ (Py.JNum (Py.PInt 91)) (Py.JStr "abc")
                (Some "key") upstream_empty 91%float
                "could not convert string to float"); reflexivity.
Defined.

(** The body [5] is answered with 500, the body [0] with 400, the list of
    the two names with 500 and a string holding both with 500. *)
Lemma predict_body_not_an_object_witness :
  predict utc demo_float_of_str demo_str demo_now demo_title
          (Py.Ok (Py.JNum (Py.PInt 5))) (Some "key") upstream_empty
  = (500, Error "Failed to generate predictions") /\
  predict utc demo_float_of_str demo_str demo_now demo_title
          (Py.Ok (Py.JNum (Py.PInt 0))) (Some "key") upstream_empty
  = (400, Error "Missing required fields: latitude, longitude") /\
  predict utc demo_float_of_str demo_str demo_now demo_title
          (Py.Ok (Py.JArr [Py.JStr "latitude"; Py.JStr "longitude"]))
          (Some "key") upstream_empty
  = (500, Error "Failed to generate predictions") /\
  predict utc demo_float_of_str demo_str demo_now demo_title
          (Py.Ok (Py.JStr "my latitude and longitude"))
          (Some "key") upstream_empty
  = (500, Error "Failed to generate predictions").
Proof.
  destruct (predict_body_not_an_object utc demo_float_of_str demo_str demo_now
              demo_title)
    as (Hfalsy & _ & _ & Hnum & Hstr & _ & Hlist & _).
  split; [apply Hnum; reflexivity|].
  split; [apply Hfalsy; reflexivity|].
  split.
  - apply Hlist; [left; reflexivity | right; left; reflexivity].
  - apply Hstr.
    + exists "my ", " and longitude". reflexivity.
    + exists "my latitude and ", "". reflexivity.
Defined.

(** A request over two days around London keeps the observations in the box
    and in the period; without a longitude the answer is 500. *)
Lemma historical_weather_rows_witness :
  (exists data,
     get_historical_weather demo_float_of_str demo_fromisoformat
       [("latitude", "51.5"); ("longitude", "10");
        ("start_date", "2024-01-15"); ("end_date", "2024-01-17")]
       (Py.Ok observed_rows)
     = (200, Success {| hw_count := Z.of_nat (List.length data);
                        hw_data := map weather_to_dict data |}) /\
     In (observed 1 day0 51.5%float 10.25%float) data /\
     forall d, In d data ->
       Datetime.leb (w_timestamp d) (Datetime.of_wall (day0 + 2 * 86400))
       = true) /\
  get_historical_weather demo_float_of_str demo_fromisoformat
    [("latitude", "51.5")] (Py.Ok observed_rows)
  = (500, Error "Failed to fetch historical data").
Proof.
  split.
  - pose proof (historical_weather_rows demo_float_of_str demo_fromisoformat
                  [("latitude", "51.5"); ("longitude", "10");
                   ("start_date", "2024-01-15"); ("end_date", "2024-01-17")])
      as (_ & _ & _ & Hq & _).
    specialize (Hq "51.5" "10" 51.5%float 10%float
                   (Some (Datetime.of_wall day0))
                   (Some (Datetime.of_wall (day0 + 2 * 86400)))
                   eq_refl eq_refl eq_refl eq_refl).
    cbv zeta in Hq. destruct Hq as [_ Hrows].
    { right. exists "2024-01-15", (Datetime.of_wall day0).
      repeat split. discriminate. }
    { right. exists "2024-01-17", (Datetime.of_wall (day0 + 2 * 86400)).
      repeat split. discriminate. }
    destruct (Hrows observed_rows)
      as (data & Hget & _ & Hin & _ & _ & Hall).
    exists data. split; [exact Hget|].
    split.
    + apply Hall;
        [ apply Nat.leb_le; vm_compute; reflexivity
        | left; reflexivity
        | vm_compute; reflexivity ..
        | intros t [= <-]; vm_compute; reflexivity
        | intros t [= <-]; vm_compute; reflexivity ].
    + intros d Hd.
      destruct (Hin d Hd) as (_ & _ & _ & _ & _ & _ & Hend).
      now apply Hend.
  - apply (proj1 (historical_weather_rows demo_float_of_str demo_fromisoformat
                    [("latitude", "51.5")])).
    right. left. reflexivity.
Defined.

(** With a box around (10, 10), only the prediction stored there comes
    back; a limit of 2^63 is answered with 500. *)
Lemma history_rows_witness :
  (exists out,
     get_prediction_history demo_float_of_str demo_int_of_str
       [("latitude", "10"); ("longitude", "10")]
       (Py.Ok (stored 4 (day0 + 10800) 10.25%float 9.75%float :: stored_rows))
     = (200, Success {| h_count := Z.of_nat (List.length out);
                        h_predictions := map to_dict out |}) /\
     map id out = [4]) /\
  get_prediction_history demo_float_of_str demo_int_of_str
    [("limit", "9223372036854775808")] (Py.Ok stored_rows)
  = (500, Error "Failed to fetch predictions").
Proof.
  split.
  - pose proof (history_rows demo_float_of_str demo_int_of_str
                  [("latitude", "10"); ("longitude", "10")]) as H.
    cbv zeta in H. destruct H as (_ & _ & Hin & _).
    destruct (Hin ltac:(vm_compute; split; [discriminate | reflexivity])
                  (stored 4 (day0 + 10800) 10.25%float 9.75%float
                   :: stored_rows))
      as (out & Hget & Hout & _).
    exists out. split; [exact Hget|].
    vm_compute in Hout. injection Hout as <-. reflexivity.
  - pose proof (history_rows demo_float_of_str demo_int_of_str
                  [("limit", "9223372036854775808")]) as H.
    cbv zeta in H. destruct H as (_ & Hover & _).
    apply Hover. right. vm_compute. discriminate.
Defined.

(** Asked for the model lstm, the endpoint returns rows of that model
    only. *)
Lemma model_performance_rows_witness :
  exists out,
    get_model_performance [("model_name", "lstm")] (Py.Ok measured_rows)
    = (200, Success {| mp_count := Z.of_nat (List.length out);
                       mp_metrics := map performance_to_dict out |}) /\
    (forall m, In m out -> m_model_name m = "lstm").
Proof.
  destruct (proj2 (model_performance_rows [("model_name", "lstm")])
              measured_rows)
    as (out & Hget & _ & _ & _ & Hname & _).
  exists out. split; [exact Hget|].
  intros m Hm. apply (Hname "lstm" m eq_refl); [discriminate|exact Hm].
Defined.

(** A valid request against an upstream without samples is answered with
    200 and no predictions. *)
Lemma predict_answers_witness :
  exists payload,
    snd (predict utc demo_float_of_str demo_str demo_now demo_title
                 (Py.Ok body_london) (Some "secret") upstream_london)
    = Success payload /\
    fst (predict utc demo_float_of_str demo_str demo_now demo_title
                 (Py.Ok body_london) (Some "secret") upstream_london)
    = 200 /\
    (List.length (p_predictions payload) <= 5)%nat /\
    p_generated_at payload = demo_now.
Proof.
  pose proof (predict_answers utc demo_float_of_str demo_str demo_now demo_title
                (Py.Ok body_london) (Some "secret") upstream_london) as H.
  cbv zeta in H. destruct H as (_ & _ & H).
  eassert (E : snd (predict utc demo_float_of_str demo_str demo_now demo_title
                      (Py.Ok body_london) (Some "secret") upstream_london)
               = Success _) by (vm_compute; reflexivity).
  destruct (H _ E) as (H200 & _ & _ & Hlen & _ & Hat & _).
  eexists. split; [exact E|]. split; [exact H200|]. split; [exact Hlen|].
  exact Hat.
Defined.

(** An upstream that refuses the key gives 500 with the upstream's
    message. *)
Lemma predict_upstream_failures_witness :
  validate demo_float_of_str body_london
  = Py.Ok (Accepted 51.5%float (-0.12)%float) /\
  predict utc demo_float_of_str demo_str demo_now demo_title
          (Py.Ok body_london) (Some "secret") upstream_401
  = (500, Error "Weather API error: Invalid API key").
Proof.
  assert (Hv : validate demo_float_of_str body_london
               = Py.Ok (Accepted 51.5%float (-0.12)%float)) by reflexivity.
  split; [exact Hv|].
  destruct (predict_upstream_failures utc demo_float_of_str demo_str demo_now demo_title
              body_london _ _ (Some "secret") upstream_401 Hv)
    as (_ & _ & _ & H & _).
  apply (H "secret" _ [("cod", Py.JNum (Py.PInt 401));
                       ("message", Py.JStr "Invalid API key")]
           eq_refl eq_refl); [discriminate|reflexivity].
Defined.


(** The readings of the upstream are passed on as they came. *)
Lemma current_weather_passes_through_witness :
  py_float_arg demo_float_of_str
    (Py.dict_get "latitude" [("latitude", "51.5"); ("longitude", "10")])
  = Py.Ok 51.5%float /\
  get_current_weather demo_float_of_str demo_str demo_now
    [("latitude", "51.5"); ("longitude", "10")] (Some "secret")
    upstream_current
  = (200, Success
       {| c_timestamp := demo_now;
          c_latitude := 51.5%float;
          c_longitude := 10%float;
          c_location_name := Py.JStr "London";
          c_temperature := Py.JNum (Py.PFloat 11.5);
          c_humidity := Py.JNum (Py.PInt 80);
          c_pressure := Py.JNum (Py.PInt 1012);
          c_wind_speed := Py.JNum (Py.PFloat 4.5);
          c_weather_description := Py.JStr "light rain";
          c_weather_icon := Py.JStr "10d" |}).
Proof.
  split; [reflexivity|].
  destruct (current_weather_passes_through demo_float_of_str demo_str demo_now
              [("latitude", "51.5"); ("longitude", "10")]
              51.5%float 10%float (Some "secret") "secret" upstream_current
              eq_refl eq_refl eq_refl)
    as (_ & H & _).
  eapply (H _ current_london); reflexivity.
Defined.

(** Under testing the debug flag follows DEBUG=TRUE, an empty DATA_PATH
    gives the default, and staging is no configuration. *)
Lemma config_by_name_classes_witness :
  exists c,
    config_by_name demo_float_of_str demo_int_of_str demo_int_error
      environ_demo "testing" = Py.Ok c /\
    DEBUG c = true /\
    DATA_PATH c = "./data" /\
    config_by_name demo_float_of_str demo_int_of_str demo_int_error
      environ_demo "staging" = Py.Raise Py.KeyError.
Proof.
  eassert (Hb : Config demo_float_of_str demo_int_of_str demo_int_error
                  environ_demo = Py.Ok _) by (vm_compute; reflexivity).
  pose proof (config_by_name_classes demo_float_of_str demo_int_of_str
                demo_int_error environ_demo _ Hb) as (_ & Hkey & Hall).
  eassert (Hc : config_by_name demo_float_of_str demo_int_of_str demo_int_error
                  environ_demo "testing" = Py.Ok _)
    by (vm_compute; reflexivity).
  eexists. split; [exact Hc|].
  destruct (Hall "testing" _ Hc)
    as ([([Hn | Hn] & _) | [(Hn & _) | (_ & Hdbg & _ & _)]]
        & _ & _ & _ & _ & _ & _ & Hdp & _);
    try discriminate Hn.
  split; [apply Hdbg; vm_compute; reflexivity|].
  split; [apply Hdp; right; reflexivity|].
  apply Hkey; discriminate.
Defined.

(** A PORT that is no integer fails the import, for every name. *)
Lemma config_import_needs_numbers_witness :
  config_by_name demo_float_of_str demo_int_of_str demo_int_error
    [("PORT", "http")] "default"
  = Py.Raise (Py.ValueError "invalid literal for int() with base 10: 'http'").
Proof.
  destruct (config_import_needs_numbers demo_float_of_str demo_int_of_str
              demo_int_error [("PORT", "http")])
    as (_ & Hport & _ & Hraise & _).
  apply (proj2 (Hraise _ (Hport "http" eq_refl eq_refl))).
Defined.

(** Without a key in the environment a valid request is answered 500
    although the upstream would have answered. *)
Lemma unset_api_key_answers_500_witness :
  exists base,
    Config demo_float_of_str demo_int_of_str demo_int_error [("PORT", "2")]
    = Py.Ok base /\
    predict utc demo_float_of_str demo_str demo_now demo_title
            (Py.Ok body_london) (OPENWEATHER_API_KEY base) upstream_london
    = (500, Error "OpenWeatherMap API key not configured").
Proof.
  eassert (Hb : Config demo_float_of_str demo_int_of_str demo_int_error
                  [("PORT", "2")] = Py.Ok _) by (vm_compute; reflexivity).
  eexists. split; [exact Hb|].
  destruct (unset_api_key_answers_500 utc demo_float_of_str demo_int_of_str
              demo_str demo_now demo_title demo_int_error [("PORT", "2")] _ Hb)
    as (Hunset & _).
  destruct (Hunset (or_introl eq_refl)) as (Hpredict & _).
  apply (Hpredict body_london 51.5%float (-0.12)%float). reflexivity.
Defined.

(** On a file system that only has ./logs, the four other directories are
    made, and a second call makes nothing. *)
Lemma create_directories_ensures_witness :
  exists c fs' log,
    Config demo_float_of_str demo_int_of_str demo_int_error environ_demo
    = Py.Ok c /\
    create_directories (list string) listed_exists listed_makedirs c
      ["./logs"] = Py.Ok (fs', log) /\
    listed_exists fs' "./data/raw" = true /\
    List.length log = 4%nat /\
    create_directories (list string) listed_exists listed_makedirs c fs'
    = Py.Ok (fs', []).
Proof.
  eassert (Hb : Config demo_float_of_str demo_int_of_str demo_int_error
                  environ_demo = Py.Ok _) by (vm_compute; reflexivity).
  match type of Hb with
  | _ = Py.Ok ?c =>
      eassert (Hrun : create_directories (list string) listed_exists
                        listed_makedirs c ["./logs"] = Py.Ok (_, _))
        by (vm_compute; reflexivity);
      destruct (create_directories_ensures (list string) listed_exists
                  listed_makedirs c ["./logs"]) as (Hok & _)
  end.
  - intros fs d fs' [= <-]. unfold listed_exists. cbn [existsb].
    now rewrite String.eqb_refl.
  - intros fs d fs' p [= <-] Hp. unfold listed_exists in *. cbn [existsb].
    rewrite Hp. apply Bool.orb_true_r.
  - destruct (Hok _ _ Hrun) as (Hall & _ & _ & Hagain).
    do 3 eexists. split; [exact Hb|]. split; [exact Hrun|].
    split; [apply Hall; right; right; right; left; vm_compute; reflexivity|].
    split; [reflexivity|exact Hagain].
Defined.

(** The year 10000 in the upstream list is answered with 400 and the
    message of the conversion; a timestamp beyond the C library with 500. *)
Lemma predict_timestamp_failures_witness :
  predict utc demo_float_of_str demo_str demo_now demo_title
          (Py.Ok body_london) (Some "secret")
          (fun _ _ _ =>
             Py.Ok {| status_code := 200;
                      json_ok :=
                        Py.Ok {| city := None;
                                 list_ := Some [sample_at day0;
                                                sample_at 253402300800] |};
                      json_err := Py.Raise (Py.ValueError "") |})
  = (400, Error "Invalid input: year 10000 is out of range") /\
  Datetime.fromtimestamp utc (-62135596800)
  = Py.Raise (Py.ValueError "year 0 is out of range") /\
  Datetime.fromtimestamp utc (10 ^ 18) = Py.Raise Py.OSError /\
  Datetime.fromtimestamp utc (2 ^ 63) = Py.Raise Py.OverflowError.
Proof.
  assert (Hv : validate demo_float_of_str body_london
               = Py.Ok (Accepted 51.5%float (-0.12)%float)) by reflexivity.
  split.
  - pose proof (predict_timestamp_failures utc demo_float_of_str demo_str
                  demo_now demo_title _ _ _ (Some "secret") "secret"
                  (fun _ _ _ =>
                     Py.Ok {| status_code := 200;
                              json_ok :=
                                Py.Ok {| city := None;
                                         list_ := Some [sample_at day0;
                                                        sample_at 253402300800] |};
                              json_err := Py.Raise (Py.ValueError "") |})
                  _ _ Hv eq_refl eq_refl eq_refl eq_refl) as H.
    cbv zeta in H. destruct H as (Hlist & _).
    apply (Hlist [sample_at day0] (sample_at 253402300800) []
                 (Py.ValueError "year 10000 is out of range")).
    + reflexivity.
    + constructor; [|constructor]. eexists. vm_compute. reflexivity.
    + vm_compute. reflexivity.
  - split; [|split]; vm_compute; reflexivity.
Defined.
